(** * A shallow embedding of the host-resource monitoring pipeline

    The development follows the three Python classes of the repository:
    [ResourceMonitor] (src/resource_monitor.py), [KernelEventAnalyzer]
    (src/kernel_event_analyzer.py) and [ReportGenerator]
    (src/report_generator.py).

    Conventions of the embedding:
    - Python numbers (the percentages and megabyte figures) are exact
      rationals [Q], the values that the floats of the source denote;
      comparisons against the integer thresholds of the source are
      therefore the comparisons the source performs on every finite
      value. Where the source adds, subtracts or divides floats (the
      averages and the trend), the result is rounded to binary64
      ([round_float]).
    - Python [str] is [string]; a character is a code point below 256.
    - A raised exception is a value [Raise e] of [result]; [try]/[except]
      is [try_except].
    - [datetime.now().isoformat()] is the reading [clock t] of a clock
      oracle at tick [t]; every call advances the tick, which is passed
      explicitly.
    - [re.search] is a parameter of the scanner ([re_search]); module
      [Regex] gives a backtracking engine for the patterns of the source,
      used to run the scanner on concrete lines.
    - A dictionary whose keys may be absent ([{}] against the six-key
      process record) is a [gmap string PyVal]; dictionaries with a fixed
      key set are records. *)

From Stdlib Require Import QArith ZArith String Ascii List Lia Lqa Qround Qabs Sorted.
From stdpp Require Import gmap strings list pretty.

Local Open Scope Z_scope.

(** ** Python primitives *)

Module Py.

Inductive exn : Type :=
| NoSuchProcess
| AccessDenied
| KeyError
| TypeError
| ValueError
| ZeroDivisionError.

Inductive result (A : Type) : Type :=
| Ok (a : A)
| Raise (e : exn).
Arguments Ok {A} a.
Arguments Raise {A} e.

Definition bind {A B} (m : result A) (f : A -> result B) : result B :=
  match m with
  | Ok a => f a
  | Raise e => Raise e
  end.

(** [try: body except <handled>: handler]. *)
Definition try_except {A} (body : result A) (handled : exn -> bool)
           (handler : result A) : result A :=
  match body with
  | Ok a => Ok a
  | Raise e => if handled e then handler else Raise e
  end.

Definition is_ok {A} (m : result A) : bool :=
  match m with Ok _ => true | Raise _ => false end.

(** Comparisons of numbers, as booleans. *)
Definition Qgtb (x y : Q) : bool := negb (Qle_bool x y).
Definition Qltb (x y : Q) : bool := negb (Qle_bool y x).

(** [max(xs)]: the first maximal element; [ValueError] on an empty list. *)
Definition max (xs : list Q) : result Q :=
  match xs with
  | [] => Raise ValueError
  | x :: rest => Ok (fold_left (fun m y => if Qgtb y m then y else m) rest x)
  end.

(** [min(xs)]: the first minimal element; [ValueError] on an empty list. *)
Definition min (xs : list Q) : result Q :=
  match xs with
  | [] => Raise ValueError
  | x :: rest => Ok (fold_left (fun m y => if Qltb y m then y else m) rest x)
  end.

(** Rounding to the nearest integer, ties to even. *)
Definition round_half_even (q : Q) : Z :=
  let f := Qfloor q in
  match Qcompare (q - inject_Z f) (1 # 2) with
  | Lt => f
  | Gt => f + 1
  | Eq => if Z.even f then f else f + 1
  end.

(** [round(x, 2)]. *)
Definition round2 (q : Q) : Q := Qred (inject_Z (round_half_even (q * 100)) / 100).

(** Binary64 arithmetic. The numbers of the model are the rationals that
    Python floats denote; the result of a float operation is the nearest
    binary64 value, ties to even, which may be an infinity, or it is not
    a number. [0.0] and [-0.0] are one number. *)
Inductive float : Type :=
| Finite (q : Q)
| Infinity (negative : bool)
| NaN.

Definition pow2 (k : Z) : Q :=
  match k with
  | Z0 => 1
  | Zpos p => inject_Z (Z.pow_pos 2 p)
  | Zneg p => 1 # (Pos.pow 2 p)
  end.

(** The binary64 value nearest to [q]: 53 significant bits, the least
    exponent of the last bit -1074, overflow from 2^1024 on. *)
Definition round_float (q : Q) : float :=
  if Qeq_bool q 0 then Finite 0
  else
    let a := Qabs q in
    let e0 := Z.log2 (Qnum a) - Z.log2 (Zpos (Qden a)) in
    let e := if Qle_bool (pow2 e0) a then e0 else e0 - 1 in
    let p := Z.max (e - 52) (-1074) in
    let m := round_half_even (a / pow2 p) in
    let r := (inject_Z m * pow2 p)%Q in
    if Qle_bool (pow2 1024) r then Infinity (Qltb q 0)
    else Finite (Qred (if Qltb q 0 then - r else r)).

Definition float_neg (x : float) : float :=
  match x with
  | Finite a => Finite (- a)
  | Infinity s => Infinity (negb s)
  | NaN => NaN
  end.

(** [x + y] and [x - y] on floats. *)
Definition float_add (x y : float) : float :=
  match x, y with
  | Finite a, Finite b => round_float (a + b)
  | Finite _, Infinity s => Infinity s
  | Infinity s, Finite _ => Infinity s
  | Infinity s, Infinity s' => if Bool.eqb s s' then Infinity s else NaN
  | _, _ => NaN
  end.

Definition float_sub (x y : float) : float := float_add x (float_neg y).

(** [x / y] on floats; a zero divisor raises. *)
Definition float_truediv (x y : float) : result float :=
  match y with
  | Finite b =>
      if Qeq_bool b 0 then Raise ZeroDivisionError
      else match x with
           | Finite a => Ok (round_float (a / b))
           | Infinity s => Ok (Infinity (xorb s (Qltb b 0)))
           | NaN => Ok NaN
           end
  | Infinity _ => Ok (match x with Finite _ => Finite 0 | _ => NaN end)
  | NaN => Ok NaN
  end.

(** [abs(x)], [x < y] and [x > y] on floats; a comparison with what is
    not a number is false. *)
Definition float_abs (x : float) : float :=
  match x with
  | Finite a => Finite (Qabs a)
  | Infinity _ => Infinity false
  | NaN => NaN
  end.

Definition float_lt (x y : float) : bool :=
  match x, y with
  | Finite a, Finite b => Qltb a b
  | Finite _, Infinity s => negb s
  | Infinity s, Finite _ => s
  | Infinity s, Infinity s' => s && negb s'
  | _, _ => false
  end.

Definition float_gt (x y : float) : bool := float_lt y x.

(** [sum(xs)] on a list of floats, as the monitor's percentages are:
    from 0, left to right, each addition rounded (CPython up to 3.11
    adds in this way, without compensation). *)
Definition float_sum (xs : list Q) : float :=
  fold_left (fun acc x => float_add acc (Finite x)) xs (Finite 0).

(** [round(x, 2)] of a float. The figures of the report are numbers: an
    average that overflowed to an infinity or is not a number has no
    counterpart among them and is recorded as 0. *)
Definition float_round2 (x : float) : Q :=
  match x with
  | Finite a => round2 a
  | _ => 0
  end.

(** [f"{x:.1f}"]. *)
Definition fmt1 (q : Q) : string :=
  let t := round_half_even (Qabs q * 10) in
  (if Qltb q 0 then "-" else "") +:+ pretty (t / 10) +:+ "." +:+ pretty (t mod 10).

(** Values stored in the loosely typed dictionaries: numbers and text. *)
Inductive PyVal : Type :=
| VNum (q : Q)
| VStr (s : string).

(** [a < b] on dictionary values; numbers and text do not compare. *)
Definition lt (a b : PyVal) : result bool :=
  match a, b with
  | VNum x, VNum y => Ok (Qltb x y)
  | VStr x, VStr y => Ok (String.ltb x y)
  | _, _ => Raise TypeError
  end.

(** [a - b] on dictionary values. *)
Definition sub (a b : PyVal) : result PyVal :=
  match a, b with
  | VNum x, VNum y => Ok (VNum (x - y))
  | _, _ => Raise TypeError
  end.

(** [d[k]]. *)
Definition getitem (d : gmap string PyVal) (k : string) : result PyVal :=
  match d !! k with
  | Some v => Ok v
  | None => Raise KeyError
  end.

(** [d.get(k, dflt)]. *)
Definition get (d : gmap string PyVal) (k : string) (dflt : PyVal) : PyVal :=
  default dflt (d !! k).

(** [max(vs)] on dictionary values. *)
Fixpoint max_from (m : PyVal) (vs : list PyVal) : result PyVal :=
  match vs with
  | [] => Ok m
  | v :: rest =>
      bind (lt m v) (fun b => max_from (if b then v else m) rest)
  end.

Definition max_val (vs : list PyVal) : result PyVal :=
  match vs with
  | [] => Raise ValueError
  | v :: rest => max_from v rest
  end.

(** [xs.sort(key=key, reverse=True)]: every key is computed first, then
    the list is put in descending key order, elements with equal keys
    keeping their relative order. *)
Fixpoint insert_desc {A} (kx : PyVal) (x : A) (l : list (PyVal * A))
  : result (list (PyVal * A)) :=
  match l with
  | [] => Ok [(kx, x)]
  | (ky, y) :: rest =>
      bind (lt kx ky) (fun b =>
        if b then bind (insert_desc kx x rest) (fun r => Ok ((ky, y) :: r))
        else Ok ((kx, x) :: (ky, y) :: rest))
  end.

Fixpoint sort_keyed {A} (l : list (PyVal * A)) : result (list (PyVal * A)) :=
  match l with
  | [] => Ok []
  | (k, x) :: rest => bind (sort_keyed rest) (insert_desc k x)
  end.

Fixpoint keyed {A} (key : A -> result PyVal) (xs : list A)
  : result (list (PyVal * A)) :=
  match xs with
  | [] => Ok []
  | x :: rest =>
      bind (key x) (fun k => bind (keyed key rest) (fun r => Ok ((k, x) :: r)))
  end.

Definition sort_reverse {A} (key : A -> result PyVal) (xs : list A)
  : result (list A) :=
  bind (keyed key xs) (fun ks => bind (sort_keyed ks) (fun s => Ok (snd <$> s))).

End Py.

Notation "'let!' x ':=' m 'in' k" := (Py.bind m (fun x => k))
  (at level 10, x name, m at level 100, k at level 200).

(** ** Records shared by the collector and the reporter *)

(** The six-key process dictionary of [_get_process_dict], or [{}]. *)
Abbreviation ProcDict := (gmap string Py.PyVal).

(** [snapshot['memory']]. *)
Record MemoryInfo : Type := {
  mem_total_mb : Q;
  mem_available_mb : Q;
  mem_used_mb : Q;
  mem_percent : Q;
  mem_free_mb : Q;
  mem_cached_mb : Q;
  mem_buffers_mb : Q;
}.

(** [snapshot['swap']]. *)
Record SwapInfo : Type := {
  swap_total_mb : Q;
  swap_used_mb : Q;
  swap_free_mb : Q;
  swap_percent : Q;
}.

(** [snapshot['cpu']]. *)
Record CpuInfo : Type := {
  cpu_total_percent : Q;
  cpu_cores : option Z;
  cpu_per_core_percent : list Q;
  cpu_frequency_mhz : option Q;
}.

(** [snapshot['load_average']]. *)
Record LoadAverage : Type := {
  load_1min : option Q;
  load_5min : option Q;
  load_15min : option Q;
}.

(** The dictionary built by [collect_snapshot]; the key [leak_process] is
    present only when it was attached. *)
Record Snapshot : Type := {
  timestamp : string;
  memory : MemoryInfo;
  swap : SwapInfo;
  cpu : CpuInfo;
  load_average : LoadAverage;
  top_processes : list ProcDict;
  leak_process : option ProcDict;
}.

(** The dictionary built by [_parse_oom_event]. *)
Record OomEvent : Type := {
  oom_timestamp : string;
  oom_type : string;
  oom_pattern : string;
  oom_pid : option Z;
  oom_process_name : option string;
  oom_score : option Z;
  oom_memory_info : option string;
  oom_raw_line : string;
}.

(** The dictionary built by [_parse_critical_event]. *)
Record CriticalEvent : Type := {
  crit_timestamp : string;
  crit_type : string;
  crit_pattern : string;
  crit_raw_line : string;
}.

(** The dictionary built by [analyze_all_events]. *)
Record Analysis : Type := {
  analysis_timestamp : string;
  total_log_lines : nat;
  oom_events : list OomEvent;
  critical_events : list CriticalEvent;
  oom_events_count : nat;
  critical_events_count : nat;
}.

(** A Python [Optional[int]] argument used in a condition: [None] and [0]
    are false. *)
Definition pid_truthy (pid : option Z) : option Z :=
  match pid with
  | Some p => if p =? 0 then None else Some p
  | None => None
  end.

(** ** ResourceMonitor (src/resource_monitor.py) *)

Module ResourceMonitor.
Import Py.

(** What [psutil] answers for one process: every query either returns
    or raises. *)
Record Process : Type := {
  proc_pid : Z;
  proc_memory_info_rss : result Z;
  proc_name : result string;
  proc_memory_percent : result Q;
  proc_cpu_percent : result Q;
  proc_status : result string;
}.

(** [psutil.virtual_memory()]. *)
Record svmem : Type := {
  vm_total : Z;
  vm_available : Z;
  vm_used : Z;
  vm_percent : Q;
  vm_free : Z;
  vm_cached : option Z;
  vm_buffers : option Z;
}.

(** [psutil.swap_memory()]. *)
Record sswap : Type := {
  sw_total : Z;
  sw_used : Z;
  sw_free : Z;
  sw_percent : Q;
}.

(** The host as [psutil] shows it during one call. *)
Record Host : Type := {
  virtual_memory : svmem;
  swap_memory : sswap;
  host_cpu_percent : Q;
  host_cpu_percent_percpu : list Q;
  host_cpu_count : option Z;
  host_cpu_freq_current : option Q;
  host_getloadavg : option (Q * Q * Q);
  process_iter : list Process;
}.

(** [psutil.Process(pid)]: a negative pid is refused with [ValueError]
    before the process table is looked at. *)
Definition Process_of (h : Host) (pid : Z) : result Process :=
  if pid <? 0 then Raise ValueError
  else
    match find (fun p => proc_pid p =? pid) (process_iter h) with
    | Some p => Ok p
    | None => Raise NoSuchProcess
    end.

Definition to_mb (bytes : Z) : Q := round2 (inject_Z bytes / inject_Z (1024 * 1024)).

Section Clocked.
Variable clock : nat -> string.

Definition get_memory_info (h : Host) (t : nat)
  : string * MemoryInfo * SwapInfo * nat :=
  let mem := virtual_memory h in
  let swap := swap_memory h in
  (clock t,
   {| mem_total_mb := to_mb (vm_total mem);
      mem_available_mb := to_mb (vm_available mem);
      mem_used_mb := to_mb (vm_used mem);
      mem_percent := vm_percent mem;
      mem_free_mb := to_mb (vm_free mem);
      mem_cached_mb := to_mb (default 0 (vm_cached mem));
      mem_buffers_mb := to_mb (default 0 (vm_buffers mem)) |},
   {| swap_total_mb := to_mb (sw_total swap);
      swap_used_mb := to_mb (sw_used swap);
      swap_free_mb := to_mb (sw_free swap);
      swap_percent := sw_percent swap |},
   S t).

Definition get_cpu_info (h : Host) (t : nat)
  : string * CpuInfo * LoadAverage * nat :=
  (clock t,
   {| cpu_total_percent := host_cpu_percent h;
      cpu_cores := host_cpu_count h;
      cpu_per_core_percent := host_cpu_percent_percpu h;
      cpu_frequency_mhz := round2 <$> host_cpu_freq_current h |},
   {| load_1min := (fun l => round2 (fst (fst l))) <$> host_getloadavg h;
      load_5min := (fun l => round2 (snd (fst l))) <$> host_getloadavg h;
      load_15min := (fun l => round2 (snd l)) <$> host_getloadavg h |},
   S t).

Definition psutil_error (e : exn) : bool :=
  match e with
  | NoSuchProcess | AccessDenied => true
  | _ => false
  end.

Definition no_such_process (e : exn) : bool :=
  match e with
  | NoSuchProcess => true
  | _ => false
  end.

Definition _get_process_dict (proc : Process) : result ProcDict :=
  try_except
    (let! rss := proc_memory_info_rss proc in
     let! name := proc_name proc in
     let! memory_percent := proc_memory_percent proc in
     let! cpu_percent := proc_cpu_percent proc in
     let! status := proc_status proc in
     Ok (<["pid" := VNum (inject_Z (proc_pid proc))]>
         (<["name" := VStr name]>
         (<["memory_mb" := VNum (to_mb rss)]>
         (<["memory_percent" := VNum memory_percent]>
         (<["cpu_percent" := VNum cpu_percent]>
         (<["status" := VStr status]> ∅)))))))
    psutil_error
    (Ok ∅).

(** The loop over [psutil.process_iter], appending to [processes]. *)
Fixpoint enumerate (procs : list Process) (processes : list ProcDict)
  : result (list ProcDict) :=
  match procs with
  | [] => Ok processes
  | proc :: rest =>
      let! processes' :=
        try_except
          (let! d := _get_process_dict proc in Ok (processes ++ [d]))
          psutil_error
          (Ok processes) in
      enumerate rest processes'
  end.

Definition get_process_info (h : Host) (pid : option Z) : result (list ProcDict) :=
  let processes : list ProcDict := [] in
  match pid_truthy pid with
  | Some p =>
      try_except
        (let! proc := Process_of h p in
         let! d := _get_process_dict proc in
         Ok (processes ++ [d]))
        no_such_process
        (Ok processes)
  | None =>
      let! processes := enumerate (process_iter h) processes in
      let! processes := sort_reverse (fun x => getitem x "memory_mb") processes in
      Ok (take 10 processes)
  end.

Definition collect_snapshot (h : Host) (leak_process_pid : option Z) (t : nat)
  : result (Snapshot * nat) :=
  let ts0 := clock t in
  let '(ts1, mem, swp, t1) := get_memory_info h (S t) in
  let '(ts2, cpu, load, t2) := get_cpu_info h t1 in
  let! top := get_process_info h None in
  let snapshot :=
    {| timestamp := ts2; memory := mem; swap := swp; cpu := cpu;
       load_average := load; top_processes := top; leak_process := None |} in
  match pid_truthy leak_process_pid with
  | Some p =>
      let! leak_process_info := get_process_info h (Some p) in
      match leak_process_info with
      | d :: _ =>
          Ok ({| timestamp := ts2; memory := mem; swap := swp; cpu := cpu;
                 load_average := load; top_processes := top;
                 leak_process := Some d |}, t2)
      | [] => Ok (snapshot, t2)
      end
  | None => Ok (snapshot, t2)
  end.

End Clocked.

(** [check_critical_conditions]: the list [warnings] is threaded through
    the four checks. *)
Definition check_critical_conditions (snapshot : Snapshot) : list string :=
  let warnings : list string := [] in
  let mem_percent := mem_percent (memory snapshot) in
  let warnings :=
    if Qgtb mem_percent 90 then
      warnings ++ ["КРИТИЧНО: Использование памяти " +:+ fmt1 mem_percent +:+ "%"]
    else if Qgtb mem_percent 75 then
      warnings ++ ["ПРЕДУПРЕЖДЕНИЕ: Использование памяти " +:+ fmt1 mem_percent +:+ "%"]
    else warnings in
  let swap_percent := swap_percent (swap snapshot) in
  let warnings :=
    if Qgtb swap_percent 80 then
      warnings ++ ["КРИТИЧНО: Использование swap " +:+ fmt1 swap_percent +:+ "%"]
    else if Qgtb swap_percent 50 then
      warnings ++ ["ПРЕДУПРЕЖДЕНИЕ: Использование swap " +:+ fmt1 swap_percent +:+ "%"]
    else warnings in
  let cpu_percent := cpu_total_percent (cpu snapshot) in
  let warnings :=
    if Qgtb cpu_percent 90 then
      warnings ++ ["КРИТИЧНО: Загрузка CPU " +:+ fmt1 cpu_percent +:+ "%"]
    else if Qgtb cpu_percent 80 then
      warnings ++ ["ПРЕДУПРЕЖДЕНИЕ: Загрузка CPU " +:+ fmt1 cpu_percent +:+ "%"]
    else warnings in
  let available_mb := mem_available_mb (memory snapshot) in
  let warnings :=
    if Qltb available_mb 100 then
      warnings ++ ["КРИТИЧНО: Доступно памяти всего " +:+ fmt1 available_mb +:+ " МБ"]
    else warnings in
  warnings.

End ResourceMonitor.

(** ** Text primitives *)

Module Text.

Definition code (c : ascii) : N := N_of_ascii c.

(** [str.isspace] and the class [\s], on code points below 256. *)
Definition is_space (c : ascii) : bool :=
  let n := code c in
  ((9 <=? n) && (n <=? 13) || (28 <=? n) && (n <=? 32)
   || (n =? 133) || (n =? 160))%N.

(** The class [\d], on code points below 256. *)
Definition is_digit (c : ascii) : bool :=
  let n := code c in ((48 <=? n) && (n <=? 57))%N.

Fixpoint lstrip (s : string) : string :=
  match s with
  | String c s' => if is_space c then lstrip s' else s
  | EmptyString => EmptyString
  end.

(** [s.strip()]. *)
Definition strip (s : string) : string :=
  String.rev (lstrip (String.rev (lstrip s))).

(** [not s.strip()]. *)
Definition blank (s : string) : bool :=
  match strip s with
  | EmptyString => true
  | String _ _ => false
  end.

Definition lower_char (c : ascii) : ascii :=
  let n := code c in
  if ((65 <=? n) && (n <=? 90)
      || (192 <=? n) && (n <=? 222) && negb (n =? 215))%N
  then ascii_of_N (n + 32) else c.

(** [s.lower()]. *)
Fixpoint lower (s : string) : string :=
  match s with
  | String c s' => String (lower_char c) (lower s')
  | EmptyString => EmptyString
  end.

(** [sub in s]. *)
Fixpoint contains (sub s : string) : bool :=
  String.prefix sub s ||
  match s with
  | String _ s' => contains sub s'
  | EmptyString => false
  end.

Fixpoint digits_value (acc : Z) (s : string) : option Z :=
  match s with
  | EmptyString => Some acc
  | String c s' =>
      if is_digit c then digits_value (10 * acc + Z.of_N (code c - 48)) s'
      else if (code c =? 95)%N then
        match s' with
        | String d _ => if is_digit d then digits_value acc s' else None
        | EmptyString => None
        end
      else None
  end.

Definition unsigned_value (s : string) : option Z :=
  match s with
  | String c _ => if is_digit c then digits_value 0 s else None
  | EmptyString => None
  end.

(** The number of decimal digits of a text. *)
Fixpoint digit_count (s : string) : nat :=
  match s with
  | String c s' => ((if is_digit c then 1 else 0) + digit_count s')%nat
  | EmptyString => 0%nat
  end.

(** [int(s)] on text: surrounding white space, an optional sign, decimal
    digits with single underscores between them; more than 4300 digits
    are refused (the default of [sys.get_int_max_str_digits()]). *)
Definition int (s : string) : Py.result Z :=
  let body := strip s in
  let v :=
    match body with
    | String "-" rest => Z.opp <$> unsigned_value rest
    | String "+" rest => unsigned_value rest
    | _ => unsigned_value body
    end in
  match v with
  | Some z => if (4300 <? digit_count body)%nat then Py.Raise Py.ValueError else Py.Ok z
  | None => Py.Raise Py.ValueError
  end.

End Text.

(** ** Regular expressions

    [re.search] returns a match object, of which the source reads
    [group(0)] and [group(1)], or [None]. *)

Record Match : Type := {
  group0 : string;
  group1 : string;
}.

Module Regex.
Import Text.

Inductive regex : Type :=
| Eps
| Chr (f : ascii -> bool)
| Seq (r1 r2 : regex)
| Alt (r1 r2 : regex)
| Star (r : regex)
| Group (r : regex).

(** The text consumed between position [s] and the later position [s']. *)
Definition consumed (s s' : string) : string :=
  String.substring 0 (String.length s - String.length s') s.

(** Backtracking match of [r] at the start of [s]; [k] receives the rest
    of the text and the capture. Alternatives are tried left to right and
    [Star] takes as many iterations as it can before giving back. *)
Fixpoint rmatch {A} (r : regex) (s : string) (g : option string)
         (k : string -> option string -> option A) {struct r} : option A :=
  match r with
  | Eps => k s g
  | Chr f =>
      match s with
      | String c s' => if f c then k s' g else None
      | EmptyString => None
      end
  | Seq r1 r2 => rmatch r1 s g (fun s' g' => rmatch r2 s' g' k)
  | Alt r1 r2 =>
      match rmatch r1 s g k with
      | Some x => Some x
      | None => rmatch r2 s g k
      end
  | Star r' =>
      (fix star (n : nat) (s : string) (g : option string) {struct n} : option A :=
         match n with
         | O => k s g
         | S n' =>
             match rmatch r' s g (fun s' g' =>
                     if (String.length s' <? String.length s)%nat
                     then star n' s' g' else None) with
             | Some x => Some x
             | None => k s g
             end
         end) (String.length s) s g
  | Group r' => rmatch r' s g (fun s' _ => k s' (Some (consumed s s')))
  end.

(** The leftmost match of [r] in [s]. *)
Fixpoint search (r : regex) (s : string) : option Match :=
  match rmatch r s None (fun s' g =>
          Some {| group0 := consumed s s'; group1 := default "" g |}) with
  | Some m => Some m
  | None =>
      match s with
      | String _ s' => search r s'
      | EmptyString => None
      end
  end.

Definition Plus (r : regex) : regex := Seq r (Star r).
Definition Opt (r : regex) : regex := Alt r Eps.

Fixpoint Times (n : nat) (r : regex) : regex :=
  match n with
  | O => Eps
  | S n' => Seq r (Times n' r)
  end.

Definition is_char (ignorecase : bool) (c : ascii) : ascii -> bool :=
  fun x =>
    if ignorecase then Ascii.eqb (lower_char x) (lower_char c)
    else Ascii.eqb x c.

(** A literal text. *)
Fixpoint Lit (ignorecase : bool) (s : string) : regex :=
  match s with
  | EmptyString => Eps
  | String c s' => Seq (Chr (is_char ignorecase c)) (Lit ignorecase s')
  end.

(** [.], [\d], [\s] and the bracketed classes of the source. *)
Definition Dot : regex := Chr (fun c => negb (code c =? 10)%N).
Definition Digit : regex := Chr is_digit.
Definition Space : regex := Chr is_space.
Definition OneOf (cs : string) : regex :=
  Chr (fun c => existsb (Ascii.eqb c) (list_ascii_of_string cs)).

(** The patterns that occur in the source, compiled. *)
Definition compile (pattern : string) (i : bool) : option regex :=
  if String.eqb pattern "kernel.*panic" then
    Some (Seq (Lit i "kernel") (Seq (Star Dot) (Lit i "panic")))
  else if String.eqb pattern "kernel.*BUG" then
    Some (Seq (Lit i "kernel") (Seq (Star Dot) (Lit i "BUG")))
  else if String.eqb pattern "kernel.*WARNING" then
    Some (Seq (Lit i "kernel") (Seq (Star Dot) (Lit i "WARNING")))
  else if String.eqb pattern "kernel.*Oops" then
    Some (Seq (Lit i "kernel") (Seq (Star Dot) (Lit i "Oops")))
  else if String.eqb pattern "(\d{4}-\d{2}-\d{2}[\sT]\d{2}:\d{2}:\d{2})" then
    Some (Group
      (Seq (Times 4 Digit) (Seq (Lit i "-") (Seq (Times 2 Digit) (Seq (Lit i "-")
      (Seq (Times 2 Digit) (Seq (Alt Space (Lit i "T"))
      (Seq (Times 2 Digit) (Seq (Lit i ":") (Seq (Times 2 Digit) (Seq (Lit i ":")
      (Times 2 Digit))))))))))))
  else if String.eqb pattern "pid\s*[=:]?\s*(\d+)" then
    Some (Seq (Lit i "pid") (Seq (Star Space) (Seq (Opt (OneOf "=:"))
         (Seq (Star Space) (Group (Plus Digit))))))
  else if String.eqb pattern "process\s+([^\s,]+)" then
    Some (Seq (Lit i "process") (Seq (Plus Space)
         (Group (Plus (Chr (fun c => negb (is_space c || Ascii.eqb c ",")))))))
  else if String.eqb pattern "oom[_-]?score[=:]?\s*(\d+)" then
    Some (Seq (Lit i "oom") (Seq (Opt (OneOf "_-")) (Seq (Lit i "score")
         (Seq (Opt (OneOf "=:")) (Seq (Star Space) (Group (Plus Digit)))))))
  else if String.eqb pattern "(\d+)\s*(kB|MB|GB|bytes)" then
    Some (Seq (Group (Plus Digit)) (Seq (Star Space)
         (Alt (Lit i "kB") (Alt (Lit i "MB") (Alt (Lit i "GB") (Lit i "bytes"))))))
  else if forallb (fun c => negb (existsb (Ascii.eqb c)
                    (list_ascii_of_string ".^$*+?{}[]\|()")))
                  (list_ascii_of_string pattern) then
    Some (Lit i pattern)
  else None.

(** [re.search(pattern, line, re.IGNORECASE)] when [ignorecase], and
    [re.search(pattern, line)] otherwise. *)
Definition re_search (pattern : string) (ignorecase : bool) (line : string)
  : option Match :=
  match compile pattern ignorecase with
  | Some r => search r line
  | None => None
  end.

End Regex.

(** ** KernelEventAnalyzer (src/kernel_event_analyzer.py) *)

Module KernelEventAnalyzer.
Import Py Text.

Definition oom_patterns : list string :=
  [ "Out of memory";
    "OOM killer";
    "oom-killer";
    "killed process";
    "Memory cgroup out of memory";
    "oom_score" ].

Definition critical_patterns : list string :=
  [ "kernel.*panic";
    "kernel.*BUG";
    "kernel.*WARNING";
    "kernel.*Oops";
    "segfault";
    "general protection fault";
    "page allocation failure";
    "allocation failure" ].

Definition timestamp_re : string := "(\d{4}-\d{2}-\d{2}[\sT]\d{2}:\d{2}:\d{2})".
Definition pid_re : string := "pid\s*[=:]?\s*(\d+)".
Definition process_re : string := "process\s+([^\s,]+)".
Definition oom_score_re : string := "oom[_-]?score[=:]?\s*(\d+)".
Definition memory_re : string := "(\d+)\s*(kB|MB|GB|bytes)".

Section Scanner.
(** [re_search pattern ignorecase line]. *)
Variable re_search : string -> bool -> string -> option Match.
Variable clock : nat -> string.

(** [m.group(1) if m else datetime.now().isoformat()]. *)
Definition timestamp_of (line : string) (t : nat) : string * nat :=
  match re_search timestamp_re false line with
  | Some m => (group1 m, t)
  | None => (clock t, S t)
  end.

(** [int(m.group(1)) if m else None]. *)
Definition int_group (m : option Match) : result (option Z) :=
  match m with
  | Some m => let! n := int (group1 m) in Ok (Some n)
  | None => Ok None
  end.

(** The [try] block returns the event; [except Exception] returns
    [None]. *)
Definition _parse_oom_event (line pattern : string) (t : nat)
  : option OomEvent * nat :=
  let '(timestamp, t) := timestamp_of line t in
  let body :=
    let! pid := int_group (re_search pid_re true line) in
    let process_name := group1 <$> re_search process_re true line in
    let! oom_score := int_group (re_search oom_score_re true line) in
    let memory_info := group0 <$> re_search memory_re true line in
    Ok {| oom_timestamp := timestamp;
          oom_type := "OOM";
          oom_pattern := pattern;
          oom_pid := pid;
          oom_process_name := process_name;
          oom_score := oom_score;
          oom_memory_info := memory_info;
          oom_raw_line := strip line |} in
  match body with
  | Ok event => (Some event, t)
  | Raise _ => (None, t)
  end.

Definition event_type_of (pattern : string) : string :=
  let event_type := "UNKNOWN" in
  if contains "panic" (lower pattern) then "KERNEL_PANIC"
  else if contains "bug" (lower pattern) then "KERNEL_BUG"
  else if contains "warning" (lower pattern) then "KERNEL_WARNING"
  else if contains "oops" (lower pattern) then "KERNEL_OOPS"
  else if contains "segfault" (lower pattern) then "SEGFAULT"
  else if contains "allocation failure" (lower pattern) then "MEMORY_ALLOCATION_FAILURE"
  else event_type.

Definition _parse_critical_event (line pattern : string) (t : nat)
  : option CriticalEvent * nat :=
  let '(timestamp, t) := timestamp_of line t in
  (Some {| crit_timestamp := timestamp;
           crit_type := event_type_of pattern;
           crit_pattern := pattern;
           crit_raw_line := strip line |}, t).

(** [events.append(event)] under [if event:]. *)
Definition append_event {E} (events : list E) (event : option E) : list E :=
  match event with
  | Some e => events ++ [e]
  | None => events
  end.

(** The inner [for pattern in ...] loop with its [break]. *)
Fixpoint scan_patterns {E} (parse : string -> string -> nat -> option E * nat)
         (patterns : list string) (line : string)
         (events : list E) (t : nat) : list E * nat :=
  match patterns with
  | [] => (events, t)
  | pattern :: rest =>
      match re_search pattern true line with
      | Some _ =>
          let '(event, t) := parse line pattern t in
          (append_event events event, t)
      | None => scan_patterns parse rest line events t
      end
  end.

(** The body of the outer [for line in logs] loop. *)
Definition scan_line {E} (parse : string -> string -> nat -> option E * nat)
           (patterns : list string) (st : list E * nat) (line : string)
  : list E * nat :=
  if blank line then st
  else scan_patterns parse patterns line (fst st) (snd st).

(** The outer loop, started with no event. *)
Definition scan {E} (parse : string -> string -> nat -> option E * nat)
           (patterns : list string) (logs : list string) (t : nat)
  : list E * nat :=
  fold_left (scan_line parse patterns) logs ([], t).

Definition analyze_oom_events (logs : list string) (t : nat)
  : list OomEvent * nat :=
  scan _parse_oom_event oom_patterns logs t.

Definition analyze_critical_events (logs : list string) (t : nat)
  : list CriticalEvent * nat :=
  scan _parse_critical_event critical_patterns logs t.

(** [analyze_all_events], on the lines that [read_kernel_logs] returned;
    [kernel_events] is the history kept by the analyzer object. *)
Definition analyze_all_events (logs : list string)
           (kernel_events : list Analysis) (t : nat)
  : Analysis * list Analysis * nat :=
  let '(oom, t) := analyze_oom_events logs t in
  let '(critical, t) := analyze_critical_events logs t in
  let analysis :=
    {| analysis_timestamp := clock t;
       total_log_lines := length logs;
       oom_events := oom;
       critical_events := critical;
       oom_events_count := length oom;
       critical_events_count := length critical |} in
  (analysis, kernel_events ++ [analysis], S t).

End Scanner.

End KernelEventAnalyzer.

(** ** ReportGenerator (src/report_generator.py) *)

Module ReportGenerator.
Import Py.

(** [report['report_metadata']]. *)
Record ReportMetadata : Type := {
  generated_at : string;
  monitoring_periods : nat;
  kernel_analyses : nat;
}.

(** The keys of the executive summary besides [status]. *)
Record SummaryDetails : Type := {
  monitoring_duration : string;
  peak_memory_usage : string;
  peak_cpu_usage : string;
  peak_swap_usage : string;
  es_total_oom_events : nat;
  es_total_critical_events : nat;
}.

(** [report['executive_summary']]: [details] is [None] when the
    dictionary holds the key [status] alone. *)
Record ExecutiveSummary : Type := {
  status : string;
  details : option SummaryDetails;
}.

Record MemoryAnalysis : Type := {
  ma_average_usage_percent : Q;
  ma_max_usage_percent : Q;
  ma_min_usage_percent : Q;
  ma_min_available_mb : Q;
  ma_memory_pressure_periods : nat;
  ma_critical_periods : nat;
  ma_trend : string;
}.

Record CpuAnalysis : Type := {
  ca_average_usage_percent : Q;
  ca_max_usage_percent : Q;
  ca_min_usage_percent : Q;
  ca_high_load_periods : nat;
  ca_critical_periods : nat;
  ca_trend : string;
}.

Record SwapAnalysis : Type := {
  sa_average_usage_percent : Q;
  sa_max_usage_percent : Q;
  sa_max_used_mb : Q;
  sa_swap_activity_periods : nat;
  sa_critical_periods : nat;
  sa_trend : string;
}.

(** An entry of [critical_events_list]: a dictionary derived from a
    snapshot, or a kernel event taken over as it is. *)
Record ResourceCritical : Type := {
  rc_timestamp : string;
  rc_type : string;
  rc_warnings : list string;
}.

Inductive CriticalEntry : Type :=
| FromSnapshot (r : ResourceCritical)
| FromKernel (e : CriticalEvent).

Record CriticalRollup : Type := {
  total_critical_events : nat;
  events : list CriticalEntry;
}.

(** [report['oom_analysis']]: the last two keys are absent when no event
    was detected. *)
Record OomRollup : Type := {
  oom_events_detected : bool;
  total_oom_events : nat;
  processes_killed : option (gmap string nat);
  recent_oom_events : option (list OomEvent);
}.

Record ExhaustionEvent : Type := {
  ex_resource : string;
  ex_available_mb : option Q;
  ex_free_mb : option Q;
  ex_severity : string;
}.

Record ExhaustionPeriod : Type := {
  ep_timestamp : string;
  ep_events : list ExhaustionEvent;
}.

Record ExhaustionRollup : Type := {
  exhaustion_events_count : nat;
  exhaustion_events : list ExhaustionPeriod;
}.

Record LeakSample : Type := {
  ls_timestamp : string;
  ls_memory_mb : PyVal;
  ls_memory_percent : PyVal;
  ls_cpu_percent : PyVal;
}.

Inductive LeakTracking : Type :=
| LeakStatus (status : string)
| LeakHistory (pid : Z) (history : list LeakSample)
              (max_memory_mb : PyVal) (memory_growth : PyVal).

(** The report; a statistics block that is the empty dictionary is
    [None], and so is the absent key [leak_process_tracking]. *)
Record Report : Type := {
  report_metadata : ReportMetadata;
  executive_summary : ExecutiveSummary;
  memory_analysis : option MemoryAnalysis;
  cpu_analysis : option CpuAnalysis;
  swap_analysis : option SwapAnalysis;
  critical_events_rollup : CriticalRollup;
  oom_analysis : OomRollup;
  resource_exhaustion : option ExhaustionRollup;
  recommendations : list string;
  leak_process_tracking : option LeakTracking;
}.

(** [len(xs)] as a number. *)
Definition len {A} (xs : list A) : Q := inject_Z (Z.of_nat (length xs)).

(** [sum] of a list of counts. *)
Definition sum_counts (xs : list nat) : nat := fold_left Nat.add xs 0%nat.

(** [len([x for x in xs if x > bound])]. *)
Definition count_above (bound : Q) (xs : list Q) : nat :=
  length (filter (fun x => Is_true (Qgtb x bound)) xs).

Definition _calculate_trend (values : list Q) : result string :=
  if (length values <? 2)%nat then Ok "INSUFFICIENT_DATA"
  else
    let first_half := take (length values / 2) values in
    let second_half := drop (length values / 2) values in
    let! avg_first := float_truediv (float_sum first_half) (Finite (len first_half)) in
    let! avg_second := float_truediv (float_sum second_half) (Finite (len second_half)) in
    let diff := float_sub avg_second avg_first in
    if float_lt (float_abs diff) (Finite 1) then Ok "STABLE"
    else if float_gt diff (Finite 5) then Ok "INCREASING"
    else if float_lt diff (Finite (-5)) then Ok "DECREASING"
    else Ok (if float_gt diff (Finite 0) then "SLIGHTLY_INCREASING"
             else "SLIGHTLY_DECREASING").

Definition memory_percents (monitoring_data : list Snapshot) : list Q :=
  (fun d => mem_percent (memory d)) <$> monitoring_data.
Definition cpu_percents (monitoring_data : list Snapshot) : list Q :=
  (fun d => cpu_total_percent (cpu d)) <$> monitoring_data.
Definition swap_percents (monitoring_data : list Snapshot) : list Q :=
  (fun d => swap_percent (swap d)) <$> monitoring_data.

Definition total_oom_of (kernel_events : list Analysis) : nat :=
  sum_counts (oom_events_count <$> kernel_events).
Definition total_critical_of (kernel_events : list Analysis) : nat :=
  sum_counts (critical_events_count <$> kernel_events).

Definition _generate_executive_summary
           (monitoring_data : list Snapshot) (kernel_events : list Analysis)
  : result ExecutiveSummary :=
  match monitoring_data with
  | [] => Ok {| status := "Нет данных для анализа"; details := None |}
  | _ =>
      let! max_memory := max (memory_percents monitoring_data) in
      let! max_cpu := max (cpu_percents monitoring_data) in
      let! max_swap := max (swap_percents monitoring_data) in
      let total_oom := total_oom_of kernel_events in
      let total_critical := total_critical_of kernel_events in
      let status := "NORMAL" in
      let status :=
        if Qgtb max_memory 90 || Qgtb max_swap 80 || (0 <? total_oom)%nat
        then "CRITICAL"
        else if Qgtb max_memory 75 || Qgtb max_swap 50 || (0 <? total_critical)%nat
        then "WARNING"
        else status in
      Ok {| status := status;
            details := Some
              {| monitoring_duration := pretty (length monitoring_data) +:+ " периодов";
                 peak_memory_usage := fmt1 max_memory +:+ "%";
                 peak_cpu_usage := fmt1 max_cpu +:+ "%";
                 peak_swap_usage := fmt1 max_swap +:+ "%";
                 es_total_oom_events := total_oom;
                 es_total_critical_events := total_critical |} |}
  end.

Definition _analyze_memory (monitoring_data : list Snapshot)
  : result (option MemoryAnalysis) :=
  match monitoring_data with
  | [] => Ok None
  | _ =>
      let memory_percents := memory_percents monitoring_data in
      let available_mbs := (fun d => mem_available_mb (memory d)) <$> monitoring_data in
      let! average := float_truediv (float_sum memory_percents) (Finite (len memory_percents)) in
      let! maximum := max memory_percents in
      let! minimum := min memory_percents in
      let! min_available := min available_mbs in
      let! trend := _calculate_trend memory_percents in
      Ok (Some {| ma_average_usage_percent := float_round2 average;
                  ma_max_usage_percent := round2 maximum;
                  ma_min_usage_percent := round2 minimum;
                  ma_min_available_mb := round2 min_available;
                  ma_memory_pressure_periods := count_above 75 memory_percents;
                  ma_critical_periods := count_above 90 memory_percents;
                  ma_trend := trend |})
  end.

Definition _analyze_cpu (monitoring_data : list Snapshot)
  : result (option CpuAnalysis) :=
  match monitoring_data with
  | [] => Ok None
  | _ =>
      let cpu_percents := cpu_percents monitoring_data in
      let! average := float_truediv (float_sum cpu_percents) (Finite (len cpu_percents)) in
      let! maximum := max cpu_percents in
      let! minimum := min cpu_percents in
      let! trend := _calculate_trend cpu_percents in
      Ok (Some {| ca_average_usage_percent := float_round2 average;
                  ca_max_usage_percent := round2 maximum;
                  ca_min_usage_percent := round2 minimum;
                  ca_high_load_periods := count_above 80 cpu_percents;
                  ca_critical_periods := count_above 90 cpu_percents;
                  ca_trend := trend |})
  end.

Definition _analyze_swap (monitoring_data : list Snapshot)
  : result (option SwapAnalysis) :=
  match monitoring_data with
  | [] => Ok None
  | _ =>
      let swap_percents := swap_percents monitoring_data in
      let swap_used_mbs := (fun d => swap_used_mb (swap d)) <$> monitoring_data in
      let! average := float_truediv (float_sum swap_percents) (Finite (len swap_percents)) in
      let! maximum := max swap_percents in
      let! max_used := max swap_used_mbs in
      let! trend := _calculate_trend swap_percents in
      Ok (Some {| sa_average_usage_percent := float_round2 average;
                  sa_max_usage_percent := round2 maximum;
                  sa_max_used_mb := round2 max_used;
                  sa_swap_activity_periods := count_above 50 swap_percents;
                  sa_critical_periods := count_above 80 swap_percents;
                  sa_trend := trend |})
  end.

(** The three independent checks made for one snapshot. *)
Definition snapshot_warnings (snapshot : Snapshot) : list string :=
  let warnings : list string := [] in
  let warnings :=
    if Qgtb (mem_percent (memory snapshot)) 90 then
      warnings ++ ["Критическое использование памяти: "
                   +:+ fmt1 (mem_percent (memory snapshot)) +:+ "%"]
    else warnings in
  let warnings :=
    if Qgtb (swap_percent (swap snapshot)) 80 then
      warnings ++ ["Критическое использование swap: "
                   +:+ fmt1 (swap_percent (swap snapshot)) +:+ "%"]
    else warnings in
  let warnings :=
    if Qgtb (cpu_total_percent (cpu snapshot)) 90 then
      warnings ++ ["Критическая загрузка CPU: "
                   +:+ fmt1 (cpu_total_percent (cpu snapshot)) +:+ "%"]
    else warnings in
  warnings.

(** First loop of [_analyze_critical_events]. *)
Definition add_snapshot_entry (critical_events_list : list CriticalEntry)
           (snapshot : Snapshot) : list CriticalEntry :=
  match snapshot_warnings snapshot with
  | [] => critical_events_list
  | warnings =>
      critical_events_list ++
        [FromSnapshot {| rc_timestamp := timestamp snapshot;
                         rc_type := "RESOURCE_CRITICAL";
                         rc_warnings := warnings |}]
  end.

(** Second loop of [_analyze_critical_events]. *)
Definition add_kernel_entries (critical_events_list : list CriticalEntry)
           (kernel_analysis : Analysis) : list CriticalEntry :=
  fold_left (fun l event => l ++ [FromKernel event])
            (critical_events kernel_analysis) critical_events_list.

Definition critical_events_list_of
           (monitoring_data : list Snapshot) (kernel_events : list Analysis)
  : list CriticalEntry :=
  fold_left add_kernel_entries kernel_events
            (fold_left add_snapshot_entry monitoring_data []).

Definition _analyze_critical_events
           (monitoring_data : list Snapshot) (kernel_events : list Analysis)
  : CriticalRollup :=
  let critical_events_list := critical_events_list_of monitoring_data kernel_events in
  {| total_critical_events := length critical_events_list;
     events := take 50 critical_events_list |}.

(** [event.get('process_name')] used as a condition. *)
Definition name_truthy (name : option string) : option string :=
  match name with
  | Some EmptyString => None
  | Some n => Some n
  | None => None
  end.

(** [processes_killed[name] += 1] on a [defaultdict(int)]. *)
Definition count_kill (processes_killed : gmap string nat) (event : OomEvent)
  : gmap string nat :=
  match name_truthy (oom_process_name event) with
  | Some name => <[name := (default 0 (processes_killed !! name) + 1)%nat]> processes_killed
  | None => processes_killed
  end.

Definition all_oom_events_of (kernel_events : list Analysis) : list OomEvent :=
  fold_left (fun l kernel_analysis => l ++ oom_events kernel_analysis) kernel_events [].

Definition _analyze_oom_events (kernel_events : list Analysis) : OomRollup :=
  let all_oom_events := all_oom_events_of kernel_events in
  match all_oom_events with
  | [] =>
      {| oom_events_detected := false;
         total_oom_events := 0;
         processes_killed := None;
         recent_oom_events := None |}
  | _ =>
      let processes_killed := fold_left count_kill all_oom_events ∅ in
      {| oom_events_detected := true;
         total_oom_events := length all_oom_events;
         processes_killed := Some processes_killed;
         recent_oom_events := Some (drop (length all_oom_events - 10) all_oom_events) |}
  end.

Definition snapshot_exhaustion (snapshot : Snapshot) : list ExhaustionEvent :=
  let events : list ExhaustionEvent := [] in
  let events :=
    if Qltb (mem_available_mb (memory snapshot)) 50 then
      events ++ [{| ex_resource := "MEMORY";
                    ex_available_mb := Some (mem_available_mb (memory snapshot));
                    ex_free_mb := None;
                    ex_severity := "CRITICAL" |}]
    else events in
  let events :=
    if Qltb (swap_free_mb (swap snapshot)) 100 && Qgtb (swap_total_mb (swap snapshot)) 0 then
      events ++ [{| ex_resource := "SWAP";
                    ex_available_mb := None;
                    ex_free_mb := Some (swap_free_mb (swap snapshot));
                    ex_severity := "WARNING" |}]
    else events in
  events.

Definition add_exhaustion (exhaustion_events : list ExhaustionPeriod)
           (snapshot : Snapshot) : list ExhaustionPeriod :=
  match snapshot_exhaustion snapshot with
  | [] => exhaustion_events
  | events =>
      exhaustion_events ++ [{| ep_timestamp := timestamp snapshot; ep_events := events |}]
  end.

Definition _analyze_resource_exhaustion (monitoring_data : list Snapshot)
  : option ExhaustionRollup :=
  match monitoring_data with
  | [] => None
  | _ =>
      let exhaustion_events := fold_left add_exhaustion monitoring_data [] in
      Some {| exhaustion_events_count := length exhaustion_events;
              exhaustion_events := exhaustion_events |}
  end.

Definition add_leak_sample (leak_history : list LeakSample) (snapshot : Snapshot)
  : list LeakSample :=
  match leak_process snapshot with
  | Some d =>
      leak_history ++
        [{| ls_timestamp := timestamp snapshot;
            ls_memory_mb := get d "memory_mb" (VNum 0);
            ls_memory_percent := get d "memory_percent" (VNum 0);
            ls_cpu_percent := get d "cpu_percent" (VNum 0) |}]
  | None => leak_history
  end.

Definition _track_leak_process (monitoring_data : list Snapshot) (leak_process_pid : Z)
  : result LeakTracking :=
  let leak_history := fold_left add_leak_sample monitoring_data [] in
  match leak_history with
  | [] => Ok (LeakStatus "Процесс не найден в данных мониторинга")
  | first :: _ =>
      let final := default first (last leak_history) in
      let! max_memory_mb := max_val (ls_memory_mb <$> leak_history) in
      let! memory_growth := sub (ls_memory_mb final) (ls_memory_mb first) in
      Ok (LeakHistory leak_process_pid leak_history max_memory_mb memory_growth)
  end.

Definition _generate_recommendations
           (monitoring_data : list Snapshot) (kernel_events : list Analysis)
  : result (list string) :=
  let recommendations : list string := [] in
  match monitoring_data with
  | [] => Ok ["Недостаточно данных для генерации рекомендаций"]
  | _ =>
      let! max_memory := max (memory_percents monitoring_data) in
      let recommendations :=
        if Qgtb max_memory 90 then
          recommendations ++
            ["КРИТИЧНО: Использование памяти превышало 90%. "
             +:+ "Рассмотрите возможность увеличения объёма RAM или оптимизации приложений."]
        else recommendations in
      let! max_swap := max (swap_percents monitoring_data) in
      let recommendations :=
        if Qgtb max_swap 80 then
          recommendations ++
            ["КРИТИЧНО: Использование swap превышало 80%. "
             +:+ "Система активно использует swap, что может привести к деградации производительности."]
        else recommendations in
      let total_oom := total_oom_of kernel_events in
      let recommendations :=
        if (0 <? total_oom)%nat then
          recommendations ++
            ["ОБНАРУЖЕНО: OOM-killer завершил " +:+ pretty total_oom +:+ " процесс(ов). "
             +:+ "Это указывает на критическую нехватку памяти. "
             +:+ "Необходимо увеличить объём памяти или ограничить использование памяти приложениями."]
        else recommendations in
      let! max_cpu := max (cpu_percents monitoring_data) in
      let recommendations :=
        if Qgtb max_cpu 90 then
          recommendations ++
            ["ВНИМАНИЕ: Загрузка CPU превышала 90%. "
             +:+ "Рассмотрите возможность распределения нагрузки или увеличения вычислительных ресурсов."]
        else recommendations in
      match recommendations with
      | [] => Ok ["Система работала в нормальном режиме без критических проблем."]
      | _ => Ok recommendations
      end
  end.

Section Clocked.
Variable clock : nat -> string.

Definition generate_report
           (monitoring_data : list Snapshot) (kernel_events : list Analysis)
           (leak_process_pid : option Z) (t : nat) : result (Report * nat) :=
  let metadata :=
    {| generated_at := clock t;
       monitoring_periods := length monitoring_data;
       kernel_analyses := length kernel_events |} in
  let! summary := _generate_executive_summary monitoring_data kernel_events in
  let! mem := _analyze_memory monitoring_data in
  let! cpu := _analyze_cpu monitoring_data in
  let! swp := _analyze_swap monitoring_data in
  let critical := _analyze_critical_events monitoring_data kernel_events in
  let oom := _analyze_oom_events kernel_events in
  let exhaustion := _analyze_resource_exhaustion monitoring_data in
  let! recs := _generate_recommendations monitoring_data kernel_events in
  let! tracking :=
    match pid_truthy leak_process_pid with
    | Some p => let! r := _track_leak_process monitoring_data p in Ok (Some r)
    | None => Ok None
    end in
  Ok ({| report_metadata := metadata;
         executive_summary := summary;
         memory_analysis := mem;
         cpu_analysis := cpu;
         swap_analysis := swp;
         critical_events_rollup := critical;
         oom_analysis := oom;
         resource_exhaustion := exhaustion;
         recommendations := recs;
         leak_process_tracking := tracking |}, S t).

End Clocked.

End ReportGenerator.

(** * Vocabulary of the statements *)

Module Spec.
(** Some warning of the list starts with the given text. *)
Definition has_warning (pre : string) (ws : list string) : Prop :=
  exists w, w ∈ ws /\ String.prefix pre w = true.

(** One row of the threshold table: the higher tier wins, and a row gives
    at most one message. *)
Definition two_tier (row : list string) (critical warning : string)
           (above_critical above_warning : Prop) : Prop :=
  (above_critical -> row = [critical]) /\
  (~ above_critical -> above_warning -> row = [warning]) /\
  (~ above_critical -> ~ above_warning -> row = []).

(** The row with a critical tier only. *)
Definition one_tier (row : list string) (critical : string) (breached : Prop) : Prop :=
  (breached -> row = [critical]) /\ (~ breached -> row = []).

(** What one [if]/[elif] pair appends. *)
Definition tier_row (b1 b2 : bool) (x y : string) : list string :=
  if b1 then [x] else if b2 then [y] else [].


(** The mean as binary64 arithmetic gives it: the elements are added
    one by one, left to right, to a running sum that starts at 0, each
    sum rounded; the last sum is divided by the number of elements and
    the quotient rounded. *)
Fixpoint running_sum (acc : Py.float) (xs : list Q) : Py.float :=
  match xs with
  | [] => acc
  | x :: rest => running_sum (Py.float_add acc (Py.Finite x)) rest
  end.

Definition float_mean (xs : list Q) : Py.float :=
  match running_sum (Py.Finite 0) xs with
  | Py.Finite total => Py.round_float (total / inject_Z (Z.of_nat (length xs)))
  | other => other
  end.

(** [x] is the largest element of [xs]. *)
Definition is_maximum (x : Q) (xs : list Q) : Prop :=
  x ∈ xs /\ forall y, y ∈ xs -> (y <= x)%Q.
End Spec.

(** What it means for a scan to classify by the first matching pattern. *)
Module ScanSpec.
Section FirstMatch.
Variable re_search : string -> bool -> string -> option Match.
Context {E : Type}.
(** The scan, the parser it calls on a match, its ordered pattern list
    and the pattern recorded in an event. *)
Variable scan_fn : list string -> nat -> list E * nat.
Variable parse : string -> string -> nat -> option E * nat.
Variable patterns : list string.
Variable pattern_of : E -> string.

Definition matches (pattern line : string) : Prop :=
  is_Some (re_search pattern true line).

(** [pattern] is the first pattern of the list that matches [line]. *)
Definition first_match (pattern line : string) : Prop :=
  exists before after,
    patterns = before ++ pattern :: after /\
    (forall q, q ∈ before -> ~ matches q line) /\
    matches pattern line.

Record first_match_scan : Prop := {
  (** lines are handled one after the other, each adding its events
      behind those of the lines before it *)
  lines_in_order : forall line rest t,
    scan_fn (line :: rest) t =
      (let '(ev, t1) := scan_fn [line] t in
       let '(evs, t2) := scan_fn rest t1 in
       (ev ++ evs, t2));
  no_line : forall t, scan_fn [] t = ([], t);
  (** a blank line gives no event, whatever the patterns would match *)
  blank_skipped : forall line t,
    Text.blank line = true -> scan_fn [line] t = ([], t);
  no_match : forall line t,
    Text.blank line = false ->
    (forall q, q ∈ patterns -> ~ matches q line) ->
    scan_fn [line] t = ([], t);
  (** the first matching pattern decides; the patterns behind it have
      no influence *)
  first_match_decides : forall line t pattern,
    Text.blank line = false ->
    first_match pattern line ->
    scan_fn [line] t =
      (option_list (fst (parse line pattern t)), snd (parse line pattern t));
  attributed : forall line t pattern e,
    fst (parse line pattern t) = Some e -> pattern_of e = pattern;
  at_most_one : forall line t, (length (fst (scan_fn [line] t)) <= 1)%nat;
}.
End FirstMatch.
End ScanSpec.

(** Comparing the analyses of two runs. *)
Module RerunSpec.
(** The fields of an OOM event other than its timestamp. *)
Definition same_oom_fields (e1 e2 : OomEvent) : Prop :=
  oom_type e1 = oom_type e2 /\
  oom_pattern e1 = oom_pattern e2 /\
  oom_pid e1 = oom_pid e2 /\
  oom_process_name e1 = oom_process_name e2 /\
  oom_score e1 = oom_score e2 /\
  oom_memory_info e1 = oom_memory_info e2 /\
  oom_raw_line e1 = oom_raw_line e2.

(** The fields of a critical event other than its timestamp. *)
Definition same_critical_fields (e1 e2 : CriticalEvent) : Prop :=
  crit_type e1 = crit_type e2 /\
  crit_pattern e1 = crit_pattern e2 /\
  crit_raw_line e1 = crit_raw_line e2.

(** The timestamps that two runs give to the events made from [line]:
    the one found in the line when it carries one, and otherwise, for
    each run, a reading of its own clock taken no earlier than its
    start. *)
Definition stamps (re_search : string -> bool -> string -> option Match)
           (clock1 clock2 : nat -> string) (t1 t2 : nat)
           (line ts1 ts2 : string) : Prop :=
  match re_search KernelEventAnalyzer.timestamp_re false line with
  | Some m => ts1 = group1 m /\ ts2 = group1 m
  | None => (exists u, (t1 <= u)%nat /\ ts1 = clock1 u) /\
            (exists u, (t2 <= u)%nat /\ ts2 = clock2 u)
  end.

(** Two events made from one line of [logs] by two runs. *)
Definition paired_oom (re_search : string -> bool -> string -> option Match)
           (clock1 clock2 : nat -> string) (t1 t2 : nat)
           (logs : list string) (e1 e2 : OomEvent) : Prop :=
  same_oom_fields e1 e2 /\
  exists line,
    line ∈ logs /\ Text.blank line = false /\
    oom_raw_line e1 = Text.strip line /\
    stamps re_search clock1 clock2 t1 t2 line (oom_timestamp e1) (oom_timestamp e2).

Definition paired_critical (re_search : string -> bool -> string -> option Match)
           (clock1 clock2 : nat -> string) (t1 t2 : nat)
           (logs : list string) (e1 e2 : CriticalEvent) : Prop :=
  same_critical_fields e1 e2 /\
  exists line,
    line ∈ logs /\ Text.blank line = false /\
    crit_raw_line e1 = Text.strip line /\
    stamps re_search clock1 clock2 t1 t2 line (crit_timestamp e1) (crit_timestamp e2).

(** The line can give an event: it is not blank and a pattern of one of
    the two lists matches it. *)
Definition gives_event (re_search : string -> bool -> string -> option Match)
           (line : string) : Prop :=
  Text.blank line = false /\
  exists pattern,
    pattern ∈ KernelEventAnalyzer.oom_patterns ++ KernelEventAnalyzer.critical_patterns /\
    ScanSpec.matches re_search pattern line.

(** What two parsers give for a line that the scan hands to them (not
    blank, under a matching pattern of the list, at ticks of the two
    runs) is related by [R]. *)
Definition related_on {E} (re_search : string -> bool -> string -> option Match)
           (R : E -> E -> Prop)
           (parse1 parse2 : string -> string -> nat -> option E * nat)
           (patterns : list string) (t1 t2 : nat) (line : string) : Prop :=
  Text.blank line = false ->
  forall p u1 u2,
    p ∈ patterns -> ScanSpec.matches re_search p line ->
    (t1 <= u1)%nat -> (t2 <= u2)%nat ->
    option_Forall2 R (fst (parse1 line p u1)) (fst (parse2 line p u2)).

(** Two analyses with the same line count, the same event counts and
    the same event sequences, field for field. *)
Definition identical (a1 a2 : Analysis) : Prop :=
  total_log_lines a1 = total_log_lines a2 /\
  oom_events_count a1 = oom_events_count a2 /\
  critical_events_count a1 = critical_events_count a2 /\
  oom_events a1 = oom_events a2 /\
  critical_events a1 = critical_events a2.

(** [analyze_all_events] run twice in a row on the same lines gives
    identical analyses. *)
Definition rerun_identical
           (re_search : string -> bool -> string -> option Match)
           (clock : nat -> string) (logs : list string)
           (kernel_events : list Analysis) (t : nat) : Prop :=
  let '(a1, kernel_events1, t1) :=
    KernelEventAnalyzer.analyze_all_events re_search clock logs kernel_events t in
  let '(a2, _, _) :=
    KernelEventAnalyzer.analyze_all_events re_search clock logs kernel_events1 t1 in
  identical a1 a2.
End RerunSpec.

(** The roll-ups of the report, in the words of their description. *)
Module RollupSpec.
Import ReportGenerator.

(** All OOM events of the analyses, in order. *)
Definition all_oom (kernel_events : list Analysis) : list OomEvent :=
  concat (oom_events <$> kernel_events).

(** The number of events that name the process [name]. *)
Definition kills (name : string) (events : list OomEvent) : nat :=
  length (filter (fun e => oom_process_name e = Some name) events).

(** All kernel critical events of the analyses, in order. *)
Definition all_critical (kernel_events : list Analysis) : list CriticalEvent :=
  concat (critical_events <$> kernel_events).

(** An entry derived from a snapshot, of type RESOURCE_CRITICAL. *)
Definition resource_critical (entry : CriticalEntry) : Prop :=
  match entry with
  | FromSnapshot r => rc_type r = "RESOURCE_CRITICAL"
  | FromKernel _ => False
  end.
End RollupSpec.

(** * Sample data, for running the model on concrete inputs *)

Module Sample.
Import Py ResourceMonitor.

(** A clock that shows a different microsecond at every reading. *)
Definition clock (t : nat) : string := "2024-05-01T12:00:00.00000" +:+ pretty t.

(** A snapshot with the given memory, swap and cpu percentages and the
    given available memory in MB. *)
Definition snapshot_with (mem_pct swap_pct cpu_pct available : Q) : Snapshot :=
  {| timestamp := "2024-05-01T12:00:00";
     memory := {| mem_total_mb := 8000; mem_available_mb := available;
                  mem_used_mb := 8000 - available; mem_percent := mem_pct;
                  mem_free_mb := available; mem_cached_mb := 0;
                  mem_buffers_mb := 0 |};
     swap := {| swap_total_mb := 2000; swap_used_mb := 0; swap_free_mb := 2000;
                swap_percent := swap_pct |};
     cpu := {| cpu_total_percent := cpu_pct; cpu_cores := Some 4;
               cpu_per_core_percent := []; cpu_frequency_mhz := None |};
     load_average := {| load_1min := None; load_5min := None; load_15min := None |};
     top_processes := [];
     leak_process := None |}.

(** A process whose memory query answers as given and whose other
    queries succeed. *)
Definition process_with (pid : Z) (rss : result Z) : Process :=
  {| proc_pid := pid;
     proc_memory_info_rss := rss;
     proc_name := Ok "worker";
     proc_memory_percent := Ok 1%Q;
     proc_cpu_percent := Ok 2%Q;
     proc_status := Ok "running" |}.

(** A host with the given process table. *)
Definition host_with (procs : list Process) : Host :=
  {| virtual_memory := {| vm_total := 8388608000; vm_available := 4194304000;
                          vm_used := 4194304000; vm_percent := 50;
                          vm_free := 4194304000; vm_cached := None;
                          vm_buffers := None |};
     swap_memory := {| sw_total := 0; sw_used := 0; sw_free := 0; sw_percent := 0 |};
     host_cpu_percent := 5;
     host_cpu_percent_percpu := [5%Q];
     host_cpu_count := Some 1;
     host_cpu_freq_current := None;
     host_getloadavg := None;
     process_iter := procs |}.

(** An OOM event naming the given process, if any. *)
Definition oom_event_of (name : option string) : OomEvent :=
  {| oom_timestamp := "2024-05-01 12:00:00";
     oom_type := "OOM";
     oom_pattern := "Out of memory";
     oom_pid := None;
     oom_process_name := name;
     oom_score := None;
     oom_memory_info := None;
     oom_raw_line := "Out of memory" |}.

(** An analysis holding the given events. *)
Definition analysis_with (oom : list OomEvent) (critical : list CriticalEvent)
  : Analysis :=
  {| analysis_timestamp := "2024-05-01T12:00:01";
     total_log_lines := 100;
     oom_events := oom;
     critical_events := critical;
     oom_events_count := length oom;
     critical_events_count := length critical |}.
End Sample.

(** * Proof automation *)

(** Evaluate every prefix test on message texts that occurs in the goal. *)
Ltac compute_prefixes :=
  repeat match goal with
  | |- context [String.prefix ?a ?b] =>
      let v := eval vm_compute in (String.prefix a b) in
      replace (String.prefix a b) with v by (vm_compute; reflexivity)
  end.

(** * Further vocabulary *)

Module EventSpec.
Import KernelEventAnalyzer.

(** The event type recorded for each pattern of [critical_patterns]. *)
Definition critical_type_table : list (string * string) :=
  [ ("kernel.*panic", "KERNEL_PANIC");
    ("kernel.*BUG", "KERNEL_BUG");
    ("kernel.*WARNING", "KERNEL_WARNING");
    ("kernel.*Oops", "KERNEL_OOPS");
    ("segfault", "SEGFAULT");
    ("general protection fault", "UNKNOWN");
    ("page allocation failure", "MEMORY_ALLOCATION_FAILURE");
    ("allocation failure", "MEMORY_ALLOCATION_FAILURE") ].

(** An event that came from a line of [logs] that is not blank and from
    a pattern of the list that matches that line; [P] says what the
    parser guarantees of it. *)
Definition from_logs {E} (re_search : string -> bool -> string -> option Match)
           (patterns : list string) (P : string -> string -> E -> Prop)
           (logs : list string) (e : E) : Prop :=
  exists line pattern,
    line ∈ logs /\ Text.blank line = false /\ pattern ∈ patterns /\
    ScanSpec.matches re_search pattern line /\ P line pattern e.

(** The timestamp of an event is the one found in its line, or else a
    reading of the clock. *)
Definition timestamp_from (re_search : string -> bool -> string -> option Match)
           (clock : nat -> string) (line ts : string) : Prop :=
  match re_search timestamp_re false line with
  | Some m => ts = group1 m
  | None => exists u, ts = clock u
  end.

(** What [_parse_oom_event] guarantees of the event it returns for
    [line] under [pattern]. *)
Definition oom_parsed (re_search : string -> bool -> string -> option Match)
           (clock : nat -> string) (line pattern : string) (e : OomEvent) : Prop :=
  oom_type e = "OOM" /\
  oom_pattern e = pattern /\
  oom_raw_line e = Text.strip line /\
  oom_raw_line e <> "" /\
  timestamp_from re_search clock line (oom_timestamp e) /\
  (oom_pid e = None <-> re_search pid_re true line = None) /\
  oom_process_name e = group1 <$> re_search process_re true line /\
  (oom_score e = None <-> re_search oom_score_re true line = None) /\
  oom_memory_info e = group0 <$> re_search memory_re true line.

(** What [_parse_critical_event] guarantees of the event it returns. *)
Definition critical_parsed (re_search : string -> bool -> string -> option Match)
           (clock : nat -> string) (line pattern : string) (e : CriticalEvent) : Prop :=
  crit_pattern e = pattern /\
  crit_type e = event_type_of pattern /\
  crit_raw_line e = Text.strip line /\
  crit_raw_line e <> "" /\
  timestamp_from re_search clock line (crit_timestamp e).
End EventSpec.

Module ProcessSpec.
Import Py ResourceMonitor.

(** Every query of the process answers. *)
Definition readable (p : Process) : Prop :=
  is_ok (proc_memory_info_rss p) = true /\
  is_ok (proc_name p) = true /\
  is_ok (proc_memory_percent p) = true /\
  is_ok (proc_cpu_percent p) = true /\
  is_ok (proc_status p) = true.

(** Every query of the process answers or raises a [psutil] error. *)
Definition psutil_only {A} (r : result A) : Prop :=
  match r with
  | Ok _ => True
  | Raise e => psutil_error e = true
  end.

Definition fails_softly (p : Process) : Prop :=
  psutil_only (proc_memory_info_rss p) /\
  psutil_only (proc_name p) /\
  psutil_only (proc_memory_percent p) /\
  psutil_only (proc_cpu_percent p) /\
  psutil_only (proc_status p).

(** The resident memory recorded in a process dictionary. *)
Definition memory_mb_of (d : ProcDict) : Q :=
  match d !! "memory_mb" with
  | Some (VNum q) => q
  | _ => 0%Q
  end.

(** [d1] may stand before [d2] in a list sorted by memory, largest first. *)
Definition memory_ge (d1 d2 : ProcDict) : Prop :=
  (memory_mb_of d2 <= memory_mb_of d1)%Q.

(** The dictionary describes the process: its pid and its resident
    memory in MB. *)
Definition describes (p : Process) (d : ProcDict) : Prop :=
  d !! "pid" = Some (VNum (inject_Z (proc_pid p))) /\
  exists rss, proc_memory_info_rss p = Ok rss /\
              d !! "memory_mb" = Some (VNum (to_mb rss)).

(** Keyed lists during the sort: the key is a number, and the order is
    by key, largest first. *)
Definition num_key {A} (kx : PyVal * A) : Prop := exists q, fst kx = VNum q.

Definition key_q {A} (kx : PyVal * A) : Q :=
  match fst kx with VNum q => q | VStr _ => 0%Q end.

Definition key_ge {A} (a b : PyVal * A) : Prop := (key_q b <= key_q a)%Q.
End ProcessSpec.

Module StatsSpec.
Import ReportGenerator.

(** [x] is the smallest element of [xs]. *)
Definition is_minimum (x : Q) (xs : list Q) : Prop :=
  x ∈ xs /\ forall y, y ∈ xs -> (x <= y)%Q.

(** The values [_calculate_trend] can return. *)
Definition trend_labels : list string :=
  [ "INSUFFICIENT_DATA"; "STABLE"; "INCREASING"; "DECREASING";
    "SLIGHTLY_INCREASING"; "SLIGHTLY_DECREASING" ].

End StatsSpec.

Module LeakSpec.
Import Py.

(** The tracked-process records carried by the snapshots, in order. *)
Definition carried (monitoring_data : list Snapshot) : list ProcDict :=
  omap leak_process monitoring_data.

(** The memory figure read from a record, 0 when the key is absent. *)
Definition memory_of (d : ProcDict) : PyVal := get d "memory_mb" (VNum 0).

(** The memory figure of the record is a number (or absent). *)
Definition numeric_memory (d : ProcDict) : Prop :=
  exists q, memory_of d = VNum q.

Definition memory_q (d : ProcDict) : Q :=
  match memory_of d with
  | VNum q => q
  | VStr _ => 0%Q
  end.
End LeakSpec.

Module MoreSamples.
Import Py.

(** A snapshot that carries a tracked-process record with the given
    resident memory. *)
Definition carrying (mb : Q) : Snapshot :=
  {| timestamp := "2024-05-01T12:00:00";
     memory := memory (Sample.snapshot_with 50 10 20 4000);
     swap := swap (Sample.snapshot_with 50 10 20 4000);
     cpu := cpu (Sample.snapshot_with 50 10 20 4000);
     load_average := load_average (Sample.snapshot_with 50 10 20 4000);
     top_processes := [];
     leak_process := Some {[ "memory_mb" := VNum mb ]} |}.
End MoreSamples.

(** The fixed texts of [_generate_recommendations]. *)
Module AdviceSpec.
Definition insufficient_advice : string :=
  "Недостаточно данных для генерации рекомендаций".

Definition memory_advice : string :=
  "КРИТИЧНО: Использование памяти превышало 90%. "
  +:+ "Рассмотрите возможность увеличения объёма RAM или оптимизации приложений.".

Definition swap_advice : string :=
  "КРИТИЧНО: Использование swap превышало 80%. "
  +:+ "Система активно использует swap, что может привести к деградации производительности.".

Definition oom_advice (total_oom : nat) : string :=
  "ОБНАРУЖЕНО: OOM-killer завершил " +:+ pretty total_oom +:+ " процесс(ов). "
  +:+ "Это указывает на критическую нехватку памяти. "
  +:+ "Необходимо увеличить объём памяти или ограничить использование памяти приложениями.".

Definition cpu_advice : string :=
  "ВНИМАНИЕ: Загрузка CPU превышала 90%. "
  +:+ "Рассмотрите возможность распределения нагрузки или увеличения вычислительных ресурсов.".

Definition normal_advice : string :=
  "Система работала в нормальном режиме без критических проблем.".
End AdviceSpec.

Module EntrySpec.
Import Py ReportGenerator.

(** The snapshot exceeds one of the critical bounds of the report. *)
Definition breaches (s : Snapshot) : Prop :=
  (90 < mem_percent (memory s))%Q \/ (80 < swap_percent (swap s))%Q \/
  (90 < cpu_total_percent (cpu s))%Q.

#[global] Instance Qlt_decision (x y : Q) : Decision (x < y)%Q.
Proof.
  destruct (Qlt_le_dec x y) as [H|H]; [left; exact H | right].
  now apply Qle_not_lt.
Defined.

#[global] Instance breaches_decision (s : Snapshot) : Decision (breaches s).
Proof. unfold breaches. apply _. Defined.

(** The entry that the critical-event roll-up derives from a snapshot. *)
Definition entry_of (s : Snapshot) : CriticalEntry :=
  FromSnapshot {| rc_timestamp := timestamp s;
                  rc_type := "RESOURCE_CRITICAL";
                  rc_warnings := snapshot_warnings s |}.

(** The snapshot is flagged by the exhaustion roll-up: memory below
    50 MB available, or swap in use with less than 100 MB free. *)
Definition memory_exhausted (s : Snapshot) : Prop :=
  (mem_available_mb (memory s) < 50)%Q.
Definition swap_exhausted (s : Snapshot) : Prop :=
  (swap_free_mb (swap s) < 100)%Q /\ (0 < swap_total_mb (swap s))%Q.

Definition memory_event (s : Snapshot) : ExhaustionEvent :=
  {| ex_resource := "MEMORY";
     ex_available_mb := Some (mem_available_mb (memory s));
     ex_free_mb := None;
     ex_severity := "CRITICAL" |}.

Definition swap_event (s : Snapshot) : ExhaustionEvent :=
  {| ex_resource := "SWAP";
     ex_available_mb := None;
     ex_free_mb := Some (swap_free_mb (swap s));
     ex_severity := "WARNING" |}.

(** The events listed for one snapshot: the memory event if memory is
    exhausted, then the swap event if swap is. *)
Definition events_for (s : Snapshot) (events : list ExhaustionEvent) : Prop :=
  (memory_exhausted s -> swap_exhausted s -> events = [memory_event s; swap_event s]) /\
  (memory_exhausted s -> ~ swap_exhausted s -> events = [memory_event s]) /\
  (~ memory_exhausted s -> swap_exhausted s -> events = [swap_event s]) /\
  (~ memory_exhausted s -> ~ swap_exhausted s -> events = []).

Definition flagged (s : Snapshot) : Prop := memory_exhausted s \/ swap_exhausted s.

#[global] Instance flagged_decision (s : Snapshot) : Decision (flagged s).
Proof. unfold flagged, memory_exhausted, swap_exhausted. apply _. Defined.

(** The period that the exhaustion roll-up lists for a snapshot. *)
Definition period_of (s : Snapshot) : ExhaustionPeriod :=
  {| ep_timestamp := timestamp s; ep_events := snapshot_exhaustion s |}.
End EntrySpec.

(** ** ReportGenerator._format_report_text (src/report_generator.py) *)

Module ReportText.
Import Py ReportGenerator.

(** [s * n] on text. *)
Definition times (s : string) (n : nat) : string := String.concat "" (replicate n s).

(** The text of a line break. *)
Definition newline : string := String (ascii_of_nat 10) EmptyString.

(** [d[key]] on a key that the dictionary may lack. *)
Definition getkey {A} (value : option A) : result A :=
  match value with
  | Some v => Ok v
  | None => Raise KeyError
  end.

(** [event.get('timestamp', 'N/A')] and [event.get('type', 'UNKNOWN')]
    on an entry of the critical-event list. *)
Definition entry_timestamp (entry : CriticalEntry) : string :=
  match entry with
  | FromSnapshot r => rc_timestamp r
  | FromKernel e => crit_timestamp e
  end.

Definition entry_type (entry : CriticalEntry) : string :=
  match entry with
  | FromSnapshot r => rc_type r
  | FromKernel e => crit_type e
  end.

(** The lines [f"{i}. {rec}"] of [enumerate(recs, 1)]. *)
Fixpoint numbered (i : nat) (recs : list string) : list string :=
  match recs with
  | [] => []
  | rec :: rest => (pretty i +:+ ". " +:+ rec) :: numbered (S i) rest
  end.

Section Items.
(** The order in which [processes_killed.items()] yields the pairs of
    the dictionary. *)
Variable items : gmap string nat -> list (string * nat).

Definition _format_report_text (report : Report) : result string :=
  let lines : list string := [] in
  let lines := lines ++ [times "=" 80] in
  let lines := lines ++ ["ДИАГНОСТИЧЕСКИЙ ОТЧЁТ О СОСТОЯНИИ СИСТЕМЫ"] in
  let lines := lines ++ [times "=" 80] in
  let lines := lines ++ ["Сгенерирован: " +:+ generated_at (report_metadata report)] in
  let lines := lines ++ ["Периодов мониторинга: "
                         +:+ pretty (monitoring_periods (report_metadata report))] in
  let lines := lines ++ [""] in
  let lines := lines ++ ["КРАТКОЕ РЕЗЮМЕ"] in
  let lines := lines ++ [times "-" 80] in
  let summary := executive_summary report in
  let lines := lines ++ ["Статус: " +:+ status summary] in
  let! peak_memory := getkey (peak_memory_usage <$> details summary) in
  let lines := lines ++ ["Пиковое использование памяти: " +:+ peak_memory] in
  let! peak_cpu := getkey (peak_cpu_usage <$> details summary) in
  let lines := lines ++ ["Пиковое использование CPU: " +:+ peak_cpu] in
  let! peak_swap := getkey (peak_swap_usage <$> details summary) in
  let lines := lines ++ ["Пиковое использование swap: " +:+ peak_swap] in
  let! total_oom := getkey (es_total_oom_events <$> details summary) in
  let lines := lines ++ ["Всего OOM событий: " +:+ pretty total_oom] in
  let! total_critical := getkey (es_total_critical_events <$> details summary) in
  let lines := lines ++ ["Всего критических событий: " +:+ pretty total_critical] in
  let lines := lines ++ [""] in
  let lines := lines ++ ["АНАЛИЗ ПАМЯТИ"] in
  let lines := lines ++ [times "-" 80] in
  let mem := memory_analysis report in
  let lines := lines ++ ["Среднее использование: "
      +:+ fmt1 (default 0%Q (ma_average_usage_percent <$> mem)) +:+ "%"] in
  let lines := lines ++ ["Максимальное использование: "
      +:+ fmt1 (default 0%Q (ma_max_usage_percent <$> mem)) +:+ "%"] in
  let lines := lines ++ ["Минимальная доступная память: "
      +:+ fmt1 (default 0%Q (ma_min_available_mb <$> mem)) +:+ " МБ"] in
  let lines := lines ++ ["Периодов высокого давления: "
      +:+ pretty (default 0%nat (ma_memory_pressure_periods <$> mem))] in
  let lines := lines ++ ["Критических периодов: "
      +:+ pretty (default 0%nat (ma_critical_periods <$> mem))] in
  let lines := lines ++ ["Тренд: " +:+ default "N/A" (ma_trend <$> mem)] in
  let lines := lines ++ [""] in
  let lines := lines ++ ["АНАЛИЗ CPU"] in
  let lines := lines ++ [times "-" 80] in
  let cpu := cpu_analysis report in
  let lines := lines ++ ["Средняя загрузка: "
      +:+ fmt1 (default 0%Q (ca_average_usage_percent <$> cpu)) +:+ "%"] in
  let lines := lines ++ ["Максимальная загрузка: "
      +:+ fmt1 (default 0%Q (ca_max_usage_percent <$> cpu)) +:+ "%"] in
  let lines := lines ++ ["Периодов высокой загрузки: "
      +:+ pretty (default 0%nat (ca_high_load_periods <$> cpu))] in
  let lines := lines ++ ["Критических периодов: "
      +:+ pretty (default 0%nat (ca_critical_periods <$> cpu))] in
  let lines := lines ++ ["Тренд: " +:+ default "N/A" (ca_trend <$> cpu)] in
  let lines := lines ++ [""] in
  let lines := lines ++ ["АНАЛИЗ SWAP"] in
  let lines := lines ++ [times "-" 80] in
  let swap := swap_analysis report in
  let lines := lines ++ ["Среднее использование: "
      +:+ fmt1 (default 0%Q (sa_average_usage_percent <$> swap)) +:+ "%"] in
  let lines := lines ++ ["Максимальное использование: "
      +:+ fmt1 (default 0%Q (sa_max_usage_percent <$> swap)) +:+ "%"] in
  let lines := lines ++ ["Максимальное использование (МБ): "
      +:+ fmt1 (default 0%Q (sa_max_used_mb <$> swap)) +:+ " МБ"] in
  let lines := lines ++ ["Периодов активности: "
      +:+ pretty (default 0%nat (sa_swap_activity_periods <$> swap))] in
  let lines := lines ++ ["Критических периодов: "
      +:+ pretty (default 0%nat (sa_critical_periods <$> swap))] in
  let lines := lines ++ ["Тренд: " +:+ default "N/A" (sa_trend <$> swap)] in
  let lines := lines ++ [""] in
  let lines := lines ++ ["АНАЛИЗ OOM-KILLER"] in
  let lines := lines ++ [times "-" 80] in
  let oom := oom_analysis report in
  let lines :=
    if oom_events_detected oom then
      let lines := lines ++ ["Обнаружено OOM событий: "
                             +:+ pretty (total_oom_events oom)] in
      match processes_killed oom with
      | Some killed =>
          if decide (killed = ∅) then lines
          else
            let lines := lines ++ ["Завершённые процессы:"] in
            lines ++ ((fun pc : string * nat =>
                         "  - " +:+ fst pc +:+ ": " +:+ pretty (snd pc) +:+ " раз(а)")
                      <$> items killed)
      | None => lines
      end
    else lines ++ ["OOM события не обнаружены"] in
  let lines := lines ++ [""] in
  let lines := lines ++ ["КРИТИЧЕСКИЕ СОБЫТИЯ"] in
  let lines := lines ++ [times "-" 80] in
  let critical := critical_events_rollup report in
  let lines := lines ++ ["Всего критических событий: "
                         +:+ pretty (total_critical_events critical)] in
  let lines :=
    match events critical with
    | [] => lines
    | _ =>
        let lines := lines ++ ["Последние события:"] in
        lines ++ ((fun event =>
                     "  [" +:+ entry_timestamp event +:+ "] " +:+ entry_type event)
                  <$> take 10 (events critical))
    end in
  let lines := lines ++ [""] in
  let lines := lines ++ ["ИСЧЕРПАНИЕ РЕСУРСОВ"] in
  let lines := lines ++ [times "-" 80] in
  let exhaustion := resource_exhaustion report in
  let lines := lines ++ ["Событий исчерпания ресурсов: "
      +:+ pretty (default 0%nat (exhaustion_events_count <$> exhaustion))] in
  let lines := lines ++ [""] in
  let lines := lines ++ ["РЕКОМЕНДАЦИИ"] in
  let lines := lines ++ [times "-" 80] in
  let lines := lines ++ numbered 1 (recommendations report) in
  let lines := lines ++ [""] in
  let lines := lines ++ [times "=" 80] in
  let lines := lines ++ ["Конец отчёта"] in
  let lines := lines ++ [times "=" 80] in
  Ok (String.concat newline lines).
End Items.

End ReportText.

Module PipelineSpec.
Import Py ResourceMonitor.

(** The snapshot was returned by some call of [collect_snapshot]. *)
Definition collected (clock : nat -> string) (s : Snapshot) : Prop :=
  exists h leak_process_pid t t',
    collect_snapshot clock h leak_process_pid t = Ok (s, t').

(** What [collect_snapshot] attaches for the tracked pid: nothing when
    no pid is given or no process has it, else the record of the
    process. *)
Definition tracked (h : Host) (leak_process_pid : option Z)
           (attached : option ProcDict) : Prop :=
  match pid_truthy leak_process_pid with
  | None => attached = None
  | Some pid =>
      match find (fun p => proc_pid p =? pid) (process_iter h) with
      | None => attached = None
      | Some p => exists d, attached = Some d /\ ProcessSpec.describes p d
      end
  end.

(** The tracked pid is negative. *)
Definition negative_pid (leak_process_pid : option Z) : bool :=
  match leak_process_pid with
  | Some pid => pid <? 0
  | None => false
  end.

(** A host with two readable processes, and the snapshot collected from
    it while tracking pid 2. *)
Definition small_host : Host :=
  Sample.host_with [Sample.process_with 1 (Ok 1048576);
                    Sample.process_with 2 (Ok 20971520)].

Definition collected_once : Snapshot :=
  match collect_snapshot Sample.clock small_host (Some 2) 0 with
  | Ok (s, _) => s
  | Raise _ => Sample.snapshot_with 0 0 0 0
  end.
End PipelineSpec.

(** ** MemoryLeakSimulator (src/memory_leak_simulator.py) *)

Module MemoryLeakSimulator.

(** The exceptions that the simulator can meet, [MemoryError] apart,
    which [allocate_memory] handles itself. *)
Inductive exn : Type :=
| ValueError
| OverflowError
| KeyboardInterrupt.

Inductive outcome (A : Type) : Type :=
| Done (a : A)
| Raised (e : exn).
Arguments Done {A} a.
Arguments Raised {A} e.



(** [range(0, stop, step)]. *)
Definition range_step (stop step : nat) : list nat :=
  (fun k => k * step)%nat <$> seq 0 ((stop + step - 1) / step).

Section Host.
(** [sys.maxsize]. *)
Variable maxsize : Z.
(** Whether the allocation of the given iteration meets [MemoryError],
    and whether Ctrl-C arrives during the sleep of the given
    iteration. *)
Variable memory_error : nat -> bool.
Variable interrupted : nat -> bool.

(** [bytearray(n)]: [None] stands for [MemoryError]. *)
Definition bytearray (fails : bool) (n : Z) : outcome (option (list Z)) :=
  if (maxsize <? n) || (n <? - maxsize - 1) then Raised OverflowError
  else if n <? 0 then Raised ValueError
  else if fails then Done None
  else Done (Some (replicate (Z.to_nat n) 0)).

Definition allocate_memory (fails : bool) (size_mb : Z)
  : outcome (option (list Z)) :=
  match bytearray fails (size_mb * 1024 * 1024) with
  | Raised e => Raised e
  | Done None => Done None
  | Done (Some chunk) =>
      let chunk :=
        fold_left (fun chunk i => <[i := (Z.of_nat i) mod 256]> chunk)
                  (range_step (length chunk) 4096) chunk in
      Done (Some chunk)
  end.




End Host.



End MemoryLeakSimulator.

(** ** Files written by the monitor, the analyzer and the reporter

    The directory tree is a map from path to content; [json.dump] is a
    parameter. *)

Module Saving.
Import Py ReportGenerator.

(** [s.replace(a, b)] for single characters. *)
Fixpoint replace_char (a b : ascii) (s : string) : string :=
  match s with
  | EmptyString => EmptyString
  | String c rest =>
      String (if Ascii.eqb c a then b else c) (replace_char a b rest)
  end.

(** [s.split(sep)[0]] for a single character. *)
Fixpoint before (sep : ascii) (s : string) : string :=
  match s with
  | EmptyString => EmptyString
  | String c rest => if Ascii.eqb c sep then EmptyString else String c (before sep rest)
  end.

(** [dir / name]. *)
Definition path (dir name : string) : string := dir +:+ "/" +:+ name.

(** [timestamp.replace(':', '-').split('.')[0]]. *)
Definition timestamp_str (timestamp : string) : string :=
  before "." (replace_char ":" "-" timestamp).

(** What [save_report] can raise: an exception of the formatter, or the
    unbound local of its last line. *)
Inductive exn : Type :=
| FromReport (e : Py.exn)
| UnboundLocalError.

Inductive outcome (A : Type) : Type :=
| Returned (a : A)
| Failed (e : exn).
Arguments Returned {A} a.
Arguments Failed {A} e.

(** The collector object: its list and the directory it writes to. *)
Record MonitorState : Type := {
  monitoring_data : list Snapshot;
  files : gmap string string;
}.

Section Saving.
Variable dump_snapshot : Snapshot -> string.
Variable dump_analysis : Analysis -> string.
Variable dump_report : Report -> string.
Variable items : gmap string nat -> list (string * nat).
Variable log_dir output_dir : string.
(** [datetime.now().isoformat()] and
    [datetime.now().strftime('%Y%m%d_%H%M%S')] at a tick. *)
Variable clock : nat -> string.
Variable strftime : nat -> string.

Definition snapshot_file (snapshot : Snapshot) : string :=
  path log_dir ("snapshot_" +:+ timestamp_str (timestamp snapshot) +:+ ".json").

Definition save_snapshot (st : MonitorState) (snapshot : Snapshot) : MonitorState :=
  {| monitoring_data := monitoring_data st ++ [snapshot];
     files := <[snapshot_file snapshot := dump_snapshot snapshot]> (files st) |}.

Definition get_all_data (st : MonitorState) : list Snapshot := monitoring_data st.

Definition analysis_file (analysis : Analysis) : string :=
  path log_dir
       ("kernel_analysis_" +:+ timestamp_str (analysis_timestamp analysis) +:+ ".json").

Definition save_analysis (fs : gmap string string) (analysis : Analysis)
  : gmap string string :=
  <[analysis_file analysis := dump_analysis analysis]> fs.

Definition save_report (fs : gmap string string) (report : Report)
           (format : string) (t : nat)
  : gmap string string * outcome string * nat :=
  let timestamp := strftime t in
  let t := S t in
  let json_file := path output_dir ("diagnostic_report_" +:+ timestamp +:+ ".json") in
  let fs :=
    if String.eqb format "json" || String.eqb format "both"
    then <[json_file := dump_report report]> fs
    else fs in
  if String.eqb format "txt" || String.eqb format "both" then
    let txt_file := path output_dir ("diagnostic_report_" +:+ timestamp +:+ ".txt") in
    (* [open(txt_file, 'w')] creates the file before the text is built *)
    let fs := <[txt_file := ""]> fs in
    match ReportText._format_report_text items report with
    | Ok text => (<[txt_file := text]> fs, Returned txt_file, t)
    | Raise e => (fs, Failed (FromReport e), t)
    end
  else if String.eqb format "json" then (fs, Returned json_file, t)
  else (fs, Failed UnboundLocalError, t).

(** [SystemMonitor._generate_report] (src/main_monitor.py): [None] is
    the early return. *)
Definition _generate_report (st : MonitorState) (kernel_events : list Analysis)
           (leak_process_pid : option Z) (t : nat)
  : gmap string string * outcome (option string) * nat :=
  let monitoring_data := get_all_data st in
  match monitoring_data with
  | [] => (files st, Returned None, t)
  | _ =>
      match generate_report clock monitoring_data kernel_events leak_process_pid t with
      | Raise e => (files st, Failed (FromReport e), t)
      | Ok (report, t) =>
          match save_report (files st) report "both" t with
          | (fs, Returned report_path, t) => (fs, Returned (Some report_path), t)
          | (fs, Failed e, t) => (fs, Failed e, t)
          end
      end
  end.
End Saving.

(** The character does not occur in the text. *)
Fixpoint free_of (c : ascii) (s : string) : bool :=
  match s with
  | EmptyString => true
  | String c' rest => negb (Ascii.eqb c' c) && free_of c rest
  end.
End Saving.

(** ** KernelEventAnalyzer.read_kernel_logs *)

Module LogReading.
Import Py.

(** The result of [subprocess.run]. *)
Record CompletedProcess : Type := {
  returncode : Z;
  stdout : string;
}.

(** The machine: which paths exist, and what running a command gives. *)
Record Machine : Type := {
  path_exists : string -> bool;
  run : list string -> result CompletedProcess;
}.

Definition newline : ascii := ascii_of_nat 10.

(** [s.split('\n')]. *)
Fixpoint split_lines (s : string) : list string :=
  match s with
  | EmptyString => [EmptyString]
  | String c rest =>
      if Ascii.eqb c newline then EmptyString :: split_lines rest
      else match split_lines rest with
           | first :: others => String c first :: others
           | [] => [String c EmptyString]
           end
  end.

Definition log_sources : list string :=
  ["/var/log/kern.log"; "/var/log/syslog"; "/var/log/messages"].

(** [logs.extend(result.stdout.split('\n'))] under its guards: a command
    that raises or returns a non-zero code adds nothing. *)
Definition extend_from (m : Machine) (command : list string) (logs : list string)
  : list string :=
  match run m command with
  | Ok result =>
      if returncode result =? 0 then logs ++ split_lines (stdout result) else logs
  | Raise _ => logs
  end.

Definition read_kernel_logs (m : Machine) (lines : Z) : list string :=
  let logs : list string := [] in
  let logs :=
    fold_left (fun logs log_source =>
                 if path_exists m log_source
                 then extend_from m ["tail"; "-n"; pretty lines; log_source] logs
                 else logs)
              log_sources logs in
  let logs := extend_from m ["dmesg"; "-T"] logs in
  logs.

(** The commands that [read_kernel_logs] runs, in order. *)
Definition commands (m : Machine) (lines : Z) : list (list string) :=
  ((fun log_source => ["tail"; "-n"; pretty lines; log_source])
     <$> filter (fun log_source => path_exists m log_source = true) log_sources)
  ++ [["dmesg"; "-T"]].

(** The output of a command that ran and returned code 0. *)
Definition output_of (m : Machine) (command : list string) : option string :=
  match run m command with
  | Ok result => if returncode result =? 0 then Some (stdout result) else None
  | Raise _ => None
  end.

(** The number of line breaks in a text. *)
Fixpoint breaks (s : string) : nat :=
  match s with
  | EmptyString => 0
  | String c rest => (if Ascii.eqb c newline then 1 else 0) + breaks rest
  end.

(** A machine on which only [dmesg] works and prints the given text. *)
Definition dmesg_only (text : string) : Machine :=
  {| path_exists := fun _ => false;
     run := fun command =>
              match command with
              | "dmesg" :: _ => Ok {| returncode := 0; stdout := text |}
              | _ => Raise ValueError
              end |}.
End LogReading.

(** * Properties *)

Section NumberFacts.
Import Py.

Lemma Qgtb_true (x y : Q) : Qgtb x y = true <-> (y < x)%Q.
Proof.
  unfold Qgtb. rewrite negb_true_iff, <- not_true_iff_false, Qle_bool_iff.
  split; [apply Qnot_le_lt | apply Qlt_not_le].
Qed.

Lemma Qltb_true (x y : Q) : Qltb x y = true <-> (x < y)%Q.
Proof. apply Qgtb_true. Qed.

Lemma Qgtb_false (x y : Q) : Qgtb x y = false <-> ~ (y < x)%Q.
Proof. rewrite <- Qgtb_true. destruct (Qgtb x y); intuition congruence. Qed.

Lemma Qltb_false (x y : Q) : Qltb x y = false <-> ~ (x < y)%Q.
Proof. apply Qgtb_false. Qed.
End NumberFacts.

Section CheckCriticalConditions.
Import Py ResourceMonitor Spec.

Lemma tier_append (b1 b2 : bool) (x y : string) (w : list string) :
  (if b1 then w ++ [x] else if b2 then w ++ [y] else w) = w ++ tier_row b1 b2 x y.
Proof. destruct b1, b2; simpl; now rewrite ?app_nil_r. Qed.

Lemma single_append (b : bool) (x : string) (w : list string) :
  (if b then w ++ [x] else w) = w ++ tier_row b false x x.
Proof. destruct b; simpl; now rewrite ?app_nil_r. Qed.

Lemma tier_row_two_tier (b1 b2 : bool) (x y : string) (P1 P2 : Prop) :
  (b1 = true <-> P1) -> (b2 = true <-> P2) ->
  two_tier (tier_row b1 b2 x y) x y P1 P2.
Proof.
  intros H1 H2. unfold two_tier, tier_row.
  destruct b1, b2; intuition congruence.
Qed.

Lemma tier_row_one_tier (b : bool) (x : string) (P : Prop) :
  (b = true <-> P) -> one_tier (tier_row b false x x) x P.
Proof. intros H. unfold one_tier, tier_row. destruct b; intuition congruence. Qed.

Lemma has_warning_existsb (pre : string) (ws : list string) :
  has_warning pre ws <-> existsb (String.prefix pre) ws = true.
Proof.
  unfold has_warning. rewrite existsb_exists.
  split; intros (w & Hw & Hp); exists w; split; auto; now apply list_elem_of_In.
Qed.

Lemma existsb_tier_row (p : string -> bool) (b1 b2 : bool) (x y : string) :
  existsb p (tier_row b1 b2 x y) = (p x && b1) || (p y && (negb b1 && b2)).
Proof. unfold tier_row. destruct b1, b2; simpl; destruct (p x), (p y); reflexivity. Qed.

(** Which messages of the four rows carry a given prefix. *)
Lemma has_warning_rows (pre : string) (b1 b2 b3 b4 b5 b6 b7 : bool)
      (x1 y1 x2 y2 x3 y3 x4 : string) :
  let p := String.prefix pre in
  has_warning pre (tier_row b1 b2 x1 y1 ++ tier_row b3 b4 x2 y2 ++
                   tier_row b5 b6 x3 y3 ++ tier_row b7 false x4 x4) <->
  ((p x1 && b1) || (p y1 && (negb b1 && b2))) ||
  (((p x2 && b3) || (p y2 && (negb b3 && b4))) ||
   (((p x3 && b5) || (p y3 && (negb b5 && b6))) ||
    ((p x4 && b7) || (p x4 && (negb b7 && false))))) = true.
Proof.
  intros p. now rewrite has_warning_existsb, !existsb_app, !existsb_tier_row.
Qed.

(** C1. For every snapshot, [check_critical_conditions] returns the
    messages of the memory row, the swap row, the cpu row and the
    available-memory row, in that order. A two-tier row is the CRITICAL
    message when the percentage exceeds the critical bound (memory 90,
    swap 80, cpu 90), otherwise the WARNING message when it exceeds the
    warning bound (75, 50, 80), otherwise empty; the last row is the
    CRITICAL message exactly when less than 100 MB are available. Hence
    a message with a given tier and resource is in the result exactly
    under the stated condition, and never together with the other tier
    of its row. *)
Theorem check_critical_conditions_tiers (snapshot : Snapshot) :
  let m := mem_percent (memory snapshot) in
  let s := swap_percent (swap snapshot) in
  let c := cpu_total_percent (cpu snapshot) in
  let a := mem_available_mb (memory snapshot) in
  let ws := check_critical_conditions snapshot in
  (exists row_memory row_swap row_cpu row_available,
      ws = row_memory ++ row_swap ++ row_cpu ++ row_available /\
      two_tier row_memory
        ("КРИТИЧНО: Использование памяти " +:+ fmt1 m +:+ "%")
        ("ПРЕДУПРЕЖДЕНИЕ: Использование памяти " +:+ fmt1 m +:+ "%")
        (90 < m)%Q (75 < m)%Q /\
      two_tier row_swap
        ("КРИТИЧНО: Использование swap " +:+ fmt1 s +:+ "%")
        ("ПРЕДУПРЕЖДЕНИЕ: Использование swap " +:+ fmt1 s +:+ "%")
        (80 < s)%Q (50 < s)%Q /\
      two_tier row_cpu
        ("КРИТИЧНО: Загрузка CPU " +:+ fmt1 c +:+ "%")
        ("ПРЕДУПРЕЖДЕНИЕ: Загрузка CPU " +:+ fmt1 c +:+ "%")
        (90 < c)%Q (80 < c)%Q /\
      one_tier row_available
        ("КРИТИЧНО: Доступно памяти всего " +:+ fmt1 a +:+ " МБ")
        (a < 100)%Q) /\
  (has_warning "КРИТИЧНО: Использование памяти" ws <-> (90 < m)%Q) /\
  (has_warning "ПРЕДУПРЕЖДЕНИЕ: Использование памяти" ws
     <-> ~ (90 < m)%Q /\ (75 < m)%Q) /\
  (has_warning "КРИТИЧНО: Использование swap" ws <-> (80 < s)%Q) /\
  (has_warning "ПРЕДУПРЕЖДЕНИЕ: Использование swap" ws
     <-> ~ (80 < s)%Q /\ (50 < s)%Q) /\
  (has_warning "КРИТИЧНО: Загрузка CPU" ws <-> (90 < c)%Q) /\
  (has_warning "ПРЕДУПРЕЖДЕНИЕ: Загрузка CPU" ws
     <-> ~ (90 < c)%Q /\ (80 < c)%Q) /\
  (has_warning "КРИТИЧНО: Доступно памяти" ws <-> (a < 100)%Q).
Proof.
  intros m s c a ws. subst ws. unfold check_critical_conditions.
  fold m s c a.
  rewrite !tier_append, single_append. rewrite <- !app_assoc. rewrite app_nil_l.
  generalize (fmt1 m) (fmt1 s) (fmt1 c) (fmt1 a). intros fm fs fc fa.
  pose proof (Qgtb_true m 90) as Hm1. pose proof (Qgtb_true m 75) as Hm2.
  pose proof (Qgtb_true s 80) as Hs1. pose proof (Qgtb_true s 50) as Hs2.
  pose proof (Qgtb_true c 90) as Hc1. pose proof (Qgtb_true c 80) as Hc2.
  pose proof (Qltb_true a 100) as Ha.
  split.
  - eexists _, _, _, _. split; [reflexivity|].
    refine (conj _ (conj _ (conj _ _)));
      first [now apply tier_row_two_tier | now apply tier_row_one_tier].
  - refine (conj _ (conj _ (conj _ (conj _ (conj _ (conj _ _)))))).
    all: etransitivity; [apply has_warning_rows|]; cbv zeta.
    all: compute_prefixes; cbn [andb orb]; rewrite ?orb_false_r.
    all: repeat match goal with
                | |- context [Qgtb ?x ?y] => destruct (Qgtb x y)
                | |- context [Qltb ?x ?y] => destruct (Qltb x y)
                end; simpl; intuition congruence.
Qed.
End CheckCriticalConditions.

Section CalculateTrend.
Import Py ReportGenerator Spec.

Lemma float_sum_running (xs : list Q) (acc : float) :
  fold_left (fun acc x => float_add acc (Finite x)) xs acc = running_sum acc xs.
Proof. revert acc. induction xs as [|x xs IH]; intros acc; [reflexivity | apply IH]. Qed.

Lemma len_nonzero {A} (l : list A) : l <> [] -> Qeq_bool (len l) 0 = false.
Proof.
  intros Hl. unfold len. destruct (Qeq_bool _ 0) eqn:E; [|reflexivity].
  apply Qeq_bool_eq in E. unfold Qeq in E. simpl in E.
  destruct l; [congruence|]. simpl length in E. lia.
Qed.

Lemma len_not_negative {A} (l : list A) : Qltb (len l) 0 = false.
Proof.
  apply Qltb_false. apply Qle_not_lt. unfold len.
  change 0%Q with (inject_Z 0). rewrite <- Zle_Qle. lia.
Qed.

(** The code's average is the binary64 mean. *)
Lemma float_mean_code (xs : list Q) :
  xs <> [] ->
  float_truediv (float_sum xs) (Finite (len xs)) = Ok (float_mean xs).
Proof.
  intros Hne. unfold float_truediv, float_sum, float_mean.
  rewrite (len_nonzero xs Hne), float_sum_running.
  destruct (running_sum (Finite 0) xs) as [total|s|]; [reflexivity| |reflexivity].
  rewrite len_not_negative. now rewrite xorb_false_r.
Qed.


Lemma halves_nonempty (v : list Q) :
  (2 <= length v)%nat ->
  take (length v / 2) v <> [] /\ drop (length v / 2) v <> [].
Proof.
  intros H.
  assert (1 <= length v / 2)%nat by (apply (Nat.div_le_lower_bound _ 2 1); lia).
  assert (length v / 2 < length v)%nat by (apply Nat.div_lt; lia).
  split; intros E; apply (f_equal length) in E;
    rewrite ?length_take, ?length_drop in E; cbn [length] in E; lia.
Qed.

(** The result on a series of at least two values, in terms of the
    binary64 difference of the two means. *)
Lemma calculate_trend_diff (v : list Q) :
  (2 <= length v)%nat ->
  let diff := float_sub (float_mean (drop (length v / 2) v))
                        (float_mean (take (length v / 2) v)) in
  _calculate_trend v =
    if float_lt (float_abs diff) (Finite 1) then Ok "STABLE"
    else if float_gt diff (Finite 5) then Ok "INCREASING"
    else if float_lt diff (Finite (-5)) then Ok "DECREASING"
    else Ok (if float_gt diff (Finite 0) then "SLIGHTLY_INCREASING"
             else "SLIGHTLY_DECREASING").
Proof.
  intros H diff. destruct (halves_nonempty v H) as [Hf Hs].
  unfold _calculate_trend.
  assert (Hn : (length v <? 2)%nat = false) by (apply Nat.ltb_ge; lia).
  rewrite Hn, (float_mean_code _ Hf), (float_mean_code _ Hs). reflexivity.
Qed.


End CalculateTrend.

Section ExecutiveSummary.
Import Py ReportGenerator Spec.

Lemma max_fold_is_maximum (rest : list Q) (x : Q) :
  is_maximum (fold_left (fun m y => if Qgtb y m then y else m) rest x) (x :: rest).
Proof.
  revert x. induction rest as [|y rest IH]; intros x; simpl.
  - split; [left | ]. intros z Hz. apply list_elem_of_singleton in Hz. subst. apply Qle_refl.
  - destruct (IH (if Qgtb y x then y else x)) as [Hin Hub]. split.
    + apply elem_of_cons in Hin as [Hin | Hin].
      * rewrite Hin. destruct (Qgtb y x); [right; left | left].
      * right; right; exact Hin.
    + intros z Hz.
      assert (Hxy : (x <= (if Qgtb y x then y else x))%Q /\ (y <= (if Qgtb y x then y else x))%Q).
      { destruct (Qgtb y x) eqn:E.
        - apply Qgtb_true in E. split; [now apply Qlt_le_weak | apply Qle_refl].
        - apply Qgtb_false in E. split; [apply Qle_refl | now apply Qnot_lt_le]. }
      destruct Hxy as [Hx Hy].
      apply elem_of_cons in Hz as [-> | Hz].
      * eapply Qle_trans; [exact Hx | apply Hub; left].
      * apply elem_of_cons in Hz as [-> | Hz].
        -- eapply Qle_trans; [exact Hy | apply Hub; left].
        -- apply Hub. right. exact Hz.
Qed.

Lemma max_is_maximum (xs : list Q) :
  xs <> [] -> exists m, max xs = Ok m /\ is_maximum m xs.
Proof.
  destruct xs as [|x rest]; [congruence|]. intros _.
  eexists. split; [reflexivity | apply max_fold_is_maximum].
Qed.

Lemma fold_left_add (xs : list nat) (a : nat) :
  fold_left Nat.add xs a = (a + sum_list xs)%nat.
Proof.
  revert a. induction xs as [|x xs IH]; intros a; simpl; [lia|]. rewrite IH. lia.
Qed.

Lemma sum_counts_sum_list (xs : list nat) : sum_counts xs = sum_list xs.
Proof. unfold sum_counts. now rewrite fold_left_add. Qed.

(** C3. For every non-empty snapshot history and every analysis
    history, the executive summary is produced without raising; with
    [max_memory] and [max_swap] the largest memory and swap percentages
    of the history, [total_oom] the sum of the per-analysis OOM counts
    and [total_critical] the sum of the per-analysis critical counts, its
    status is CRITICAL iff [max_memory > 90] or [max_swap > 80] or
    [total_oom > 0]; otherwise WARNING iff [max_memory > 75] or
    [max_swap > 50] or [total_critical > 0]; otherwise NORMAL. *)
Theorem executive_summary_status
        (monitoring_data : list Snapshot) (kernel_events : list Analysis) :
  monitoring_data <> [] ->
  exists max_memory max_swap summary,
    is_maximum max_memory (memory_percents monitoring_data) /\
    is_maximum max_swap (swap_percents monitoring_data) /\
    _generate_executive_summary monitoring_data kernel_events = Ok summary /\
    let total_oom := sum_list (oom_events_count <$> kernel_events) in
    let total_critical := sum_list (critical_events_count <$> kernel_events) in
    let critical := (90 < max_memory)%Q \/ (80 < max_swap)%Q \/ (0 < total_oom)%nat in
    let warning := (75 < max_memory)%Q \/ (50 < max_swap)%Q \/ (0 < total_critical)%nat in
    (status summary = "CRITICAL" <-> critical) /\
    (status summary = "WARNING" <-> ~ critical /\ warning) /\
    (status summary = "NORMAL" <-> ~ critical /\ ~ warning).
Proof.
  intros Hne.
  destruct (max_is_maximum (memory_percents monitoring_data)) as (mm & Emm & Hmm).
  { destruct monitoring_data; [congruence | discriminate]. }
  destruct (max_is_maximum (swap_percents monitoring_data)) as (ms & Ems & Hms).
  { destruct monitoring_data; [congruence | discriminate]. }
  destruct (max_is_maximum (cpu_percents monitoring_data)) as (mc & Emc & Hmc).
  { destruct monitoring_data; [congruence | discriminate]. }
  exists mm, ms. unfold _generate_executive_summary.
  destruct monitoring_data as [|d md]; [congruence|].
  rewrite Emm, Ems, Emc. cbn [bind].
  eexists. split; [exact Hmm|]. split; [exact Hms|]. split; [reflexivity|].
  cbv zeta. cbn [status]. unfold total_oom_of, total_critical_of.
  rewrite !sum_counts_sum_list.
  set (total_oom := sum_list (oom_events_count <$> kernel_events)).
  set (total_critical := sum_list (critical_events_count <$> kernel_events)).
  assert (HA : Qgtb mm 90 || Qgtb ms 80 || (0 <? total_oom)%nat = true <->
               (90 < mm)%Q \/ (80 < ms)%Q \/ (0 < total_oom)%nat).
  { rewrite !orb_true_iff, !Qgtb_true, Nat.ltb_lt. tauto. }
  assert (HB : Qgtb mm 75 || Qgtb ms 50 || (0 <? total_critical)%nat = true <->
               (75 < mm)%Q \/ (50 < ms)%Q \/ (0 < total_critical)%nat).
  { rewrite !orb_true_iff, !Qgtb_true, Nat.ltb_lt. tauto. }
  destruct (Qgtb mm 90 || Qgtb ms 80 || (0 <? total_oom)%nat),
    (Qgtb mm 75 || Qgtb ms 50 || (0 <? total_critical)%nat).
  all: rewrite <- HA, <- HB.
  all: repeat split; intros; try discriminate; try reflexivity; intuition congruence.
Qed.

(** The statement above at a one-snapshot history with 95% memory use:
    the status is CRITICAL. *)
Lemma executive_summary_status_witness :
  exists summary,
    _generate_executive_summary [Sample.snapshot_with 95 10 20 4000] [] = Ok summary /\
    status summary = "CRITICAL".
Proof.
  destruct (executive_summary_status [Sample.snapshot_with 95 10 20 4000] [])
    as (mm & ms & summary & [Hm _] & _ & E & Hc & _).
  - discriminate.
  - exists summary. split; [exact E|]. apply Hc. left.
    apply list_elem_of_singleton in Hm. rewrite Hm. reflexivity.
Defined.
End ExecutiveSummary.

Section EmptyHistory.
Import Py ReportGenerator.
Variable clock : nat -> string.

(** C4. For every analysis history and every optional tracked pid,
    [generate_report] on an empty snapshot history returns a report (no
    exception, hence no division by zero); its executive summary is the
    single status "Нет данных для анализа" (no data to analyse), and its
    memory, cpu and swap statistics blocks are empty. *)
Theorem generate_report_empty_history
        (kernel_events : list Analysis) (leak_process_pid : option Z) (t : nat) :
  exists report,
    generate_report clock [] kernel_events leak_process_pid t = Ok (report, S t) /\
    executive_summary report =
      {| status := "Нет данных для анализа"; details := None |} /\
    memory_analysis report = None /\
    cpu_analysis report = None /\
    swap_analysis report = None.
Proof.
  unfold generate_report. cbn [_generate_executive_summary _analyze_memory
    _analyze_cpu _analyze_swap _generate_recommendations bind].
  destruct (pid_truthy leak_process_pid) as [p|];
    cbn [_track_leak_process fold_left bind];
    eexists; (split; [reflexivity|]); cbn; auto.
Qed.
End EmptyHistory.

Section ProcessFailures.
Import Py ResourceMonitor.

(** Whatever query of a process raises a [psutil] error,
    [_get_process_dict] answers with the empty dictionary. *)
Lemma get_process_dict_swallows (proc : Process) (e : exn) :
  psutil_error e = true ->
  proc_memory_info_rss proc = Raise e ->
  _get_process_dict proc = Ok ∅.
Proof.
  intros He Hq. unfold _get_process_dict. rewrite Hq. cbn [bind try_except].
  now rewrite He.
Qed.

Lemma enumerate_all (procs : list Process) (processes : list ProcDict) :
  (forall p, p ∈ procs -> is_ok (_get_process_dict p) = true) ->
  exists ds,
    enumerate procs processes = Ok (processes ++ ds) /\
    Forall2 (fun p d => _get_process_dict p = Ok d) procs ds.
Proof.
  revert processes. induction procs as [|p procs IH]; intros processes Hok.
  - exists []. split; [now rewrite app_nil_r | constructor].
  - assert (Hp : is_ok (_get_process_dict p) = true) by (apply Hok; left).
    destruct (_get_process_dict p) as [d|] eqn:Ed; [|discriminate].
    destruct (IH (processes ++ [d])) as (ds & E & Hds).
    { intros q Hq. apply Hok. now right. }
    exists (d :: ds). split.
    + simpl. rewrite Ed. cbn [bind try_except]. rewrite E.
      now rewrite <- app_assoc.
    + now constructor.
Qed.

Lemma keyed_missing_key (ds : list ProcDict) :
  (exists d, d ∈ ds /\ d !! "memory_mb" = None) ->
  keyed (fun x => getitem x "memory_mb") ds = Raise KeyError.
Proof.
  induction ds as [|d ds IH]; intros (x & Hx & Hk).
  - inversion Hx.
  - simpl. unfold getitem at 1. destruct (d !! "memory_mb") eqn:Ed; [|reflexivity].
    cbn [bind]. rewrite IH; [reflexivity|].
    apply elem_of_cons in Hx as [-> | Hx]; [congruence|]. eauto.
Qed.

(** Whenever every process answers or fails with a [psutil] error, and one
    of them fails, the enumerating call raises [KeyError]. *)
Lemma unreadable_process_breaks_enumeration (h : Host) :
  (forall p, p ∈ process_iter h -> is_ok (_get_process_dict p) = true) ->
  (exists p, p ∈ process_iter h /\ _get_process_dict p = Ok ∅) ->
  get_process_info h None = Raise KeyError.
Proof.
  intros Hok (p & Hp & Ep). unfold get_process_info. cbn [pid_truthy].
  destruct (enumerate_all (process_iter h) [] Hok) as (ds & E & Hds).
  rewrite E. cbn [bind app]. unfold sort_reverse.
  rewrite keyed_missing_key; [reflexivity|].
  exists ∅. split; [|reflexivity].
  apply list_elem_of_lookup in Hp as [i Hi].
  destruct (Forall2_lookup_l _ _ _ _ _ Hds Hi) as (d & Hd & Ed).
  rewrite Ep in Ed. injection Ed as <-.
  apply list_elem_of_lookup. eauto.
Qed.

(** C5, at a failing input. On a host with three processes of which the
    second denies access to its memory figures, [_get_process_dict]
    answers [{}] for that process; the enumeration keeps this empty
    record, so that sorting on [memory_mb] raises [KeyError] and with it
    [get_process_info()] and [collect_snapshot()]; and
    [get_process_info(2)] returns the list holding the empty record. *)
Theorem inaccessible_process_not_dropped :
  let denied := Sample.process_with 2 (Raise AccessDenied) in
  let h := Sample.host_with
             [Sample.process_with 1 (Ok 1048576); denied;
              Sample.process_with 3 (Ok 3145728)] in
  _get_process_dict denied = Ok ∅ /\
  get_process_info h None = Raise KeyError /\
  get_process_info h (Some 2) = Ok [∅] /\
  collect_snapshot Sample.clock h None 0 = Raise KeyError /\
  collect_snapshot Sample.clock h (Some 2) 0 = Raise KeyError.
Proof. vm_compute. repeat split; reflexivity. Qed.
End ProcessFailures.

Section Scans.
Import Py Text KernelEventAnalyzer ScanSpec.
Variable re_search : string -> bool -> string -> option Match.
Variable clock : nat -> string.

Section Generic.
Context {E : Type}.
Variable parse : string -> string -> nat -> option E * nat.
Variable patterns : list string.

Lemma append_event_app (events : list E) (event : option E) :
  append_event events event = events ++ option_list event.
Proof. destruct event; simpl; now rewrite ?app_nil_r. Qed.

Lemma scan_patterns_acc (ps : list string) (line : string) (events : list E) (t : nat) :
  scan_patterns re_search parse ps line events t =
    (events ++ fst (scan_patterns re_search parse ps line [] t),
     snd (scan_patterns re_search parse ps line [] t)).
Proof.
  induction ps as [|p ps IH]; simpl.
  - now rewrite app_nil_r.
  - destruct (re_search p true line); [|exact IH].
    destruct (parse line p t) as [e t']. simpl.
    now rewrite !append_event_app.
Qed.

Lemma scan_patterns_length (ps : list string) (line : string) (t : nat) :
  (length (fst (scan_patterns re_search parse ps line [] t)) <= 1)%nat.
Proof.
  induction ps as [|p ps IH]; simpl; [lia|].
  destruct (re_search p true line); [|exact IH].
  destruct (parse line p t) as [[e|] t']; simpl; lia.
Qed.

Lemma scan_patterns_no_match (ps : list string) (line : string) (events : list E) (t : nat) :
  (forall q, q ∈ ps -> ~ matches re_search q line) ->
  scan_patterns re_search parse ps line events t = (events, t).
Proof.
  induction ps as [|p ps IH]; intros H; simpl; [reflexivity|].
  destruct (re_search p true line) eqn:Ep.
  - exfalso. apply (H p); [left|]. unfold matches. rewrite Ep. eauto.
  - apply IH. intros q Hq. apply H. now right.
Qed.

Lemma scan_patterns_first (before after : list string) (p line : string)
      (events : list E) (t : nat) :
  (forall q, q ∈ before -> ~ matches re_search q line) ->
  matches re_search p line ->
  scan_patterns re_search parse (before ++ p :: after) line events t =
    (append_event events (fst (parse line p t)), snd (parse line p t)).
Proof.
  intros Hb [m Hm].
  induction before as [|q before IH]; simpl.
  - rewrite Hm. now destruct (parse line p t).
  - destruct (re_search q true line) eqn:Eq.
    + exfalso. apply (Hb q); [left|]. unfold matches. rewrite Eq. eauto.
    + apply IH. intros r Hr. apply Hb. now right.
Qed.

Lemma scan_line_acc (st : list E * nat) (line : string) :
  scan_line re_search parse patterns st line =
    (fst st ++ fst (scan_line re_search parse patterns ([], snd st) line),
     snd (scan_line re_search parse patterns ([], snd st) line)).
Proof.
  unfold scan_line. destruct (blank line); simpl.
  - rewrite app_nil_r. now destruct st.
  - apply scan_patterns_acc.
Qed.

Lemma fold_scan_acc (logs : list string) (st : list E * nat) :
  fold_left (scan_line re_search parse patterns) logs st =
    (fst st ++ fst (scan re_search parse patterns logs (snd st)),
     snd (scan re_search parse patterns logs (snd st))).
Proof.
  unfold scan. revert st. induction logs as [|line logs IH]; intros st; simpl.
  - rewrite app_nil_r. now destruct st.
  - rewrite IH. rewrite (IH (scan_line _ _ _ ([], snd st) line)).
    rewrite (scan_line_acc st). simpl. now rewrite app_assoc.
Qed.

Lemma scan_first_match (pattern_of : E -> string) :
  (forall line t pattern e,
      fst (parse line pattern t) = Some e -> pattern_of e = pattern) ->
  first_match_scan re_search (scan re_search parse patterns) parse patterns pattern_of.
Proof.
  intros Hattr. split.
  - intros line rest t. unfold scan at 1. simpl.
    rewrite fold_scan_acc. unfold scan at 3. simpl.
    destruct (scan_line _ _ _ ([], t) line) as [ev t1]. simpl.
    now destruct (scan re_search parse patterns rest t1).
  - reflexivity.
  - intros line t Hb. unfold scan, scan_line. simpl. now rewrite Hb.
  - intros line t Hb Hn. unfold scan, scan_line. simpl. rewrite Hb.
    now apply scan_patterns_no_match.
  - intros line t p Hb (before & after & -> & Hn & Hm).
    unfold scan, scan_line. simpl. rewrite Hb.
    rewrite scan_patterns_first by assumption. now rewrite append_event_app.
  - exact Hattr.
  - intros line t. unfold scan, scan_line. simpl.
    destruct (blank line); simpl; [lia|]. apply scan_patterns_length.
Qed.
End Generic.

Lemma parse_oom_event_pattern (line pattern : string) (t : nat) (e : OomEvent) :
  fst (_parse_oom_event re_search clock line pattern t) = Some e ->
  oom_pattern e = pattern.
Proof.
  unfold _parse_oom_event. destruct (timestamp_of _ _ _ _) as [ts t'].
  destruct (int_group (re_search pid_re true line)) as [pid|]; cbn [bind]; [|discriminate].
  destruct (int_group (re_search oom_score_re true line)) as [sc|]; cbn [bind]; [|discriminate].
  now intros [= <-].
Qed.

Lemma parse_critical_event_pattern (line pattern : string) (t : nat) (e : CriticalEvent) :
  fst (_parse_critical_event re_search clock line pattern t) = Some e ->
  crit_pattern e = pattern.
Proof.
  unfold _parse_critical_event. destruct (timestamp_of _ _ _ _) as [ts t'].
  now intros [= <-].
Qed.

(** C6. Each of the two scans classifies by the first matching
    pattern: the lines are handled in order; a blank or white-space-only
    line gives no event whatever the patterns would match; a line that is
    not blank gives no event when no pattern matches, and otherwise
    exactly what the parser returns for the first pattern of the ordered
    list that matches, the patterns behind it having no influence; so a
    line gives at most one event per scan, and the event records that
    first matching pattern. *)
Theorem scans_first_match_wins :
  first_match_scan re_search
    (analyze_oom_events re_search clock)
    (_parse_oom_event re_search clock) oom_patterns oom_pattern /\
  first_match_scan re_search
    (analyze_critical_events re_search clock)
    (_parse_critical_event re_search clock) critical_patterns crit_pattern.
Proof.
  split.
  - apply scan_first_match. intros line t pattern e. apply parse_oom_event_pattern.
  - apply scan_first_match. intros line t pattern e. apply parse_critical_event_pattern.
Qed.
End Scans.

Section Rerun.
Import Py Text KernelEventAnalyzer RerunSpec.
Variable re_search : string -> bool -> string -> option Match.

Section Related.
Context {E : Type}.
Variable R : E -> E -> Prop.
Variables parse1 parse2 : string -> string -> nat -> option E * nat.
Variable patterns : list string.
Variables t1 t2 : nat.
Hypothesis parse1_tick : forall line p u, (u <= snd (parse1 line p u))%nat.
Hypothesis parse2_tick : forall line p u, (u <= snd (parse2 line p u))%nat.

Lemma append_event_related (l1 l2 : list E) (e1 e2 : option E) :
  Forall2 R l1 l2 -> option_Forall2 R e1 e2 ->
  Forall2 R (append_event l1 e1) (append_event l2 e2).
Proof.
  intros Hl He. destruct He; simpl; [|exact Hl].
  apply Forall2_app; [exact Hl | now constructor].
Qed.

Lemma scan_patterns_related (line : string) (ps : list string)
      (l1 l2 : list E) (u1 u2 : nat) :
  related_on re_search R parse1 parse2 patterns t1 t2 line -> blank line = false ->
  (forall p, p ∈ ps -> p ∈ patterns) ->
  (t1 <= u1)%nat -> (t2 <= u2)%nat ->
  Forall2 R l1 l2 ->
  Forall2 R (fst (scan_patterns re_search parse1 ps line l1 u1))
            (fst (scan_patterns re_search parse2 ps line l2 u2)) /\
  (t1 <= snd (scan_patterns re_search parse1 ps line l1 u1))%nat /\
  (t2 <= snd (scan_patterns re_search parse2 ps line l2 u2))%nat.
Proof.
  intros Hp Hb Hps H1 H2 Hl. induction ps as [|p ps IH]; simpl; [auto|].
  destruct (re_search p true line) as [m|] eqn:Em.
  - assert (Hrel : option_Forall2 R (fst (parse1 line p u1)) (fst (parse2 line p u2))).
    { apply Hp; try assumption; [apply Hps; left|]. unfold ScanSpec.matches. eauto. }
    pose proof (parse1_tick line p u1). pose proof (parse2_tick line p u2).
    destruct (parse1 line p u1) as [e1 v1], (parse2 line p u2) as [e2 v2].
    simpl in *. split; [now apply append_event_related | lia].
  - apply IH. intros q Hq. apply Hps. now right.
Qed.

Lemma fold_scan_related (logs : list string) (st1 st2 : list E * nat) :
  (forall line, line ∈ logs -> related_on re_search R parse1 parse2 patterns t1 t2 line) ->
  (t1 <= snd st1)%nat -> (t2 <= snd st2)%nat ->
  Forall2 R (fst st1) (fst st2) ->
  Forall2 R (fst (fold_left (scan_line re_search parse1 patterns) logs st1))
            (fst (fold_left (scan_line re_search parse2 patterns) logs st2)).
Proof.
  revert st1 st2. induction logs as [|line logs IH]; intros st1 st2 Hp H1 H2 Hl; simpl.
  - exact Hl.
  - assert (Hline : related_on re_search R parse1 parse2 patterns t1 t2 line) by (apply Hp; left).
    assert (Hrest : forall l, l ∈ logs -> related_on re_search R parse1 parse2 patterns t1 t2 l)
      by (intros l Hin; apply Hp; now right).
    unfold scan_line at 2 4. destruct (blank line) eqn:Hb; [now apply IH|].
    destruct (scan_patterns_related line patterns (fst st1) (fst st2)
                (snd st1) (snd st2) Hline Hb (fun p H => H) H1 H2 Hl)
      as (Hl' & H1' & H2').
    now apply IH.
Qed.

Lemma scan_related (logs : list string) :
  (forall line, line ∈ logs -> related_on re_search R parse1 parse2 patterns t1 t2 line) ->
  forall u1 u2, (t1 <= u1)%nat -> (t2 <= u2)%nat ->
  Forall2 R (fst (scan re_search parse1 patterns logs u1))
            (fst (scan re_search parse2 patterns logs u2)).
Proof.
  intros Hp u1 u2 H1 H2. apply fold_scan_related; [exact Hp | | | constructor];
    assumption.
Qed.
End Related.

Variables clock1 clock2 : nat -> string.

Lemma timestamp_of_tick (clock : nat -> string) (line : string) (u : nat) :
  (u <= snd (timestamp_of re_search clock line u))%nat.
Proof. unfold timestamp_of. destruct (re_search _ _ _); simpl; lia. Qed.

Lemma parse_oom_tick (clock : nat -> string) (line p : string) (u : nat) :
  (u <= snd (_parse_oom_event re_search clock line p u))%nat.
Proof.
  unfold _parse_oom_event. pose proof (timestamp_of_tick clock line u) as H.
  destruct (timestamp_of _ _ _ _) as [ts v]. simpl in H.
  destruct (int_group (re_search pid_re true line)); cbn [bind]; [|exact H].
  destruct (int_group (re_search oom_score_re true line)); cbn [bind]; exact H.
Qed.

Lemma parse_critical_tick (clock : nat -> string) (line p : string) (u : nat) :
  (u <= snd (_parse_critical_event re_search clock line p u))%nat.
Proof.
  unfold _parse_critical_event. pose proof (timestamp_of_tick clock line u) as H.
  destruct (timestamp_of _ _ _ _) as [ts v]. exact H.
Qed.

Lemma timestamp_of_stamps (line : string) (t1 t2 u1 u2 : nat) :
  (t1 <= u1)%nat -> (t2 <= u2)%nat ->
  stamps re_search clock1 clock2 t1 t2 line
    (fst (timestamp_of re_search clock1 line u1))
    (fst (timestamp_of re_search clock2 line u2)).
Proof.
  intros H1 H2. unfold stamps, timestamp_of.
  destruct (re_search timestamp_re false line); simpl; [split; reflexivity|].
  split; eexists; (split; [eassumption | reflexivity]).
Qed.

Lemma parse_oom_paired (logs : list string) (t1 t2 : nat) (line : string) :
  line ∈ logs ->
  related_on re_search (paired_oom re_search clock1 clock2 t1 t2 logs)
    (_parse_oom_event re_search clock1) (_parse_oom_event re_search clock2)
    oom_patterns t1 t2 line.
Proof.
  intros Hin Hb p u1 u2 _ _ H1 H2. unfold _parse_oom_event.
  pose proof (timestamp_of_stamps line t1 t2 u1 u2 H1 H2) as Hs.
  destruct (timestamp_of _ clock1 _ _) as [ts1 v1], (timestamp_of _ clock2 _ _) as [ts2 v2].
  destruct (int_group (re_search pid_re true line)); cbn [bind]; [|constructor].
  destruct (int_group (re_search oom_score_re true line)); cbn [bind]; constructor.
  split; [repeat split|]. exists line. auto.
Qed.

Lemma parse_critical_paired (logs : list string) (t1 t2 : nat) (line : string) :
  line ∈ logs ->
  related_on re_search (paired_critical re_search clock1 clock2 t1 t2 logs)
    (_parse_critical_event re_search clock1) (_parse_critical_event re_search clock2)
    critical_patterns t1 t2 line.
Proof.
  intros Hin Hb p u1 u2 _ _ H1 H2. unfold _parse_critical_event.
  pose proof (timestamp_of_stamps line t1 t2 u1 u2 H1 H2) as Hs.
  destruct (timestamp_of _ clock1 _ _) as [ts1 v1], (timestamp_of _ clock2 _ _) as [ts2 v2].
  constructor. split; [repeat split|]. exists line. auto.
Qed.

Lemma timestamp_of_stamped (clock : nat -> string) (line : string) (u : nat) (m : Match) :
  re_search timestamp_re false line = Some m ->
  timestamp_of re_search clock line u = (group1 m, u).
Proof. intros H. unfold timestamp_of. now rewrite H. Qed.

Lemma parse_oom_stamped (line p : string) (u1 u2 : nat) :
  is_Some (re_search timestamp_re false line) ->
  option_Forall2 eq
    (fst (_parse_oom_event re_search clock1 line p u1))
    (fst (_parse_oom_event re_search clock2 line p u2)).
Proof.
  intros [m Hm]. unfold _parse_oom_event.
  rewrite !(timestamp_of_stamped _ _ _ m Hm).
  destruct (int_group (re_search pid_re true line)); cbn [bind]; [|constructor].
  destruct (int_group (re_search oom_score_re true line)); cbn [bind]; now constructor.
Qed.

Lemma parse_critical_stamped (line p : string) (u1 u2 : nat) :
  is_Some (re_search timestamp_re false line) ->
  option_Forall2 eq
    (fst (_parse_critical_event re_search clock1 line p u1))
    (fst (_parse_critical_event re_search clock2 line p u2)).
Proof.
  intros [m Hm]. unfold _parse_critical_event.
  rewrite !(timestamp_of_stamped _ _ _ m Hm). now constructor.
Qed.

Lemma analyze_oom_events_tick (clock : nat -> string) (logs : list string) (t : nat) :
  (t <= snd (analyze_oom_events re_search clock logs t))%nat.
Proof.
  unfold analyze_oom_events, scan.
  assert (G : forall (st : list OomEvent * nat),
            (snd st <= snd (fold_left (scan_line re_search (_parse_oom_event re_search clock)
                                                 oom_patterns) logs st))%nat).
  { induction logs as [|line logs IH]; intros st; simpl; [lia|].
    etransitivity; [|apply IH]. unfold scan_line.
    destruct (blank line); [lia|].
    generalize (fst st) (snd st). generalize oom_patterns.
    intros ps. induction ps as [|p ps IHp]; intros l u; simpl; [lia|].
    destruct (re_search p true line); [|apply IHp].
    pose proof (parse_oom_tick clock line p u).
    destruct (_parse_oom_event re_search clock line p u). simpl in *. lia. }
  apply (G ([], t)).
Qed.

Lemma analyze_all_events_fields (clock : nat -> string) (logs : list string)
      (kernel_events : list Analysis) (t : nat) :
  let a := fst (fst (analyze_all_events re_search clock logs kernel_events t)) in
  total_log_lines a = length logs /\
  oom_events a = fst (analyze_oom_events re_search clock logs t) /\
  critical_events a =
    fst (analyze_critical_events re_search clock logs
           (snd (analyze_oom_events re_search clock logs t))) /\
  oom_events_count a = length (oom_events a) /\
  critical_events_count a = length (critical_events a).
Proof.
  unfold analyze_all_events.
  destruct (analyze_oom_events re_search clock logs t) as [oom u].
  cbn [fst snd].
  destruct (analyze_critical_events re_search clock logs u) as [crit u'].
  cbn. repeat split; reflexivity.
Qed.

(** C8, as amended. Two runs of [analyze_all_events] on the same lines,
    whatever the clocks show, whenever they start and whatever history
    the analyzer holds, give the same total line count, the same OOM and
    critical event counts, and event sequences of equal length whose
    events agree pairwise in every field other than the timestamp. The
    two events of a pair come from the same line, which is not blank;
    when that line carries an ISO-like timestamp both events have it,
    and otherwise each has a reading of the clock taken by its own run.
    Hence the two analyses are identical, events included, as soon as
    every line that can give an event (not blank, and matched by a
    pattern) carries a timestamp; blank lines and lines without a match
    do not matter. *)
Theorem rerun_identical_up_to_timestamps
        (logs : list string) (kernel_events1 kernel_events2 : list Analysis)
        (t1 t2 : nat) :
  let a1 := fst (fst (analyze_all_events re_search clock1 logs kernel_events1 t1)) in
  let a2 := fst (fst (analyze_all_events re_search clock2 logs kernel_events2 t2)) in
  total_log_lines a1 = total_log_lines a2 /\
  oom_events_count a1 = oom_events_count a2 /\
  critical_events_count a1 = critical_events_count a2 /\
  Forall2 (paired_oom re_search clock1 clock2 t1 t2 logs)
          (oom_events a1) (oom_events a2) /\
  Forall2 (paired_critical re_search clock1 clock2 t1 t2 logs)
          (critical_events a1) (critical_events a2) /\
  ((forall line, line ∈ logs -> gives_event re_search line ->
                 is_Some (re_search timestamp_re false line)) ->
   identical a1 a2).
Proof.
  intros a1 a2.
  destruct (analyze_all_events_fields clock1 logs kernel_events1 t1)
    as (Hn1 & Ho1 & Hc1 & Hoc1 & Hcc1).
  destruct (analyze_all_events_fields clock2 logs kernel_events2 t2)
    as (Hn2 & Ho2 & Hc2 & Hoc2 & Hcc2).
  fold a1 in Hn1, Ho1, Hc1, Hoc1, Hcc1. fold a2 in Hn2, Ho2, Hc2, Hoc2, Hcc2.
  pose proof (analyze_oom_events_tick clock1 logs t1) as Ht1.
  pose proof (analyze_oom_events_tick clock2 logs t2) as Ht2.
  assert (HO : Forall2 (paired_oom re_search clock1 clock2 t1 t2 logs)
                       (oom_events a1) (oom_events a2)).
  { rewrite Ho1, Ho2.
    apply (scan_related _ _ _ _ t1 t2 (parse_oom_tick clock1) (parse_oom_tick clock2));
      [|lia|lia].
    intros line Hin. now apply parse_oom_paired. }
  assert (HC : Forall2 (paired_critical re_search clock1 clock2 t1 t2 logs)
                       (critical_events a1) (critical_events a2)).
  { rewrite Hc1, Hc2.
    apply (scan_related _ _ _ _ t1 t2
             (parse_critical_tick clock1) (parse_critical_tick clock2));
      [|exact Ht1|exact Ht2].
    intros line Hin. now apply parse_critical_paired. }
  split; [congruence|]. split.
  { rewrite Hoc1, Hoc2. now apply Forall2_length in HO. }
  split.
  { rewrite Hcc1, Hcc2. now apply Forall2_length in HC. }
  split; [exact HO|]. split; [exact HC|].
  intros Hts.
  assert (HO' : oom_events a1 = oom_events a2).
  { apply list_eq_Forall2. rewrite Ho1, Ho2.
    apply (scan_related _ _ _ _ t1 t2 (parse_oom_tick clock1) (parse_oom_tick clock2));
      [|lia|lia].
    intros line Hin Hb p u1 u2 Hp Hm _ _. apply parse_oom_stamped.
    apply Hts; [exact Hin|]. split; [exact Hb|].
    exists p. split; [|exact Hm]. apply elem_of_app. now left. }
  assert (HC' : critical_events a1 = critical_events a2).
  { apply list_eq_Forall2. rewrite Hc1, Hc2.
    apply (scan_related _ _ _ _ t1 t2
             (parse_critical_tick clock1) (parse_critical_tick clock2));
      [|exact Ht1|exact Ht2].
    intros line Hin Hb p u1 u2 Hp Hm _ _. apply parse_critical_stamped.
    apply Hts; [exact Hin|]. split; [exact Hb|].
    exists p. split; [|exact Hm]. apply elem_of_app. now right. }
  unfold identical. rewrite Hoc1, Hoc2, Hcc1, Hcc2, HO', HC'.
  repeat split. congruence.
Qed.
End Rerun.

Section RerunWitness.
Import Py KernelEventAnalyzer RerunSpec.

(** Two runs at different times over a stamped event line, a line that
    no pattern matches and an empty line give identical analyses. *)
Lemma rerun_identical_up_to_timestamps_witness :
  let logs := ["2024-05-01 11:59:58 host kernel: Out of memory: Killed process 4242 (firefox)";
               "systemd[1]: Started Session 12 of user root.";
               ""] in
  identical
    (fst (fst (analyze_all_events Regex.re_search Sample.clock logs [] 0)))
    (fst (fst (analyze_all_events Regex.re_search (fun _ => "later") logs [] 7))).
Proof.
  intros logs.
  apply (rerun_identical_up_to_timestamps Regex.re_search Sample.clock
           (fun _ => "later") logs [] [] 0 7).
  intros line Hin [Hb (p & Hp & Hm)]. unfold logs in Hin.
  apply elem_of_cons in Hin as [-> | Hin]; [vm_compute; eauto|].
  apply elem_of_cons in Hin as [-> | Hin].
  - exfalso. unfold ScanSpec.matches in Hm.
    repeat (apply elem_of_cons in Hp as [-> | Hp];
            [vm_compute in Hm; destruct Hm as [m Hm]; discriminate Hm|]).
    inversion Hp.
  - apply list_elem_of_singleton in Hin as ->. discriminate Hb.
Defined.
End RerunWitness.

Section RerunCounterexample.
Import Py KernelEventAnalyzer RerunSpec.

(** C8, as stated, fails: a matching line without a timestamp is stamped
    with the reading of the clock, which differs between the two runs. *)
Lemma rerun_changes_event_timestamps :
  ~ rerun_identical Regex.re_search Sample.clock
      ["Out of memory: Killed process 4242 (firefox)"] [] 0.
Proof.
  unfold rerun_identical, identical. vm_compute.
  intros (_ & _ & _ & H & _). discriminate H.
Qed.
End RerunCounterexample.

Section OomRollup.
Import Py ReportGenerator RollupSpec.

Lemma fold_left_app_concat {A B} (f : A -> list B) (xs : list A) (acc : list B) :
  fold_left (fun l x => l ++ f x) xs acc = acc ++ concat (f <$> xs).
Proof.
  revert acc. induction xs as [|x xs IH]; intros acc; simpl.
  - now rewrite app_nil_r.
  - rewrite IH. now rewrite app_assoc.
Qed.

Lemma all_oom_events_of_concat (kernel_events : list Analysis) :
  all_oom_events_of kernel_events = all_oom kernel_events.
Proof. unfold all_oom_events_of, all_oom. now rewrite fold_left_app_concat. Qed.

Lemma kills_cons (name : string) (e : OomEvent) (events : list OomEvent) :
  kills name (e :: events) =
    ((if decide (oom_process_name e = Some name) then 1 else 0) + kills name events)%nat.
Proof.
  unfold kills. rewrite filter_cons. now destruct (decide _).
Qed.

Lemma count_kill_lookup (m : gmap string nat) (e : OomEvent) (name : string) :
  name <> "" ->
  count_kill m e !! name =
    if decide (oom_process_name e = Some name)
    then Some (default 0 (m !! name) + 1)%nat
    else m !! name.
Proof.
  intros Hname. unfold count_kill.
  destruct (oom_process_name e) as [[|c n]|]; cbn [name_truthy]; case_decide;
    simplify_eq; try reflexivity.
  - now rewrite lookup_insert_eq.
  - rewrite lookup_insert_ne; congruence.
Qed.

Lemma count_kill_lookup_empty_name (m : gmap string nat) (e : OomEvent) :
  count_kill m e !! "" = m !! "".
Proof.
  unfold count_kill.
  destruct (oom_process_name e) as [[|c n]|]; simpl; try reflexivity.
  now rewrite lookup_insert_ne.
Qed.

Lemma fold_count_kill_lookup (events : list OomEvent) (m : gmap string nat)
      (name : string) :
  name <> "" ->
  fold_left count_kill events m !! name =
    match kills name events with
    | O => m !! name
    | S k => Some (default 0 (m !! name) + S k)%nat
    end.
Proof.
  intros Hname. revert m. induction events as [|e events IH]; intros m.
  - reflexivity.
  - simpl fold_left. rewrite IH, kills_cons, (count_kill_lookup m e name Hname).
    destruct (decide (oom_process_name e = Some name)); simpl.
    + destruct (kills name events); simpl; f_equal; lia.
    + reflexivity.
Qed.

Lemma fold_count_kill_empty_name (events : list OomEvent) (m : gmap string nat) :
  fold_left count_kill events m !! "" = m !! "".
Proof.
  revert m. induction events as [|e events IH]; intros m; simpl; [reflexivity|].
  now rewrite IH, count_kill_lookup_empty_name.
Qed.

(** C7. The OOM roll-up is computed on the union, in order, of the OOM
    events of all analyses. When the union is empty it reports
    [oom_events_detected = False] with total 0 and nothing else.
    Otherwise it reports [oom_events_detected = True], the number of all
    events as total, the mapping that gives every named process the
    number of events naming it (events without a process name, or with
    an empty one, have no key but count in the total), and the last 10
    events in their original order. Two firefox events and one chrome
    event spread over two analyses give total 3 and the mapping
    firefox: 2, chrome: 1. *)
Theorem oom_rollup (kernel_events : list Analysis) :
  let all := all_oom kernel_events in
  let rollup := _analyze_oom_events kernel_events in
  (all = [] ->
     rollup = {| oom_events_detected := false; total_oom_events := 0;
                 processes_killed := None; recent_oom_events := None |}) /\
  (all <> [] ->
     oom_events_detected rollup = true /\
     total_oom_events rollup = length all /\
     (exists killed,
         processes_killed rollup = Some killed /\
         forall name n,
           killed !! name = Some n <->
           name <> "" /\ n = kills name all /\ (0 < n)%nat) /\
     (exists earlier recent,
         recent_oom_events rollup = Some recent /\
         all = earlier ++ recent /\
         length recent = Nat.min 10 (length all))) /\
  (let firefox := Sample.oom_event_of (Some "firefox") in
   let chrome := Sample.oom_event_of (Some "chrome") in
   let example := _analyze_oom_events
                    [Sample.analysis_with [firefox; chrome] [];
                     Sample.analysis_with [firefox] []] in
   total_oom_events example = 3%nat /\
   processes_killed example = Some {[ "firefox" := 2%nat; "chrome" := 1%nat ]}).
Proof.
  intros all rollup. subst rollup. unfold _analyze_oom_events.
  rewrite all_oom_events_of_concat. fold all.
  split; [|split].
  - intros ->. reflexivity.
  - intros Hne. destruct all as [|e rest] eqn:Eall; [congruence|].
    rewrite <- Eall. cbn [oom_events_detected total_oom_events processes_killed
                           recent_oom_events].
    split; [reflexivity|]. split; [reflexivity|]. split.
    + eexists. split; [reflexivity|]. intros name n.
      destruct (decide (name = "")) as [->|Hname].
      * rewrite fold_count_kill_empty_name, lookup_empty. split; [discriminate|tauto].
      * rewrite (fold_count_kill_lookup all ∅ name Hname), lookup_empty. simpl.
        destruct (kills name all) as [|k]; split.
        -- discriminate.
        -- intros (_ & -> & H). lia.
        -- intros [= <-]. repeat split; [assumption|lia].
        -- intros (_ & -> & _). reflexivity.
    + exists (take (length all - 10) all), (drop (length all - 10) all).
      split; [reflexivity|]. split; [symmetry; apply take_drop|].
      rewrite length_drop. lia.
  - vm_compute. split; reflexivity.
Qed.
End OomRollup.

Section CriticalRollup.
Import Py ReportGenerator RollupSpec.

Lemma add_kernel_entries_app (l : list CriticalEntry) (a : Analysis) :
  add_kernel_entries l a = l ++ (FromKernel <$> critical_events a).
Proof.
  unfold add_kernel_entries. generalize (critical_events a) as evs.
  intros evs. revert l. induction evs as [|e evs IH]; intros l; simpl.
  - now rewrite app_nil_r.
  - rewrite IH. now rewrite <- app_assoc.
Qed.

Lemma fold_add_kernel_entries (kernel_events : list Analysis) (l : list CriticalEntry) :
  fold_left add_kernel_entries kernel_events l =
    l ++ (FromKernel <$> all_critical kernel_events).
Proof.
  unfold all_critical. revert l.
  induction kernel_events as [|a ke IH]; intros l; simpl.
  - now rewrite app_nil_r.
  - rewrite IH, add_kernel_entries_app, fmap_app. now rewrite app_assoc.
Qed.

Lemma fold_add_snapshot_entry (monitoring_data : list Snapshot) (l : list CriticalEntry) :
  Forall resource_critical l ->
  Forall resource_critical (fold_left add_snapshot_entry monitoring_data l).
Proof.
  revert l. induction monitoring_data as [|s md IH]; intros l Hl; simpl; [exact Hl|].
  apply IH. unfold add_snapshot_entry.
  destruct (snapshot_warnings s); [exact Hl|].
  apply Forall_app. split; [exact Hl|]. repeat constructor.
Qed.

(** C9. The combined list of the critical-event roll-up is the
    RESOURCE_CRITICAL entries derived from the snapshots followed by all
    kernel critical events of the analyses in order;
    [total_critical_events] is the length of that whole list and [events]
    its first 50 entries, so that with more than 50 combined entries the
    total exceeds the length of the returned list, which is then 50. *)
Theorem critical_rollup_total_and_truncation
        (monitoring_data : list Snapshot) (kernel_events : list Analysis) :
  let rollup := _analyze_critical_events monitoring_data kernel_events in
  exists from_snapshots,
    let combined := from_snapshots ++ (FromKernel <$> all_critical kernel_events) in
    Forall resource_critical from_snapshots /\
    total_critical_events rollup = length combined /\
    events rollup = take 50 combined /\
    ((50 < length combined)%nat ->
       length (events rollup) = 50%nat /\
       (length (events rollup) < total_critical_events rollup)%nat).
Proof.
  intros rollup. subst rollup. unfold _analyze_critical_events, critical_events_list_of.
  exists (fold_left add_snapshot_entry monitoring_data []).
  cbv zeta. rewrite fold_add_kernel_entries.
  cbn [total_critical_events events].
  split; [apply fold_add_snapshot_entry; constructor|].
  split; [reflexivity|]. split; [reflexivity|].
  intros H. rewrite length_take. lia.
Qed.

(** Fifty-one snapshots above the critical memory bound: the total is
    51 and the returned list holds 50 entries. *)
Lemma critical_rollup_total_and_truncation_witness :
  let rollup := _analyze_critical_events
                  (replicate 51 (Sample.snapshot_with 95 10 20 4000)) [] in
  length (events rollup) = 50%nat /\
  total_critical_events rollup = 51%nat.
Proof.
  intros rollup.
  destruct (critical_rollup_total_and_truncation
              (replicate 51 (Sample.snapshot_with 95 10 20 4000)) [])
    as (from_snapshots & _ & Htotal & _ & Hmore).
  fold rollup in Htotal, Hmore.
  assert (Hn : total_critical_events rollup = 51%nat) by (vm_compute; reflexivity).
  split; [|exact Hn].
  apply Hmore. rewrite <- Htotal, Hn. lia.
Defined.
End CriticalRollup.

Section RunningTheScanner.
Import Py KernelEventAnalyzer.

(** A line that carries both an OOM text and a panic text is attributed,
    in the OOM scan, to the first OOM pattern of the list that it
    matches, and independently classified by the critical scan. *)
Example both_categories_one_line :
  let line := "kernel panic - not syncing: OOM killer: Out of memory" in
  (oom_pattern <$> fst (analyze_oom_events Regex.re_search Sample.clock [line] 0))
    = ["Out of memory"] /\
  (crit_type <$> fst (analyze_critical_events Regex.re_search Sample.clock [line] 0))
    = ["KERNEL_PANIC"].
Proof. vm_compute. split; reflexivity. Qed.

(** The fields extracted from a typical kernel line. *)
Example oom_line_fields :
  fst (analyze_oom_events Regex.re_search Sample.clock
         ["2024-05-01 11:59:58 host kernel: oom-killer: Killed process 4242 (firefox), pid=4242 oom_score=912 total-vm:123456kB"] 0)
  = [{| oom_timestamp := "2024-05-01 11:59:58";
        oom_type := "OOM";
        oom_pattern := "oom-killer";
        oom_pid := Some 4242;
        oom_process_name := Some "4242";
        oom_score := Some 912;
        oom_memory_info := Some "123456kB";
        oom_raw_line := "2024-05-01 11:59:58 host kernel: oom-killer: Killed process 4242 (firefox), pid=4242 oom_score=912 total-vm:123456kB" |}].
Proof. vm_compute. reflexivity. Qed.
End RunningTheScanner.

Section RunningTheCollector.
Import Py ResourceMonitor.

(** Memory at 95% gives the CRITICAL memory message and no WARNING
    memory message; swap at 60% gives the WARNING swap message. *)
Example warnings_at_95_percent_memory :
  check_critical_conditions (Sample.snapshot_with 95 60 20 4000)
  = ["КРИТИЧНО: Использование памяти 95.0%";
     "ПРЕДУПРЕЖДЕНИЕ: Использование swap 60.0%"].
Proof. vm_compute. reflexivity. Qed.

(** With every process readable the enumeration is sorted by resident
    memory, largest first. *)
Example top_processes_sorted :
  (fun d => d !! "pid") <$>
    default [] (match get_process_info
                        (Sample.host_with
                           [Sample.process_with 1 (Ok 1048576);
                            Sample.process_with 2 (Ok 20971520);
                            Sample.process_with 3 (Ok 3145728)]) None with
                | Ok l => Some l
                | Raise _ => None
                end)
  = [Some (VNum 2); Some (VNum 3); Some (VNum 1)].
Proof. vm_compute. reflexivity. Qed.
End RunningTheCollector.

Section ScanInvariants.
Import Py Text KernelEventAnalyzer ScanSpec EventSpec.
Variable re_search : string -> bool -> string -> option Match.
Variable clock : nat -> string.

Section Generic.
Context {E : Type}.
Variable parse : string -> string -> nat -> option E * nat.
Variable patterns : list string.
Variable P : string -> string -> E -> Prop.
Hypothesis parse_P : forall line pattern t e,
  blank line = false ->
  fst (parse line pattern t) = Some e -> P line pattern e.

Lemma scan_patterns_invariant (logs : list string) (line : string)
      (ps : list string) (events : list E) (t : nat) :
  line ∈ logs -> blank line = false -> ps ⊆ patterns ->
  Forall (from_logs re_search patterns P logs) events ->
  Forall (from_logs re_search patterns P logs)
         (fst (scan_patterns re_search parse ps line events t)).
Proof.
  intros Hl Hb. revert events t.
  induction ps as [|p ps IH]; intros events t Hps He; simpl; [exact He|].
  destruct (re_search p true line) eqn:Ep.
  - destruct (parse line p t) as [[e|] t'] eqn:Epar; simpl; [|exact He].
    apply Forall_app. split; [exact He|]. constructor; [|constructor].
    exists line, p. repeat split; try assumption.
    + apply Hps. left.
    + unfold matches. rewrite Ep. eauto.
    + apply (parse_P line p t); [exact Hb|]. now rewrite Epar.
  - apply IH; [|exact He]. intros q Hq. apply Hps. now right.
Qed.

Lemma fold_scan_invariant (logs rest : list string) (st : list E * nat) :
  rest ⊆ logs ->
  Forall (from_logs re_search patterns P logs) (fst st) ->
  Forall (from_logs re_search patterns P logs)
         (fst (fold_left (scan_line re_search parse patterns) rest st)).
Proof.
  revert st. induction rest as [|line rest IH]; intros st Hsub Hst; simpl; [exact Hst|].
  apply IH; [intros x Hx; apply Hsub; now right|].
  unfold scan_line. destruct (blank line) eqn:Hb; [exact Hst|].
  apply scan_patterns_invariant; try assumption; [apply Hsub; left | reflexivity].
Qed.

Lemma scan_invariant (logs : list string) (t : nat) :
  Forall (from_logs re_search patterns P logs)
         (fst (scan re_search parse patterns logs t)).
Proof. apply fold_scan_invariant; [reflexivity | constructor]. Qed.

Lemma scan_patterns_tick (ps : list string) (line : string)
      (events : list E) (t : nat) :
  (forall pattern u, (u <= snd (parse line pattern u))%nat) ->
  (t <= snd (scan_patterns re_search parse ps line events t))%nat.
Proof.
  intros Hp. induction ps as [|p ps IH]; simpl; [lia|].
  destruct (re_search p true line); [|exact IH].
  specialize (Hp p t). destruct (parse line p t). simpl in *. lia.
Qed.

(** The tick never goes back. *)
Lemma scan_tick (logs : list string) (t : nat) :
  (forall line pattern u, (u <= snd (parse line pattern u))%nat) ->
  (t <= snd (scan re_search parse patterns logs t))%nat.
Proof.
  intros Hp. unfold scan. generalize (@nil E) as acc.
  revert t. induction logs as [|line logs IH]; intros t acc; simpl; [lia|].
  assert (H : (t <= snd (scan_line re_search parse patterns (acc, t) line))%nat).
  { unfold scan_line. destruct (blank line); simpl; [lia|].
    apply scan_patterns_tick. apply Hp. }
  destruct (scan_line re_search parse patterns (acc, t) line) as [acc' t1].
  simpl in H. specialize (IH t1 acc'). lia.
Qed.

(** The events of a scan follow the order of the lines. *)
Lemma scan_sublist (raw_of : E -> string) (logs : list string) (t : nat) :
  (forall line pattern e, P line pattern e -> raw_of e = strip line) ->
  sublist (raw_of <$> fst (scan re_search parse patterns logs t)) (strip <$> logs).
Proof.
  intros Hraw. revert t. induction logs as [|line logs IH]; intros t.
  - constructor.
  - unfold scan at 1. cbn [fold_left]. rewrite fold_scan_acc.
    pose proof (scan_invariant [line] t) as Hinv.
    unfold scan at 1 in Hinv. cbn [fold_left] in Hinv.
    assert (Hone : (length (fst (scan_line re_search parse patterns ([], t) line)) <= 1)%nat).
    { unfold scan_line. destruct (blank line); simpl; [lia|].
      apply scan_patterns_length. }
    destruct (scan_line re_search parse patterns ([], t) line) as [ev t1].
    specialize (IH t1). cbn [fst snd] in *.
    rewrite fmap_app.
    destruct ev as [|e [|e' ev]]; simpl in Hone; try lia.
    + now apply sublist_cons.
    + apply Forall_cons in Hinv as [(l & p & Hl & _ & _ & _ & HP) _].
      apply list_elem_of_singleton in Hl as ->.
      simpl. rewrite (Hraw _ _ _ HP). now apply sublist_skip.
Qed.
End Generic.

Lemma timestamp_of_from (line : string) (t : nat) :
  timestamp_from re_search clock line (fst (timestamp_of re_search clock line t)).
Proof.
  unfold timestamp_from, timestamp_of.
  destruct (re_search timestamp_re false line); simpl; eauto.
Qed.

Lemma int_group_none (m : option Match) (r : option Z) :
  int_group m = Ok r -> (r = None <-> m = None).
Proof.
  unfold int_group. destruct m as [m|].
  - destruct (int (group1 m)); cbn [bind]; [|discriminate].
    intros [= <-]. split; discriminate.
  - intros [= <-]. tauto.
Qed.

Lemma blank_false_strip (line : string) : blank line = false -> strip line <> "".
Proof. unfold blank. destruct (strip line); [discriminate|]. intros _. discriminate. Qed.

Lemma parse_oom_parsed (line pattern : string) (t : nat) (e : OomEvent) :
  blank line = false ->
  fst (_parse_oom_event re_search clock line pattern t) = Some e ->
  oom_parsed re_search clock line pattern e.
Proof.
  intros Hb. unfold _parse_oom_event.
  pose proof (timestamp_of_from line t) as Hts.
  destruct (timestamp_of re_search clock line t) as [ts t'].
  destruct (int_group (re_search pid_re true line)) as [pid|] eqn:Epid;
    cbn [bind]; [|discriminate].
  destruct (int_group (re_search oom_score_re true line)) as [sc|] eqn:Esc;
    cbn [bind]; [|discriminate].
  intros [= <-]. unfold oom_parsed. cbn.
  repeat split; try reflexivity; try (now apply blank_false_strip);
    try exact Hts;
    try (now apply (int_group_none _ _ Epid)); now apply (int_group_none _ _ Esc).
Qed.

Lemma parse_critical_parsed (line pattern : string) (t : nat) (e : CriticalEvent) :
  blank line = false ->
  fst (_parse_critical_event re_search clock line pattern t) = Some e ->
  critical_parsed re_search clock line pattern e.
Proof.
  intros Hb. unfold _parse_critical_event.
  pose proof (timestamp_of_from line t) as Hts.
  destruct (timestamp_of re_search clock line t) as [ts t'].
  intros [= <-]. unfold critical_parsed. cbn.
  repeat split; try reflexivity; try (now apply blank_false_strip); exact Hts.
Qed.

(** X1. Every event returned by [analyze_oom_events] comes from a line
    of the input that is not blank and from a pattern of [oom_patterns]
    that matches that line; it has type OOM, records that pattern, its
    raw line is the stripped line (never empty), its timestamp is the one
    found in the line or else a clock reading, and its pid, process name,
    score and memory token are present exactly when the line has them. *)
Theorem oom_events_well_formed (logs : list string) (t : nat) :
  Forall (from_logs re_search oom_patterns (oom_parsed re_search clock) logs)
         (fst (analyze_oom_events re_search clock logs t)).
Proof.
  unfold analyze_oom_events. apply scan_invariant.
  intros line pattern u e. apply parse_oom_parsed.
Qed.

(** X2. Every event returned by [analyze_critical_events] comes from a
    line that is not blank and a matching pattern of
    [critical_patterns], and its type is the one the table gives for
    that pattern: the four kernel patterns and segfault have a type of
    their own, both allocation patterns give
    MEMORY_ALLOCATION_FAILURE, and "general protection fault" gives
    UNKNOWN. *)
Theorem critical_events_classified (logs : list string) (t : nat) :
  let events := fst (analyze_critical_events re_search clock logs t) in
  Forall (from_logs re_search critical_patterns
            (critical_parsed re_search clock) logs) events /\
  Forall (fun e => (crit_pattern e, crit_type e) ∈ critical_type_table) events.
Proof.
  intros events.
  assert (H : Forall (from_logs re_search critical_patterns
                        (critical_parsed re_search clock) logs) events).
  { unfold events, analyze_critical_events. apply scan_invariant.
    intros line pattern u e. apply parse_critical_parsed. }
  split; [exact H|].
  eapply Forall_impl; [exact H|]. clear H.
  intros e (line & p & _ & _ & Hp & _ & (Epat & Etype & _)).
  rewrite Etype, Epat. clear -Hp.
  unfold critical_patterns in Hp.
  repeat (apply elem_of_cons in Hp as [-> | Hp];
          [vm_compute; repeat first [left | right] |]).
  inversion Hp.
Qed.

(** X3. The analysis returned by [analyze_all_events] counts all input
    lines; its event counts are the lengths of its event lists and never
    exceed the line count; the raw lines of its OOM events, and of its
    critical events, follow the order of the input lines; and the
    analyzer's history is the old history with this analysis appended. *)
Theorem analysis_counts_and_order
        (logs : list string) (kernel_events : list Analysis) (t : nat) :
  let '(a, history, t') := analyze_all_events re_search clock logs kernel_events t in
  total_log_lines a = length logs /\
  oom_events_count a = length (oom_events a) /\
  critical_events_count a = length (critical_events a) /\
  (oom_events_count a <= total_log_lines a)%nat /\
  (critical_events_count a <= total_log_lines a)%nat /\
  sublist (oom_raw_line <$> oom_events a) (strip <$> logs) /\
  sublist (crit_raw_line <$> critical_events a) (strip <$> logs) /\
  history = kernel_events ++ [a] /\
  (t < t')%nat.
Proof.
  pose proof (scan_sublist (_parse_oom_event re_search clock) oom_patterns
                (oom_parsed re_search clock)
                (fun line p u e => parse_oom_parsed line p u e)
                oom_raw_line logs t) as Ho.
  pose proof (scan_tick (_parse_oom_event re_search clock) oom_patterns logs t) as Hto.
  unfold analyze_all_events, analyze_oom_events, analyze_critical_events.
  destruct (scan re_search (_parse_oom_event re_search clock) oom_patterns logs t)
    as [oom t1].
  pose proof (scan_sublist (_parse_critical_event re_search clock) critical_patterns
                (critical_parsed re_search clock)
                (fun line p u e => parse_critical_parsed line p u e)
                crit_raw_line logs t1) as Hc.
  pose proof (scan_tick (_parse_critical_event re_search clock) critical_patterns
                logs t1) as Htc.
  destruct (scan re_search (_parse_critical_event re_search clock) critical_patterns
              logs t1) as [crit t2].
  cbn [fst snd] in *. cbn [total_log_lines oom_events critical_events
                            oom_events_count critical_events_count].
  assert (Ho' : sublist (oom_raw_line <$> oom) (strip <$> logs)).
  { apply Ho. intros line p e (_ & _ & H & _). exact H. }
  assert (Hc' : sublist (crit_raw_line <$> crit) (strip <$> logs)).
  { apply Hc. intros line p e (_ & _ & H & _). exact H. }
  assert (Hparse_o : forall line pattern u,
             (u <= snd (_parse_oom_event re_search clock line pattern u))%nat).
  { intros line p u. unfold _parse_oom_event, timestamp_of.
    destruct (re_search timestamp_re false line);
      destruct (let! pid := _ in _); simpl; lia. }
  assert (Hparse_c : forall line pattern u,
             (u <= snd (_parse_critical_event re_search clock line pattern u))%nat).
  { intros line p u. unfold _parse_critical_event, timestamp_of.
    destruct (re_search timestamp_re false line); simpl; lia. }
  specialize (Hto Hparse_o). specialize (Htc Hparse_c).
  apply sublist_length in Ho' as Hlo. apply sublist_length in Hc' as Hlc.
  rewrite !length_fmap in Hlo. rewrite !length_fmap in Hlc.
  repeat split; try reflexivity; try assumption; lia.
Qed.
End ScanInvariants.

Section TopProcesses.
Import Py ResourceMonitor ProcessSpec.

Lemma lt_num (x y : Q) : lt (VNum x) (VNum y) = Ok (Qltb x y).
Proof. reflexivity. Qed.

Lemma insert_desc_sorted {A} (q : Q) (x : A) (l : list (PyVal * A)) :
  Forall num_key l -> StronglySorted key_ge l ->
  exists l', insert_desc (VNum q) x l = Ok l' /\
             Permutation l' ((VNum q, x) :: l) /\
             Forall num_key l' /\ StronglySorted key_ge l'.
Proof.
  intros Hn Hs. induction l as [|[ky y] l IH]; cbn [insert_desc].
  - eexists. split; [reflexivity|]. split; [reflexivity|].
    split; repeat constructor. now exists q.
  - apply Forall_cons in Hn as [[qy Hy] Hn]. simpl in Hy. subst ky.
    apply StronglySorted_inv in Hs as [Hs Hall].
    cbn [lt bind]. destruct (Qltb q qy) eqn:Elt.
    + destruct (IH Hn Hs) as (l' & E & Hp & Hn' & Hs'). rewrite E. cbn [bind].
      eexists. split; [reflexivity|]. split; [|split].
      * rewrite Hp. apply perm_swap.
      * constructor; [now exists qy | exact Hn'].
      * constructor; [exact Hs'|].
        rewrite Hp. constructor; [|exact Hall].
        unfold key_ge, key_q. simpl. apply Qltb_true in Elt. now apply Qlt_le_weak.
    + eexists. split; [reflexivity|]. split; [reflexivity|]. split.
      * constructor; [now exists q|]. constructor; [now exists qy | exact Hn].
      * constructor; [constructor; assumption|].
        apply Qltb_false in Elt. apply Qnot_lt_le in Elt.
        constructor; [exact Elt|].
        eapply Forall_impl; [exact Hall|]. intros z Hz.
        unfold key_ge in *. simpl in *. eapply Qle_trans; eassumption.
Qed.

Lemma sort_keyed_sorted {A} (l : list (PyVal * A)) :
  Forall num_key l ->
  exists l', sort_keyed l = Ok l' /\ Permutation l' l /\
             Forall num_key l' /\ StronglySorted key_ge l'.
Proof.
  induction l as [|[k x] l IH]; intros Hn; simpl.
  - exists []. repeat split; constructor.
  - apply Forall_cons in Hn as [[q Hq] Hn]. simpl in Hq. subst k.
    destruct (IH Hn) as (l0 & E & Hp & Hn0 & Hs0). rewrite E. cbn [bind].
    destruct (insert_desc_sorted q x l0 Hn0 Hs0) as (l' & E' & Hp' & Hn' & Hs').
    exists l'. repeat split; try assumption. rewrite Hp'. now constructor.
Qed.

Lemma readable_dict (p : Process) :
  readable p -> exists d, _get_process_dict p = Ok d /\ describes p d.
Proof.
  intros (H1 & H2 & H3 & H4 & H5). unfold _get_process_dict, describes.
  destruct (proc_memory_info_rss p) as [rss|]; [|discriminate].
  destruct (proc_name p) as [name|]; [|discriminate].
  destruct (proc_memory_percent p) as [mp|]; [|discriminate].
  destruct (proc_cpu_percent p) as [cp|]; [|discriminate].
  destruct (proc_status p) as [st|]; [|discriminate].
  cbn [bind try_except]. eexists. split; [reflexivity|]. split.
  - now rewrite lookup_insert_eq.
  - exists rss. split; [reflexivity|].
    rewrite lookup_insert_ne by discriminate.
    rewrite lookup_insert_ne by discriminate.
    now rewrite lookup_insert_eq.
Qed.

Lemma soft_dict (p : Process) :
  fails_softly p -> ~ readable p -> _get_process_dict p = Ok ∅.
Proof.
  intros (H1 & H2 & H3 & H4 & H5) Hn. unfold _get_process_dict.
  destruct (proc_memory_info_rss p) as [rss|e1] eqn:E1; cbn [bind try_except];
    [|simpl in H1; now rewrite H1].
  destruct (proc_name p) as [name|e2] eqn:E2; cbn [bind try_except];
    [|simpl in H2; now rewrite H2].
  destruct (proc_memory_percent p) as [mp|e3] eqn:E3; cbn [bind try_except];
    [|simpl in H3; now rewrite H3].
  destruct (proc_cpu_percent p) as [cp|e4] eqn:E4; cbn [bind try_except];
    [|simpl in H4; now rewrite H4].
  destruct (proc_status p) as [st|e5] eqn:E5; cbn [bind try_except];
    [|simpl in H5; now rewrite H5].
  exfalso. apply Hn. unfold readable. now rewrite E1, E2, E3, E4, E5.
Qed.

Lemma enumerate_readable (procs : list Process) :
  Forall readable procs ->
  exists ds, enumerate procs [] = Ok ds /\ Forall2 describes procs ds.
Proof.
  intros Hr.
  destruct (enumerate_all procs []) as (ds & E & Hds).
  { intros p Hp. rewrite Forall_forall in Hr.
    destruct (readable_dict p (Hr p Hp)) as (d & -> & _). reflexivity. }
  exists ds. split; [exact E|].
  clear E. induction Hds as [|p d procs ds Hd Hds IH]; [constructor|].
  apply Forall_cons in Hr as [Hp Hr]. constructor; [|now apply IH].
  destruct (readable_dict p Hp) as (d' & E' & Hdesc). congruence.
Qed.

Lemma keyed_memory (ds : list ProcDict) :
  Forall (fun d => exists q, d !! "memory_mb" = Some (VNum q)) ds ->
  exists ks, keyed (fun x => getitem x "memory_mb") ds = Ok ks /\
             snd <$> ks = ds /\
             Forall (fun kx => fst kx = VNum (memory_mb_of (snd kx))) ks.
Proof.
  induction ds as [|d ds IH]; intros H; simpl.
  - exists []. repeat split; constructor.
  - apply Forall_cons in H as [[q Hq] H].
    destruct (IH H) as (ks & E & Hs & Hk).
    unfold getitem at 1. rewrite Hq. cbn [bind]. rewrite E. cbn [bind].
    eexists. split; [reflexivity|]. split; [now rewrite fmap_cons, Hs|].
    constructor; [|exact Hk]. simpl. unfold memory_mb_of. now rewrite Hq.
Qed.

Lemma sorted_by_memory (ks : list (PyVal * ProcDict)) :
  Forall (fun kx => fst kx = VNum (memory_mb_of (snd kx))) ks ->
  StronglySorted key_ge ks ->
  StronglySorted memory_ge (snd <$> ks).
Proof.
  intros Hk Hs. induction Hs as [|kx ks Hs IH Hall]; simpl; [constructor|].
  apply Forall_cons in Hk as [Hx Hk].
  constructor; [now apply IH|].
  apply Forall_fmap. rewrite Forall_forall in Hall, Hk |- *.
  intros ky Hy. specialize (Hall ky Hy). specialize (Hk ky Hy).
  unfold key_ge, key_q, memory_ge in *. simpl. now rewrite Hx, Hk in Hall.
Qed.

(** X4. When every process of the host answers its queries,
    [get_process_info()] returns the first ten entries of a list that
    holds one record per process (its pid and its resident memory in
    MB), sorted by resident memory, largest first. *)
Theorem top_processes_when_readable (h : Host) :
  Forall readable (process_iter h) ->
  exists ds sorted,
    Forall2 describes (process_iter h) ds /\
    sorted ≡ₚ ds /\
    StronglySorted memory_ge sorted /\
    get_process_info h None = Ok (take 10 sorted) /\
    length (take 10 sorted) = Nat.min 10 (length (process_iter h)).
Proof.
  intros Hr. destruct (enumerate_readable _ Hr) as (ds & E & Hds).
  destruct (keyed_memory ds) as (ks & Ek & Hsnd & Hkeys).
  { clear E. induction Hds as [|p d ps ds [_ (rss & _ & Hm)] _ IH]; constructor.
    - eauto.
    - apply IH. now apply Forall_cons in Hr as [_ Hr]. }
  destruct (sort_keyed_sorted ks) as (ks' & Es & Hp & _ & Hs).
  { eapply Forall_impl; [exact Hkeys|]. intros kx Hx. eexists. exact Hx. }
  exists ds, (snd <$> ks'). split; [exact Hds|]. split; [|split; [|split]].
  - rewrite <- Hsnd. now apply fmap_Permutation.
  - apply sorted_by_memory; [|exact Hs]. now rewrite Hp.
  - unfold get_process_info. cbn [pid_truthy]. rewrite E. cbn [bind].
    unfold sort_reverse. rewrite Ek. cbn [bind]. now rewrite Es.
  - rewrite length_take, length_fmap.
    apply Permutation_length in Hp. rewrite Hp.
    rewrite <- (length_fmap snd ks), Hsnd.
    apply Forall2_length in Hds. lia.
Qed.

(** Three readable processes: the call succeeds with three entries. *)
Lemma top_processes_when_readable_witness :
  exists top,
    get_process_info
      (Sample.host_with [Sample.process_with 1 (Ok 1048576);
                         Sample.process_with 2 (Ok 20971520);
                         Sample.process_with 3 (Ok 3145728)]) None = Ok top /\
    length top = 3%nat.
Proof.
  destruct (top_processes_when_readable
              (Sample.host_with [Sample.process_with 1 (Ok 1048576);
                                 Sample.process_with 2 (Ok 20971520);
                                 Sample.process_with 3 (Ok 3145728)]))
    as (ds & sorted & _ & _ & _ & E & Hlen).
  - repeat constructor.
  - exists (take 10 sorted). split; [exact E | exact Hlen].
Defined.

(** The whole table, sorted: what [get_process_info()] returns on a
    host whose processes all answer. *)
Lemma readable_top_list (h : Host) :
  Forall readable (process_iter h) ->
  exists ds sorted,
    Forall2 describes (process_iter h) ds /\
    sorted ≡ₚ ds /\
    StronglySorted memory_ge sorted /\
    get_process_info h None = Ok (take 10 sorted) /\
    length (take 10 sorted) = Nat.min 10 (length (process_iter h)).
Proof.
  intros Hr. destruct (enumerate_readable _ Hr) as (ds & E & Hds).
  destruct (keyed_memory ds) as (ks & Ek & Hsnd & Hkeys).
  { clear E. induction Hds as [|p d ps ds [_ (rss & _ & Hm)] _ IH]; constructor.
    - eauto.
    - apply IH. now apply Forall_cons in Hr as [_ Hr]. }
  destruct (sort_keyed_sorted ks) as (ks' & Es & Hp & _ & Hs).
  { eapply Forall_impl; [exact Hkeys|]. intros kx Hx. eexists. exact Hx. }
  exists ds, (snd <$> ks'). split; [exact Hds|]. split; [|split; [|split]].
  - rewrite <- Hsnd. now apply fmap_Permutation.
  - apply sorted_by_memory; [|exact Hs]. now rewrite Hp.
  - unfold get_process_info. cbn [pid_truthy]. rewrite E. cbn [bind].
    unfold sort_reverse. rewrite Ek. cbn [bind]. now rewrite Es.
  - rewrite length_take, length_fmap.
    apply Permutation_length in Hp. rewrite Hp.
    rewrite <- (length_fmap snd ks), Hsnd.
    apply Forall2_length in Hds. lia.
Qed.

Lemma readable_or_not (p : Process) : readable p \/ ~ readable p.
Proof.
  unfold readable.
  destruct (is_ok (proc_memory_info_rss p)), (is_ok (proc_name p)),
    (is_ok (proc_memory_percent p)), (is_ok (proc_cpu_percent p)),
    (is_ok (proc_status p)); intuition congruence.
Qed.

(** X5. On a host whose queries answer or raise a [psutil] error,
    [get_process_info(pid)] for a pid other than 0 raises [ValueError]
    when the pid is negative ([psutil.Process] refuses it, and the call
    handles [NoSuchProcess] only) and otherwise never raises: it returns
    the empty list when no process has that pid, and otherwise exactly
    one dictionary, which records the pid and resident memory of that
    process when all its queries answer and is the empty dictionary when
    one of them raises. *)
Theorem tracked_process_lookup (h : Host) (pid : Z) :
  pid <> 0 ->
  Forall fails_softly (process_iter h) ->
  if pid <? 0 then get_process_info h (Some pid) = Raise ValueError
  else
    match find (fun p => proc_pid p =? pid) (process_iter h) with
    | None => get_process_info h (Some pid) = Ok []
    | Some p =>
        exists d, get_process_info h (Some pid) = Ok [d] /\
                  (readable p -> describes p d) /\
                  (~ readable p -> d = ∅)
    end.
Proof.
  intros Hpid Hsoft. unfold get_process_info, Process_of.
  cbn [pid_truthy]. destruct (Z.eqb_spec pid 0) as [|_]; [congruence|].
  destruct (pid <? 0); [reflexivity|].
  destruct (find _ _) as [p|] eqn:Ef; cbn [bind try_except no_such_process];
    [|reflexivity].
  assert (Hp : fails_softly p).
  { rewrite Forall_forall in Hsoft. apply Hsoft.
    apply list_elem_of_In. eapply find_some. exact Ef. }
  destruct (readable_or_not p) as [Hr | Hn].
  - destruct (readable_dict p Hr) as (d & E & Hd). rewrite E. cbn [bind app].
    exists d. split; [reflexivity|]. split; [auto | tauto].
  - rewrite (soft_dict p Hp Hn). cbn [bind app].
    exists ∅. split; [reflexivity|]. split; [tauto | auto].
Qed.

(** Pid 2 on a host where it runs and answers: one record, which names
    the pid and 20 MB. *)
Lemma tracked_process_lookup_witness :
  exists d,
    get_process_info (Sample.host_with [Sample.process_with 1 (Ok 1048576);
                                        Sample.process_with 2 (Ok 20971520)])
                     (Some 2) = Ok [d] /\
    d !! "pid" = Some (VNum 2) /\
    d !! "memory_mb" = Some (VNum 20).
Proof.
  pose proof (tracked_process_lookup
                (Sample.host_with [Sample.process_with 1 (Ok 1048576);
                                   Sample.process_with 2 (Ok 20971520)]) 2) as H.
  cbn in H. destruct H as (d & E & Hd & _).
  - discriminate.
  - repeat constructor.
  - exists d. split; [exact E|].
    destruct Hd as (Hpid & rss & Hrss & Hmem).
    + repeat split; reflexivity.
    + split; [exact Hpid|]. cbn in Hrss. injection Hrss as <-. exact Hmem.
Defined.
End TopProcesses.

Section Rounding.
Import Py.

Lemma round_half_even_bounds (q : Q) :
  Qfloor q <= round_half_even q <= Qfloor q + 1.
Proof.
  unfold round_half_even. cbv zeta.
  destruct (Qcompare _ _); [destruct (Z.even _)| |];
    generalize (Qfloor q); intros; lia.
Qed.

Lemma round_half_even_mono (q1 q2 : Q) :
  (q1 <= q2)%Q -> round_half_even q1 <= round_half_even q2.
Proof.
  intros Hle. pose proof (Qfloor_resp_le _ _ Hle) as Hf.
  destruct (Z.eq_dec (Qfloor q1) (Qfloor q2)) as [E|Hne].
  - unfold round_half_even. cbv zeta. rewrite <- E.
    destruct (Qcompare (q1 - inject_Z (Qfloor q1)) (1 # 2)) eqn:C1;
      destruct (Qcompare (q2 - inject_Z (Qfloor q1)) (1 # 2)) eqn:C2;
      try (destruct (Z.even (Qfloor q1)));
      try (generalize (Qfloor q1); intros; lia); exfalso;
      repeat match goal with
             | H : Qcompare _ _ = Eq |- _ => apply Qeq_alt in H
             | H : Qcompare _ _ = Lt |- _ => apply Qlt_alt in H
             | H : Qcompare _ _ = Gt |- _ => apply Qgt_alt in H
             end; lra.
  - pose proof (round_half_even_bounds q1). pose proof (round_half_even_bounds q2).
    revert Hf Hne H H0. generalize (Qfloor q1) (Qfloor q2)
      (round_half_even q1) (round_half_even q2). intros. lia.
Qed.

Lemma round2_mono (q1 q2 : Q) : (q1 <= q2)%Q -> (round2 q1 <= round2 q2)%Q.
Proof.
  intros Hle. unfold round2. rewrite !Qred_correct.
  assert (H : round_half_even (q1 * 100) <= round_half_even (q2 * 100)).
  { apply round_half_even_mono. lra. }
  apply Qmult_le_compat_r; [|discriminate].
  now rewrite <- Zle_Qle.
Qed.
End Rounding.

Section Statistics.
Import Py ReportGenerator Spec StatsSpec.

Lemma min_fold_is_minimum (rest : list Q) (x : Q) :
  is_minimum (fold_left (fun m y => if Qltb y m then y else m) rest x) (x :: rest).
Proof.
  revert x. induction rest as [|y rest IH]; intros x; simpl.
  - split; [left|]. intros z Hz. apply list_elem_of_singleton in Hz. subst. apply Qle_refl.
  - destruct (IH (if Qltb y x then y else x)) as [Hin Hlb]. split.
    + apply elem_of_cons in Hin as [Hin | Hin].
      * rewrite Hin. destruct (Qltb y x); [right; left | left].
      * right; right; exact Hin.
    + intros z Hz.
      assert (Hxy : ((if Qltb y x then y else x) <= x)%Q /\
                    ((if Qltb y x then y else x) <= y)%Q).
      { destruct (Qltb y x) eqn:E.
        - apply Qltb_true in E. split; [now apply Qlt_le_weak | apply Qle_refl].
        - apply Qltb_false in E. split; [apply Qle_refl | now apply Qnot_lt_le]. }
      destruct Hxy as [Hx Hy].
      apply elem_of_cons in Hz as [-> | Hz].
      * eapply Qle_trans; [apply Hlb; left | exact Hx].
      * apply elem_of_cons in Hz as [-> | Hz].
        -- eapply Qle_trans; [apply Hlb; left | exact Hy].
        -- apply Hlb. right. exact Hz.
Qed.

Lemma min_is_minimum (xs : list Q) :
  xs <> [] -> exists m, min xs = Ok m /\ is_minimum m xs.
Proof.
  destruct xs as [|x rest]; [congruence|]. intros _.
  eexists. split; [reflexivity | apply min_fold_is_minimum].
Qed.

Lemma count_above_cons (b x : Q) (xs : list Q) :
  count_above b (x :: xs) = ((if Qgtb x b then 1 else 0) + count_above b xs)%nat.
Proof.
  unfold count_above. rewrite filter_cons.
  destruct (Qgtb x b); simpl; reflexivity.
Qed.

Lemma count_above_pos (b : Q) (xs : list Q) :
  (0 < count_above b xs)%nat <-> exists x, x ∈ xs /\ (b < x)%Q.
Proof.
  induction xs as [|x xs IH].
  - split; [inversion 1 | intros (x & Hx & _); inversion Hx].
  - rewrite count_above_cons. destruct (Qgtb x b) eqn:E.
    + apply Qgtb_true in E. split; [|simpl; lia].
      intros _. exists x. split; [left | exact E].
    + apply Qgtb_false in E. simpl. rewrite IH. split.
      * intros (y & Hy & Hb). exists y. split; [now right | exact Hb].
      * intros (y & Hy & Hb). apply elem_of_cons in Hy as [-> | Hy]; [tauto|eauto].
Qed.


Lemma calculate_trend_total (v : list Q) :
  exists label, _calculate_trend v = Ok label /\ label ∈ trend_labels.
Proof.
  destruct (le_lt_dec 2 (length v)) as [H|H].
  - rewrite (calculate_trend_diff v H).
    destruct (float_lt _ (Finite 1)); [eexists; split; [reflexivity|]; right; left|].
    destruct (float_gt _ (Finite 5)); [eexists; split; [reflexivity|]; do 2 right; left|].
    destruct (float_lt _ (Finite (-5)));
      [eexists; split; [reflexivity|]; do 3 right; left|].
    destruct (float_gt _ (Finite 0)); eexists; (split; [reflexivity|]).
    + do 4 right; left.
    + do 5 right; left.
  - unfold _calculate_trend. apply Nat.ltb_lt in H. rewrite H.
    eexists. split; [reflexivity|]. left.
Qed.

Lemma extremes_rounded (xs : list Q) :
  xs <> [] ->
  exists lo hi, min xs = Ok lo /\ max xs = Ok hi /\
    is_minimum lo xs /\ is_maximum hi xs /\
    (round2 lo <= round2 hi)%Q.
Proof.
  intros Hne.
  destruct (min_is_minimum xs Hne) as (lo & Elo & Hlo).
  destruct (max_is_maximum xs Hne) as (hi & Ehi & Hhi).
  exists lo, hi. split; [exact Elo|]. split; [exact Ehi|].
  split; [exact Hlo|]. split; [exact Hhi|].
  apply round2_mono. apply Hhi. apply Hlo.
Qed.

Lemma analyze_memory_block (s : Snapshot) (rest : list Snapshot) :
  let md := s :: rest in
  exists b, _analyze_memory md = Ok (Some b) /\
    (ma_min_usage_percent b <= ma_max_usage_percent b)%Q /\
    ma_average_usage_percent b = float_round2 (float_mean (memory_percents md)) /\
    ma_memory_pressure_periods b = count_above 75 (memory_percents md) /\
    ma_critical_periods b = count_above 90 (memory_percents md) /\
    ma_trend b ∈ trend_labels /\
    (exists hi, is_maximum hi (memory_percents md) /\
                ma_max_usage_percent b = round2 hi) /\
    (exists lo, is_minimum lo (memory_percents md) /\
                ma_min_usage_percent b = round2 lo).
Proof.
  intros md. unfold _analyze_memory. subst md.
  set (xs := memory_percents (s :: rest)).
  destruct (extremes_rounded xs) as (lo & hi & Elo & Ehi & Hlo & Hhi & H1);
    [discriminate|].
  destruct (min_is_minimum ((fun d => mem_available_mb (memory d)) <$> s :: rest))
    as (av & Eav & _); [discriminate|].
  destruct (calculate_trend_total xs) as (label & Et & Hl).
  rewrite (float_mean_code xs) by discriminate. cbn [bind].
  rewrite Ehi, Elo. cbn [bind]. rewrite Eav. cbn [bind]. rewrite Et. cbn [bind].
  eexists. split; [reflexivity|]. cbn. eauto 12.
Qed.

Lemma analyze_cpu_block (s : Snapshot) (rest : list Snapshot) :
  let md := s :: rest in
  exists b, _analyze_cpu md = Ok (Some b) /\
    (ca_min_usage_percent b <= ca_max_usage_percent b)%Q /\
    ca_average_usage_percent b = float_round2 (float_mean (cpu_percents md)) /\
    ca_high_load_periods b = count_above 80 (cpu_percents md) /\
    ca_critical_periods b = count_above 90 (cpu_percents md) /\
    ca_trend b ∈ trend_labels /\
    (exists hi, is_maximum hi (cpu_percents md) /\
                ca_max_usage_percent b = round2 hi) /\
    (exists lo, is_minimum lo (cpu_percents md) /\
                ca_min_usage_percent b = round2 lo).
Proof.
  intros md. unfold _analyze_cpu. subst md.
  set (xs := cpu_percents (s :: rest)).
  destruct (extremes_rounded xs) as (lo & hi & Elo & Ehi & Hlo & Hhi & H1);
    [discriminate|].
  destruct (calculate_trend_total xs) as (label & Et & Hl).
  rewrite (float_mean_code xs) by discriminate. cbn [bind].
  rewrite Ehi, Elo. cbn [bind]. rewrite Et. cbn [bind].
  eexists. split; [reflexivity|]. cbn. eauto 12.
Qed.

Lemma analyze_swap_block (s : Snapshot) (rest : list Snapshot) :
  let md := s :: rest in
  exists b, _analyze_swap md = Ok (Some b) /\
    sa_average_usage_percent b = float_round2 (float_mean (swap_percents md)) /\
    sa_swap_activity_periods b = count_above 50 (swap_percents md) /\
    sa_critical_periods b = count_above 80 (swap_percents md) /\
    sa_trend b ∈ trend_labels /\
    (exists hi, is_maximum hi (swap_percents md) /\
                sa_max_usage_percent b = round2 hi).
Proof.
  intros md. unfold _analyze_swap. subst md.
  set (xs := swap_percents (s :: rest)).
  destruct (max_is_maximum xs) as (hi & Ehi & Hhi); [discriminate|].
  destruct (max_is_maximum ((fun d => swap_used_mb (swap d)) <$> s :: rest))
    as (mu & Emu & _); [discriminate|].
  destruct (calculate_trend_total xs) as (label & Et & Hl).
  rewrite (float_mean_code xs) by discriminate. cbn [bind].
  rewrite Ehi. cbn [bind]. rewrite Emu. cbn [bind]. rewrite Et. cbn [bind].
  eexists. split; [reflexivity|]. cbn. eauto 12.
Qed.

End Statistics.

Section LeakTracking.
Import Py ReportGenerator Spec LeakSpec.

Lemma fold_add_leak_sample (md : list Snapshot) (acc : list LeakSample) :
  exists samples,
    fold_left add_leak_sample md acc = acc ++ samples /\
    ls_memory_mb <$> samples = memory_of <$> carried md /\
    ls_timestamp <$> samples =
      timestamp <$> filter (fun s => is_Some (leak_process s)) md.
Proof.
  revert acc. induction md as [|s md IH]; intros acc.
  - exists []. simpl. now rewrite app_nil_r.
  - simpl fold_left. unfold add_leak_sample at 2, carried.
    rewrite filter_cons. cbn [omap list_omap].
    destruct (leak_process s) as [d|] eqn:Ed.
    + destruct (IH (acc ++ [{| ls_timestamp := timestamp s;
                               ls_memory_mb := get d "memory_mb" (VNum 0);
                               ls_memory_percent := get d "memory_percent" (VNum 0);
                               ls_cpu_percent := get d "cpu_percent" (VNum 0) |}]))
        as (samples & E & Hm & Ht).
      eexists (_ :: samples). rewrite E, <- app_assoc. split; [reflexivity|].
      destruct (decide _) as [_|Hn]; [|exfalso; apply Hn; eauto].
      rewrite !fmap_cons. fold (carried md). rewrite <- Hm, <- Ht. split; reflexivity.
    + destruct (IH acc) as (samples & E & Hm & Ht).
      exists samples. split; [exact E|].
      destruct (decide _) as [[x Hx]|_]; [discriminate|].
      split; assumption.
Qed.

Lemma max_from_numeric (vs : list PyVal) (m : Q) (qs : list Q) :
  vs = VNum <$> qs ->
  exists mx, max_from (VNum m) vs = Ok (VNum mx) /\ is_maximum mx (m :: qs).
Proof.
  intros ->. revert m. induction qs as [|q qs IH]; intros m.
  - exists m. split; [reflexivity|]. split; [left|].
    intros y Hy. apply list_elem_of_singleton in Hy as ->. apply Qle_refl.
  - cbn [fmap list_fmap max_from lt bind].
    destruct (IH (if Qltb m q then q else m)) as (mx & E & Hin & Hub).
    replace (if Qltb m q then VNum q else VNum m)
      with (VNum (if Qltb m q then q else m)) by (now destruct (Qltb m q)).
    exists mx. split; [exact E|]. split.
    + apply elem_of_cons in Hin as [-> | Hin].
      * destruct (Qltb m q); [right; left | left].
      * now do 2 right.
    + assert (Hm : (m <= (if Qltb m q then q else m))%Q /\
                   (q <= (if Qltb m q then q else m))%Q).
      { destruct (Qltb m q) eqn:E'.
        - apply Qltb_true in E'. split; [now apply Qlt_le_weak | apply Qle_refl].
        - apply Qltb_false in E'. split; [apply Qle_refl | now apply Qnot_lt_le]. }
      destruct Hm as [Hm Hq]. intros y Hy.
      apply elem_of_cons in Hy as [-> | Hy].
      * eapply Qle_trans; [exact Hm | apply Hub; left].
      * apply elem_of_cons in Hy as [-> | Hy].
        -- eapply Qle_trans; [exact Hq | apply Hub; left].
        -- apply Hub. now right.
Qed.

Lemma numeric_values (ds : list ProcDict) :
  Forall numeric_memory ds -> memory_of <$> ds = VNum <$> (memory_q <$> ds).
Proof.
  induction 1 as [|d ds [q Hq] _ IH]; [reflexivity|].
  rewrite !fmap_cons, IH. f_equal. unfold memory_q. now rewrite Hq.
Qed.

Lemma default_last_fmap {A B} (f : A -> B) (a : A) (l : list A) :
  f (default a (last l)) = default (f a) (last (f <$> l)).
Proof. rewrite fmap_last. now destruct (last l). Qed.

(** X7. When the memory figure of every tracked-process record carried
    by the history is a number or absent, [_track_leak_process] never
    raises. With no record carried it returns the not-found status.
    Otherwise it returns the pid with one sample per carrying snapshot, in
    order, the largest memory figure of the samples, and as growth the
    last figure minus the first; a record without the key (the empty
    record) counts as 0. *)
Theorem track_leak_process_history (monitoring_data : list Snapshot) (pid : Z) :
  Forall numeric_memory (carried monitoring_data) ->
  match carried monitoring_data with
  | [] =>
      _track_leak_process monitoring_data pid
        = Ok (LeakStatus "Процесс не найден в данных мониторинга")
  | first :: _ =>
      exists history mx,
        _track_leak_process monitoring_data pid
          = Ok (LeakHistory pid history (VNum mx)
                  (VNum (memory_q (default first (last (carried monitoring_data)))
                         - memory_q first))) /\
        ls_memory_mb <$> history = memory_of <$> carried monitoring_data /\
        ls_timestamp <$> history =
          timestamp <$> filter (fun s => is_Some (leak_process s)) monitoring_data /\
        is_maximum mx (memory_q <$> carried monitoring_data)
  end.
Proof.
  intros Hnum. unfold _track_leak_process.
  destruct (fold_add_leak_sample monitoring_data []) as (history & E & Hm & Ht).
  rewrite E. cbn [app]. clear E.
  pose proof (numeric_values _ Hnum) as Hq.
  destruct (carried monitoring_data) as [|first ds] eqn:Ec.
  - destruct history; [reflexivity | discriminate].
  - destruct history as [|h0 history]; [discriminate|].
    exists (h0 :: history).
    rewrite (default_last_fmap ls_memory_mb), Hm.
    assert (E0 : ls_memory_mb h0 = memory_of first) by (now injection Hm).
    rewrite E0.
    rewrite <- (default_last_fmap memory_of first (first :: ds)).
    assert (Hf : numeric_memory first) by (now apply Forall_cons in Hnum as [? _]).
    assert (Hl : numeric_memory (default first (last (first :: ds)))).
    { destruct (last (first :: ds)) as [d|] eqn:El; [|exact Hf].
      rewrite Forall_forall in Hnum. apply Hnum.
      apply list_elem_of_lookup. rewrite last_lookup in El. eauto. }
    destruct Hf as [qf Hqf]. destruct Hl as [ql Hql].
    rewrite !fmap_cons in Hq. injection Hq as _ Hq.
    destruct (max_from_numeric (memory_of <$> ds) qf (memory_q <$> ds) Hq)
      as (mx & Emx & Hmx).
    exists mx. unfold max_val. rewrite fmap_cons, Hqf, Emx. cbn [bind].
    rewrite Hql. cbn [sub bind]. unfold memory_q at 1 2. rewrite Hql, Hqf.
    split; [reflexivity|]. split; [reflexivity|]. split; [exact Ht|].
    rewrite fmap_cons. unfold memory_q at 1. now rewrite Hqf.
Qed.

(** A history whose two snapshots carry records of 100 and 340 MB: the
    growth is 240 MB. *)
Lemma track_leak_process_history_witness :
  exists history mx,
    _track_leak_process [MoreSamples.carrying 100; MoreSamples.carrying 340] 4242
      = Ok (LeakHistory 4242 history (VNum mx) (VNum (340 - 100))).
Proof.
  destruct (track_leak_process_history
              [MoreSamples.carrying 100; MoreSamples.carrying 340] 4242)
    as (history & mx & E & _).
  - repeat constructor; eexists; reflexivity.
  - exists history, mx. exact E.
Defined.
End LeakTracking.

Section Recommendations.
Import Py ReportGenerator Spec AdviceSpec.

Lemma maxima_of_history (s : Snapshot) (rest : list Snapshot) :
  let md := s :: rest in
  exists mm ms mc,
    max (memory_percents md) = Ok mm /\ is_maximum mm (memory_percents md) /\
    max (swap_percents md) = Ok ms /\ is_maximum ms (swap_percents md) /\
    max (cpu_percents md) = Ok mc /\ is_maximum mc (cpu_percents md).
Proof.
  intros md.
  destruct (max_is_maximum (memory_percents md)) as (mm & Emm & Hmm); [discriminate|].
  destruct (max_is_maximum (swap_percents md)) as (ms & Ems & Hms); [discriminate|].
  destruct (max_is_maximum (cpu_percents md)) as (mc & Emc & Hmc); [discriminate|].
  exists mm, ms, mc. auto 10.
Qed.

(** The recommendations as rows of optional texts. *)
Lemma recommendations_rows (b1 b2 b3 b4 : bool) (m1 m2 m3 m4 n : string) :
  let recs0 : list string := [] in
  let recs1 := if b1 then recs0 ++ [m1] else recs0 in
  let recs2 := if b2 then recs1 ++ [m2] else recs1 in
  let recs3 := if b3 then recs2 ++ [m3] else recs2 in
  let recs4 := if b4 then recs3 ++ [m4] else recs3 in
  let rows := tier_row b1 false m1 m1 ++ tier_row b2 false m2 m2 ++
              tier_row b3 false m3 m3 ++ tier_row b4 false m4 m4 in
  match recs4 with
  | [] => Ok [n]
  | _ => Ok recs4
  end = Ok (match rows with [] => [n] | _ => rows end).
Proof. destruct b1, b2, b3, b4; reflexivity. Qed.

Lemma recommendations_of_maxima (s : Snapshot) (rest : list Snapshot)
      (kernel_events : list Analysis) (mm ms mc : Q) :
  let md := s :: rest in
  let total := sum_list (oom_events_count <$> kernel_events) in
  max (memory_percents md) = Ok mm ->
  max (swap_percents md) = Ok ms ->
  max (cpu_percents md) = Ok mc ->
  _generate_recommendations md kernel_events =
    Ok (match tier_row (Qgtb mm 90) false memory_advice memory_advice ++
              tier_row (Qgtb ms 80) false swap_advice swap_advice ++
              tier_row (0 <? total)%nat false (oom_advice total) (oom_advice total) ++
              tier_row (Qgtb mc 90) false cpu_advice cpu_advice with
        | [] => [normal_advice]
        | rows => rows
        end).
Proof.
  intros md total Emm Ems Emc.
  unfold _generate_recommendations. subst md.
  rewrite Emm. cbn [bind]. rewrite Ems. cbn [bind]. rewrite Emc. cbn [bind].
  unfold total_oom_of. rewrite sum_counts_sum_list. fold total.
  fold memory_advice swap_advice cpu_advice normal_advice. fold (oom_advice total).
  rewrite (recommendations_rows (Qgtb mm 90) (Qgtb ms 80) (0 <? total)%nat (Qgtb mc 90)).
  generalize memory_advice swap_advice (oom_advice total) cpu_advice normal_advice.
  intros m1 m2 m3 m4 n.
  now destruct (Qgtb mm 90), (Qgtb ms 80), (0 <? total)%nat, (Qgtb mc 90).
Qed.

(** X8. On an empty history [_generate_recommendations] returns the
    single "not enough data" text. On a non-empty history it never
    raises and returns, in this order, the memory text when the largest
    memory percentage exceeds 90, the swap text when the largest swap
    percentage exceeds 80, the OOM text (with the count) when the summed
    OOM counts are positive, and the cpu text when the largest cpu
    percentage exceeds 90; when none applies, the single "operated
    normally" text. The result is never empty. *)
Theorem recommendations_rules (kernel_events : list Analysis) :
  _generate_recommendations [] kernel_events = Ok [insufficient_advice] /\
  forall (s : Snapshot) (rest : list Snapshot),
    let md := s :: rest in
    let total := sum_list (oom_events_count <$> kernel_events) in
    exists mm ms mc recs row_memory row_swap row_oom row_cpu,
      is_maximum mm (memory_percents md) /\
      is_maximum ms (swap_percents md) /\
      is_maximum mc (cpu_percents md) /\
      _generate_recommendations md kernel_events = Ok recs /\
      one_tier row_memory memory_advice (90 < mm)%Q /\
      one_tier row_swap swap_advice (80 < ms)%Q /\
      one_tier row_oom (oom_advice total) (0 < total)%nat /\
      one_tier row_cpu cpu_advice (90 < mc)%Q /\
      (row_memory ++ row_swap ++ row_oom ++ row_cpu <> [] ->
         recs = row_memory ++ row_swap ++ row_oom ++ row_cpu) /\
      (row_memory ++ row_swap ++ row_oom ++ row_cpu = [] ->
         recs = [normal_advice]) /\
      recs <> [].
Proof.
  split; [reflexivity|]. intros s rest md total.
  destruct (maxima_of_history s rest) as (mm & ms & mc & Emm & Hmm & Ems & Hms & Emc & Hmc).
  fold md in Emm, Hmm, Ems, Hms, Emc, Hmc.
  exists mm, ms, mc.
  pose proof (recommendations_of_maxima s rest kernel_events mm ms mc Emm Ems Emc) as E.
  cbv zeta in E. fold md total in E. rewrite E. clear E.
  eexists _, (tier_row (Qgtb mm 90) false memory_advice memory_advice),
    (tier_row (Qgtb ms 80) false swap_advice swap_advice),
    (tier_row (0 <? total)%nat false (oom_advice total) (oom_advice total)),
    (tier_row (Qgtb mc 90) false cpu_advice cpu_advice).
  split; [exact Hmm|]. split; [exact Hms|]. split; [exact Hmc|].
  split; [reflexivity|].
  split; [apply tier_row_one_tier, Qgtb_true|].
  split; [apply tier_row_one_tier, Qgtb_true|].
  split; [apply tier_row_one_tier, Nat.ltb_lt|].
  split; [apply tier_row_one_tier, Qgtb_true|].
  generalize memory_advice swap_advice (oom_advice total) cpu_advice normal_advice.
  intros m1 m2 m3 m4 n.
  destruct (Qgtb mm 90), (Qgtb ms 80), (0 <? total)%nat, (Qgtb mc 90); cbn;
    repeat split; intros; congruence.
Qed.
End Recommendations.

Section WholeReport.
Import Py ReportGenerator Spec AdviceSpec LeakSpec StatsSpec.
Variable clock : nat -> string.

Lemma summary_of_maxima (s : Snapshot) (rest : list Snapshot)
      (kernel_events : list Analysis) (mm ms mc : Q) :
  let md := s :: rest in
  max (memory_percents md) = Ok mm ->
  max (swap_percents md) = Ok ms ->
  max (cpu_percents md) = Ok mc ->
  exists d,
    _generate_executive_summary md kernel_events =
      Ok {| status :=
              if Qgtb mm 90 || Qgtb ms 80
                 || (0 <? sum_list (oom_events_count <$> kernel_events))%nat
              then "CRITICAL"
              else if Qgtb mm 75 || Qgtb ms 50
                      || (0 <? sum_list (critical_events_count <$> kernel_events))%nat
              then "WARNING" else "NORMAL";
            details := Some d |} /\
    es_total_oom_events d = sum_list (oom_events_count <$> kernel_events) /\
    es_total_critical_events d = sum_list (critical_events_count <$> kernel_events).
Proof.
  intros md Emm Ems Emc. unfold _generate_executive_summary. subst md.
  rewrite Emm. cbn [bind]. rewrite Emc. cbn [bind]. rewrite Ems. cbn [bind].
  unfold total_oom_of, total_critical_of. rewrite !sum_counts_sum_list.
  eexists. split; [reflexivity|]. split; reflexivity.
Qed.

Lemma track_leak_process_ok (monitoring_data : list Snapshot) (pid : Z) :
  Forall numeric_memory (carried monitoring_data) ->
  is_ok (_track_leak_process monitoring_data pid) = true.
Proof.
  intros Hnum. unfold _track_leak_process.
  destruct (fold_add_leak_sample monitoring_data []) as (history & E & Hm & _).
  rewrite E. cbn [app]. clear E.
  destruct history as [|h0 history]; [reflexivity|].
  rewrite (numeric_values _ Hnum) in Hm.
  destruct (carried monitoring_data) as [|d ds]; [discriminate|].
  rewrite !fmap_cons in Hm. injection Hm as E0 Hm.
  destruct (max_from_numeric _ (memory_q d) _ Hm) as (mx & Emx & _).
  unfold max_val. rewrite fmap_cons, E0, Emx. cbn [bind].
  assert (Hl : exists q, ls_memory_mb (default h0 (last (h0 :: history))) = VNum q).
  { rewrite (default_last_fmap ls_memory_mb), fmap_cons, E0, Hm.
    change (VNum (memory_q d) :: (VNum <$> (memory_q <$> ds)))
      with (VNum <$> (memory_q d :: (memory_q <$> ds))).
    rewrite fmap_last. destruct (last _); simpl; eauto. }
  destruct Hl as [q ->]. reflexivity.
Qed.

Lemma max_above (xs : list Q) (m b : Q) :
  is_maximum m xs -> ((b < m)%Q <-> (0 < count_above b xs)%nat).
Proof.
  intros [Hin Hub]. rewrite count_above_pos. split.
  - intros H. eauto.
  - intros (x & Hx & Hb). eapply Qlt_le_trans; [exact Hb | now apply Hub].
Qed.

Lemma advice_distinct (total : nat) :
  memory_advice <> normal_advice /\ swap_advice <> normal_advice /\
  oom_advice total <> normal_advice /\ cpu_advice <> normal_advice.
Proof.
  repeat split; apply String.eqb_neq; vm_compute; reflexivity.
Qed.

(** X9. On a non-empty history whose tracked-process records have a
    numeric (or absent) memory figure, [generate_report] never raises
    and reads the clock once. The report counts the periods and
    analyses, has all three statistics blocks, the summary details and
    the exhaustion block, and carries the tracking block exactly when a
    pid other than 0 is given. Its parts agree: the status is CRITICAL
    iff the memory block or the swap block counts a critical period or
    the summed OOM count is positive; it is WARNING iff it is not
    CRITICAL and the memory block counts a pressure period, the swap
    block an activity period, or the summed critical count is positive;
    and the recommendations are the single "operated normally" text iff
    the status is not CRITICAL and the cpu block counts no critical
    period. *)
Theorem report_parts_agree (s : Snapshot) (rest : list Snapshot)
        (kernel_events : list Analysis) (leak_process_pid : option Z) (t : nat) :
  let md := s :: rest in
  Forall numeric_memory (carried md) ->
  exists report mem cpu swp d,
    generate_report clock md kernel_events leak_process_pid t = Ok (report, S t) /\
    generated_at (report_metadata report) = clock t /\
    monitoring_periods (report_metadata report) = length md /\
    kernel_analyses (report_metadata report) = length kernel_events /\
    memory_analysis report = Some mem /\
    cpu_analysis report = Some cpu /\
    swap_analysis report = Some swp /\
    details (executive_summary report) = Some d /\
    is_Some (resource_exhaustion report) /\
    (is_Some (leak_process_tracking report) <-> is_Some (pid_truthy leak_process_pid)) /\
    let critical :=
      (0 < ma_critical_periods mem)%nat \/ (0 < sa_critical_periods swp)%nat \/
      (0 < es_total_oom_events d)%nat in
    let warning :=
      (0 < ma_memory_pressure_periods mem)%nat \/
      (0 < sa_swap_activity_periods swp)%nat \/
      (0 < es_total_critical_events d)%nat in
    (status (executive_summary report) = "CRITICAL" <-> critical) /\
    (status (executive_summary report) = "WARNING" <-> ~ critical /\ warning) /\
    (status (executive_summary report) = "NORMAL" <-> ~ critical /\ ~ warning) /\
    (recommendations report = [normal_advice] <->
       ~ critical /\ ca_critical_periods cpu = 0%nat).
Proof.
  intros md Hnum.
  destruct (maxima_of_history s rest)
    as (mm & ms & mc & Emm & Hmm & Ems & Hms & Emc & Hmc).
  destruct (summary_of_maxima s rest kernel_events mm ms mc Emm Ems Emc)
    as (d & Esum & Hto & Htc).
  destruct (analyze_memory_block s rest) as (mem & Emem & _ & _ & Hmp & Hmcrit & _).
  destruct (analyze_cpu_block s rest) as (cpu & Ecpu & _ & _ & _ & Hccrit & _).
  destruct (analyze_swap_block s rest) as (swp & Eswp & _ & Hsa & Hscrit & _).
  pose proof (recommendations_of_maxima s rest kernel_events mm ms mc Emm Ems Emc)
    as Erec.
  cbv zeta in Esum, Emem, Ecpu, Eswp, Erec, Hmp, Hmcrit, Hccrit, Hsa, Hscrit.
  fold md in Esum, Emem, Ecpu, Eswp, Erec, Hmp, Hmcrit, Hccrit, Hsa, Hscrit,
    Hmm, Hms, Hmc.
  set (total := sum_list (oom_events_count <$> kernel_events)) in *.
  set (total_c := sum_list (critical_events_count <$> kernel_events)) in *.
  assert (Etrack : exists tr,
    match pid_truthy leak_process_pid with
    | Some p => let! r := _track_leak_process md p in Ok (Some r)
    | None => Ok None
    end = Ok tr /\ (is_Some tr <-> is_Some (pid_truthy leak_process_pid))).
  { destruct (pid_truthy leak_process_pid) as [p|].
    - pose proof (track_leak_process_ok md p Hnum) as Hok.
      destruct (_track_leak_process md p) as [r|]; [|discriminate].
      exists (Some r). split; [reflexivity|]. split; eauto.
    - exists None. split; [reflexivity|]. split; intros [x Hx]; discriminate. }
  destruct Etrack as (tr & Etr & Htr).
  unfold generate_report.
  rewrite Esum. cbn [bind]. rewrite Emem. cbn [bind]. rewrite Ecpu. cbn [bind].
  rewrite Eswp. cbn [bind]. rewrite Erec. cbn [bind]. rewrite Etr. cbn [bind].
  eexists _, mem, cpu, swp, d. split; [reflexivity|].
  cbn [report_metadata generated_at monitoring_periods kernel_analyses
       memory_analysis cpu_analysis swap_analysis executive_summary details
       resource_exhaustion leak_process_tracking status recommendations].
  do 7 (split; [reflexivity|]).
  split; [subst md; cbn; eauto|]. split; [exact Htr|].
  cbv zeta.
  rewrite Hmcrit, Hscrit, Hmp, Hsa, Hccrit, Hto, Htc.
  rewrite <- !(max_above _ _ _ Hmm), <- !(max_above _ _ _ Hms).
  assert (Hcpu : count_above 90 (cpu_percents md) = 0%nat <-> ~ (90 < mc)%Q).
  { rewrite (max_above _ _ 90 Hmc). lia. }
  rewrite Hcpu.
  assert (HA : Qgtb mm 90 || Qgtb ms 80 || (0 <? total)%nat = true <->
               (90 < mm)%Q \/ (80 < ms)%Q \/ (0 < total)%nat).
  { rewrite !orb_true_iff, !Qgtb_true, Nat.ltb_lt. tauto. }
  assert (HB : Qgtb mm 75 || Qgtb ms 50 || (0 <? total_c)%nat = true <->
               (75 < mm)%Q \/ (50 < ms)%Q \/ (0 < total_c)%nat).
  { rewrite !orb_true_iff, !Qgtb_true, Nat.ltb_lt. tauto. }
  rewrite <- HA, <- HB. clear HA HB.
  pose proof (Qgtb_true mc 90) as HD. rewrite <- HD. clear HD Hcpu.
  destruct (advice_distinct total) as (N1 & N2 & N3 & N4).
  revert N1 N2 N3 N4.
  generalize memory_advice swap_advice (oom_advice total) cpu_advice normal_advice.
  intros m1 m2 m3 m4 n N1 N2 N3 N4.
  clear Esum Emem Ecpu Eswp Erec Etr.
  destruct (Qgtb mm 90), (Qgtb ms 80), (0 <? total)%nat, (Qgtb mc 90),
    (Qgtb mm 75 || Qgtb ms 50 || (0 <? total_c)%nat); cbn.
  all: repeat split; intros; try discriminate; try reflexivity;
    try (exfalso; intuition congruence); intuition congruence.
Qed.
End WholeReport.

Section WholeReportWitness.
Import Py ReportGenerator.

(** Two snapshots that carry the tracked record (100 MB, then 340 MB),
    reported for pid 7: the report has the tracking block. *)
Lemma report_parts_agree_witness :
  exists report,
    generate_report Sample.clock
      [MoreSamples.carrying 100; MoreSamples.carrying 340] [] (Some 7) 0
      = Ok (report, 1%nat) /\
    is_Some (leak_process_tracking report).
Proof.
  destruct (report_parts_agree Sample.clock
              (MoreSamples.carrying 100) [MoreSamples.carrying 340] [] (Some 7) 0)
    as (report & _ & _ & _ & _ & E & _ & _ & _ & _ & _ & _ & _ & _ & Htr & _).
  - repeat constructor; eexists; reflexivity.
  - exists report. split; [exact E|]. apply Htr. cbn. eauto.
Defined.
End WholeReportWitness.

Section SnapshotEntries.
Import Py ResourceMonitor ReportGenerator Spec RollupSpec EntrySpec.

Lemma snapshot_warnings_breaches (s : Snapshot) :
  (snapshot_warnings s <> [] <-> breaches s) /\
  (length (snapshot_warnings s) <= 3)%nat.
Proof.
  unfold snapshot_warnings, breaches.
  pose proof (Qgtb_true (mem_percent (memory s)) 90) as H1.
  pose proof (Qgtb_true (swap_percent (swap s)) 80) as H2.
  pose proof (Qgtb_true (cpu_total_percent (cpu s)) 90) as H3.
  generalize ("Критическое использование памяти: "
              +:+ fmt1 (mem_percent (memory s)) +:+ "%")
             ("Критическое использование swap: "
              +:+ fmt1 (swap_percent (swap s)) +:+ "%")
             ("Критическая загрузка CPU: "
              +:+ fmt1 (cpu_total_percent (cpu s)) +:+ "%").
  intros m1 m2 m3.
  destruct (Qgtb (mem_percent (memory s)) 90), (Qgtb (swap_percent (swap s)) 80),
    (Qgtb (cpu_total_percent (cpu s)) 90); cbn; (split; [|lia]);
    split; intros; try discriminate; try congruence; intuition congruence.
Qed.

Lemma fold_add_snapshot_entry_filter (md : list Snapshot) (acc : list CriticalEntry) :
  fold_left add_snapshot_entry md acc =
    acc ++ (entry_of <$> filter (fun s => snapshot_warnings s <> []) md).
Proof.
  revert acc. induction md as [|s md IH]; intros acc; simpl.
  - now rewrite app_nil_r.
  - rewrite IH, filter_cons. unfold add_snapshot_entry, entry_of.
    destruct (snapshot_warnings s) as [|w ws] eqn:E.
    + destruct (decide _) as [H|_]; [congruence|]. reflexivity.
    + destruct (decide _) as [_|H]; [|exfalso; apply H; discriminate].
      rewrite fmap_cons, E, <- app_assoc. reflexivity.
Qed.

Lemma filter_breaches (md : list Snapshot) :
  filter (fun s => snapshot_warnings s <> []) md = filter breaches md.
Proof.
  apply list_filter_iff. intros s. apply snapshot_warnings_breaches.
Qed.

Lemma breach_warned_at_collection (s : Snapshot) :
  breaches s -> has_warning "КРИТИЧНО" (check_critical_conditions s).
Proof.
  intros Hb. unfold check_critical_conditions.
  rewrite !tier_append, single_append. rewrite <- !app_assoc. rewrite app_nil_l.
  apply has_warning_rows. cbv zeta.
  generalize (fmt1 (mem_percent (memory s))) (fmt1 (swap_percent (swap s)))
    (fmt1 (cpu_total_percent (cpu s))) (fmt1 (mem_available_mb (memory s))).
  intros fm fs fc fa. compute_prefixes. cbn [andb orb].
  destruct Hb as [H | [H | H]]; apply Qgtb_true in H; rewrite H; cbn [orb];
    rewrite ?orb_true_r; reflexivity.
Qed.

(** X10. The combined list of the critical-event roll-up is, in order,
    one RESOURCE_CRITICAL entry (with the snapshot's timestamp and its
    one to three texts) for every snapshot whose memory exceeds 90, whose
    swap exceeds 80 or whose cpu exceeds 90, followed by the kernel
    critical events; so the total is the number of such snapshots plus
    the number of kernel events. Every such snapshot also had a CRITICAL
    warning from [check_critical_conditions]. *)
Theorem resource_critical_entries
        (monitoring_data : list Snapshot) (kernel_events : list Analysis) :
  critical_events_list_of monitoring_data kernel_events =
    (entry_of <$> filter breaches monitoring_data) ++
    (FromKernel <$> all_critical kernel_events) /\
  total_critical_events (_analyze_critical_events monitoring_data kernel_events) =
    (length (filter breaches monitoring_data) + length (all_critical kernel_events))%nat /\
  Forall (fun s => (1 <= length (snapshot_warnings s) <= 3)%nat /\
                   has_warning "КРИТИЧНО" (check_critical_conditions s))
         (filter breaches monitoring_data).
Proof.
  assert (E : critical_events_list_of monitoring_data kernel_events =
              (entry_of <$> filter breaches monitoring_data) ++
              (FromKernel <$> all_critical kernel_events)).
  { unfold critical_events_list_of.
    rewrite fold_add_kernel_entries, fold_add_snapshot_entry_filter.
    now rewrite filter_breaches. }
  split; [exact E|]. split.
  - unfold _analyze_critical_events. cbn [total_critical_events].
    now rewrite E, length_app, !length_fmap.
  - apply Forall_forall. intros s Hs. apply list_elem_of_filter in Hs as [Hb _].
    split; [|now apply breach_warned_at_collection].
    destruct (snapshot_warnings_breaches s) as [Hw Hl].
    apply Hw in Hb. destruct (snapshot_warnings s); [congruence|]. simpl in *. lia.
Qed.
End SnapshotEntries.

Section Exhaustion.
Import Py ReportGenerator EntrySpec.

Lemma snapshot_exhaustion_events (s : Snapshot) :
  events_for s (snapshot_exhaustion s).
Proof.
  unfold events_for, snapshot_exhaustion, memory_exhausted, swap_exhausted.
  fold (memory_event s) (swap_event s).
  pose proof (Qltb_true (mem_available_mb (memory s)) 50) as H1.
  pose proof (Qltb_true (swap_free_mb (swap s)) 100) as H2.
  pose proof (Qgtb_true (swap_total_mb (swap s)) 0) as H3.
  generalize (memory_event s) (swap_event s). intros em es.
  destruct (Qltb (mem_available_mb (memory s)) 50),
    (Qltb (swap_free_mb (swap s)) 100), (Qgtb (swap_total_mb (swap s)) 0); cbn;
    repeat split; intros; try reflexivity; exfalso; intuition congruence.
Qed.

Lemma snapshot_exhaustion_flagged (s : Snapshot) :
  snapshot_exhaustion s <> [] <-> flagged s.
Proof.
  destruct (snapshot_exhaustion_events s) as (H1 & H2 & H3 & H4). unfold flagged.
  destruct (decide (memory_exhausted s)) as [Hm|Hm],
    (decide (swap_exhausted s)) as [Hs|Hs].
  - rewrite (H1 Hm Hs). split; [tauto | discriminate].
  - rewrite (H2 Hm Hs). split; [tauto | discriminate].
  - rewrite (H3 Hm Hs). split; [tauto | discriminate].
  - rewrite (H4 Hm Hs). split; [congruence | tauto].
Qed.

Lemma fold_add_exhaustion (md : list Snapshot) (acc : list ExhaustionPeriod) :
  fold_left add_exhaustion md acc = acc ++ (period_of <$> filter flagged md).
Proof.
  revert acc. induction md as [|s md IH]; intros acc; simpl.
  - now rewrite app_nil_r.
  - rewrite IH, filter_cons. unfold add_exhaustion, period_of.
    pose proof (snapshot_exhaustion_flagged s) as Hf.
    destruct (snapshot_exhaustion s) as [|e es] eqn:E.
    + destruct (decide _) as [H|_]; [apply Hf in H; congruence|]. reflexivity.
    + destruct (decide _) as [_|H]; [|exfalso; apply H, Hf; discriminate].
      rewrite fmap_cons, E, <- app_assoc. reflexivity.
Qed.

(** X11. For one snapshot the exhaustion check lists the MEMORY event
    (severity CRITICAL) exactly when less than 50 MB are available, and
    behind it the SWAP event (severity WARNING) exactly when less than
    100 MB of swap are free and the host has swap at all. The roll-up of
    an empty history is the empty block; that of a non-empty history
    lists, in order, one period for every snapshot with at least one
    event, and counts those periods. *)
Theorem exhaustion_rollup :
  (forall s, events_for s (snapshot_exhaustion s)) /\
  _analyze_resource_exhaustion [] = None /\
  forall (s : Snapshot) (rest : list Snapshot),
    let md := s :: rest in
    exists r,
      _analyze_resource_exhaustion md = Some r /\
      exhaustion_events r = period_of <$> filter flagged md /\
      exhaustion_events_count r = length (filter flagged md) /\
      (exhaustion_events_count r <= length md)%nat.
Proof.
  split; [exact snapshot_exhaustion_events|]. split; [reflexivity|].
  intros s rest md. unfold _analyze_resource_exhaustion. subst md.
  rewrite fold_add_exhaustion. cbn [app].
  eexists. split; [reflexivity|]. cbn [exhaustion_events exhaustion_events_count].
  split; [reflexivity|]. rewrite length_fmap. split; [reflexivity|].
  apply length_filter.
Qed.

(** 40 MB available and 2000 MB of swap free: exactly the MEMORY event. *)
Example exhaustion_of_low_memory :
  snapshot_exhaustion (Sample.snapshot_with 50 10 20 40)
  = [memory_event (Sample.snapshot_with 50 10 20 40)].
Proof. vm_compute. reflexivity. Qed.
End Exhaustion.

Section TrendOfHalves.
Import Py ReportGenerator Spec.

Lemma float_sub_self (x : float) :
  float_sub x x = match x with Finite _ => Finite 0 | _ => NaN end.
Proof.
  destruct x as [q|[|]|]; try reflexivity.
  unfold float_sub, float_neg, float_add, round_float.
  replace (Qeq_bool (q + - q) 0) with true; [reflexivity|].
  symmetry. apply Qeq_bool_iff. ring.
Qed.

(** X12. A series that repeats its first half is STABLE whenever the
    binary64 mean of the half is a number; when the sum of the half
    overflows, the difference of the two equal means is not a number and
    the series is classified SLIGHTLY_DECREASING. The classification is
    not invariant under adding a constant to every value:
    [0, 0, 5, 0, 0, 8] is STABLE and [1, 1, 6, 1, 1, 9] is
    SLIGHTLY_INCREASING. *)
Theorem trend_of_repeated_half (x : Q) (rest : list Q) :
  let half := x :: rest in
  _calculate_trend (half ++ half) =
    Ok (match float_mean half with
        | Finite _ => "STABLE"
        | _ => "SLIGHTLY_DECREASING"
        end) /\
  _calculate_trend [0; 0; 5; 0; 0; 8]%Q = Ok "STABLE" /\
  _calculate_trend ((fun v => v + 1)%Q <$> [0; 0; 5; 0; 0; 8]%Q)
    = Ok "SLIGHTLY_INCREASING".
Proof.
  intros half. split; [|split; vm_compute; reflexivity].
  assert (Hlen : (length (half ++ half) / 2)%nat = length half).
  { rewrite length_app. replace (length half + length half)%nat
      with (length half * 2)%nat by lia. apply Nat.div_mul. lia. }
  rewrite calculate_trend_diff
    by (rewrite length_app; unfold half; cbn [length]; lia).
  rewrite Hlen, take_app_length, drop_app_length, float_sub_self.
  destruct (float_mean half); reflexivity.
Qed.
End TrendOfHalves.

Section ReportTextFacts.
Import Py ReportGenerator ReportText LeakSpec.
Variable items : gmap string nat -> list (string * nat).
Variable clock : nat -> string.

Lemma format_with_details (report : Report) (d : SummaryDetails) :
  details (executive_summary report) = Some d ->
  exists text, _format_report_text items report = Ok text.
Proof.
  intros E. unfold _format_report_text. rewrite E.
  cbn [fmap option_fmap option_map getkey bind]. eexists. reflexivity.
Qed.

Lemma format_without_details (report : Report) :
  details (executive_summary report) = None ->
  _format_report_text items report = Raise KeyError.
Proof.
  intros E. unfold _format_report_text. rewrite E. reflexivity.
Qed.

Lemma generate_report_details (s : Snapshot) (rest : list Snapshot)
      (kernel_events : list Analysis) (leak_process_pid : option Z) (t : nat) :
  Forall numeric_memory (carried (s :: rest)) ->
  exists report d,
    generate_report clock (s :: rest) kernel_events leak_process_pid t
      = Ok (report, S t) /\
    details (executive_summary report) = Some d.
Proof.
  intros Hnum.
  destruct (maxima_of_history s rest)
    as (mm & ms & mc & Emm & Hmm & Ems & Hms & Emc & Hmc).
  destruct (summary_of_maxima s rest kernel_events mm ms mc Emm Ems Emc)
    as (d & Esum & _).
  destruct (analyze_memory_block s rest) as (mem & Emem & _).
  destruct (analyze_cpu_block s rest) as (cpu & Ecpu & _).
  destruct (analyze_swap_block s rest) as (swp & Eswp & _).
  pose proof (recommendations_of_maxima s rest kernel_events mm ms mc Emm Ems Emc)
    as Erec.
  cbv zeta in Esum, Emem, Ecpu, Eswp, Erec.
  unfold generate_report.
  rewrite Esum. cbn [bind]. rewrite Emem. cbn [bind]. rewrite Ecpu. cbn [bind].
  rewrite Eswp. cbn [bind]. rewrite Erec. cbn [bind].
  destruct (pid_truthy leak_process_pid) as [p|].
  - pose proof (track_leak_process_ok (s :: rest) p Hnum) as Hok.
    destruct (_track_leak_process (s :: rest) p) as [r|]; [|discriminate].
    cbn [bind]. eexists _, d. split; reflexivity.
  - cbn [bind]. eexists _, d. split; reflexivity.
Qed.

(** X13. [_format_report_text] renders a report exactly when its
    executive summary carries the peak and total figures; without them
    it raises [KeyError]. So the report that [generate_report] returns
    for an empty history cannot be rendered as text, while the report of
    every non-empty history (tracked-process memory figures numeric or
    absent) is rendered. *)
Theorem report_text_needs_summary_figures :
  (forall report,
     (is_ok (_format_report_text items report) = true <->
      is_Some (details (executive_summary report))) /\
     (details (executive_summary report) = None ->
      _format_report_text items report = Raise KeyError)) /\
  (forall kernel_events leak_process_pid t,
     exists report,
       generate_report clock [] kernel_events leak_process_pid t = Ok (report, S t) /\
       _format_report_text items report = Raise KeyError) /\
  (forall s rest kernel_events leak_process_pid t,
     Forall numeric_memory (carried (s :: rest)) ->
     exists report text,
       generate_report clock (s :: rest) kernel_events leak_process_pid t
         = Ok (report, S t) /\
       _format_report_text items report = Ok text).
Proof.
  refine (conj _ (conj _ _)).
  - intros report. split; [|apply format_without_details].
    destruct (details (executive_summary report)) as [d|] eqn:E.
    + destruct (format_with_details report d E) as (text & ->).
      split; [eauto | reflexivity].
    + rewrite (format_without_details report E).
      split; [discriminate | intros [x Hx]; discriminate].
  - intros kernel_events leak_process_pid t.
    unfold generate_report.
    destruct (pid_truthy leak_process_pid) as [p|];
      (eexists; split; [reflexivity | apply format_without_details; reflexivity]).
  - intros s rest kernel_events leak_process_pid t Hnum.
    destruct (generate_report_details s rest kernel_events leak_process_pid t Hnum)
      as (report & d & E & Hd).
    destruct (format_with_details report d Hd) as (text & Et).
    now exists report, text.
Qed.
End ReportTextFacts.

Section Collecting.
Import Py ResourceMonitor ProcessSpec LeakSpec PipelineSpec ReportGenerator ReportText.
Variable clock : nat -> string.

Lemma process_dict_numeric (p : Process) (d : ProcDict) :
  _get_process_dict p = Ok d -> numeric_memory d.
Proof.
  unfold _get_process_dict, numeric_memory, memory_of, get.
  destruct (proc_memory_info_rss p) as [rss|e1]; cbn [bind try_except].
  2: { destruct (psutil_error e1); [|discriminate]. intros [= <-]. now exists 0%Q. }
  destruct (proc_name p) as [name|e2]; cbn [bind try_except].
  2: { destruct (psutil_error e2); [|discriminate]. intros [= <-]. now exists 0%Q. }
  destruct (proc_memory_percent p) as [mp|e3]; cbn [bind try_except].
  2: { destruct (psutil_error e3); [|discriminate]. intros [= <-]. now exists 0%Q. }
  destruct (proc_cpu_percent p) as [cp|e4]; cbn [bind try_except].
  2: { destruct (psutil_error e4); [|discriminate]. intros [= <-]. now exists 0%Q. }
  destruct (proc_status p) as [st|e5]; cbn [bind try_except].
  2: { destruct (psutil_error e5); [|discriminate]. intros [= <-]. now exists 0%Q. }
  intros [= <-]. exists (to_mb rss).
  rewrite lookup_insert_ne by discriminate.
  rewrite lookup_insert_ne by discriminate.
  now rewrite lookup_insert_eq.
Qed.

Lemma pid_truthy_some (pid : option Z) (p : Z) :
  pid_truthy pid = Some p -> pid = Some p /\ p <> 0.
Proof.
  destruct pid as [q|]; [|discriminate]. simpl.
  destruct (Z.eqb_spec q 0); [discriminate|]. intros [= <-]. now split.
Qed.

Lemma pid_truthy_nonzero (p : Z) : p <> 0 -> pid_truthy (Some p) = Some p.
Proof. intros H. simpl. now destruct (Z.eqb_spec p 0). Qed.

Lemma tracked_numeric (h : Host) (p : Z) (ds : list ProcDict) :
  p <> 0 -> get_process_info h (Some p) = Ok ds -> Forall numeric_memory ds.
Proof.
  intros Hp. unfold get_process_info. rewrite (pid_truthy_nonzero p Hp).
  destruct (Process_of h p) as [proc|e]; cbn [bind try_except].
  - destruct (_get_process_dict proc) as [d|e] eqn:Ed; cbn [bind try_except].
    + intros [= <-]. constructor; [|constructor].
      eapply process_dict_numeric. exact Ed.
    + destruct (no_such_process e); [|discriminate]. intros [= <-]. constructor.
  - destruct (no_such_process e); [|discriminate]. intros [= <-]. constructor.
Qed.

Lemma collected_numeric (s : Snapshot) :
  collected clock s -> Forall numeric_memory (carried [s]).
Proof.
  intros (h & pid & t & t' & E). unfold collect_snapshot in E.
  cbn [get_memory_info get_cpu_info] in E.
  destruct (get_process_info h None) as [top|]; [|discriminate].
  cbn [bind] in E.
  destruct (pid_truthy pid) as [p|] eqn:Ep.
  - apply pid_truthy_some in Ep as [-> Hp].
    destruct (get_process_info h (Some p)) as [ds|] eqn:Eds; [|discriminate].
    apply (tracked_numeric h p ds Hp) in Eds. cbn [bind] in E.
    destruct ds as [|d ds]; injection E as <- _; unfold carried; cbn.
    + constructor.
    + apply Forall_cons in Eds as [Hd _]. now constructor.
  - injection E as <- _. constructor.
Qed.

Lemma collected_history_numeric (monitoring_data : list Snapshot) :
  Forall (collected clock) monitoring_data ->
  Forall numeric_memory (carried monitoring_data).
Proof.
  induction 1 as [|s rest Hs _ IH]; [constructor|].
  change (s :: rest) with ([s] ++ rest). unfold carried in *.
  rewrite omap_app. apply Forall_app. split; [|exact IH].
  now apply collected_numeric.
Qed.

(** X14. On a host whose processes all answer, [collect_snapshot] with
    a negative tracked pid raises [ValueError] (from [psutil.Process]).
    With any other pid, or none, it returns a snapshot and reads the
    clock three times. The timestamp of the snapshot is the third
    reading (that of [get_cpu_info], which overwrites the two earlier
    ones); the percentages are those the host reports; the process list
    is the result of [get_process_info()]; and the tracked record is
    attached exactly when a pid other than 0 is given and a process has
    it, and then describes that process. *)
Theorem snapshot_of_readable_host (h : Host) (leak_process_pid : option Z) (t : nat) :
  Forall readable (process_iter h) ->
  if negative_pid leak_process_pid
  then collect_snapshot clock h leak_process_pid t = Raise ValueError
  else
    exists s,
      collect_snapshot clock h leak_process_pid t = Ok (s, (3 + t)%nat) /\
      timestamp s = clock (2 + t)%nat /\
      mem_percent (memory s) = vm_percent (virtual_memory h) /\
      mem_available_mb (memory s) = to_mb (vm_available (virtual_memory h)) /\
      swap_percent (swap s) = sw_percent (swap_memory h) /\
      cpu_total_percent (cpu s) = host_cpu_percent h /\
      get_process_info h None = Ok (top_processes s) /\
      (length (top_processes s) <= 10)%nat /\
      tracked h leak_process_pid (leak_process s).
Proof.
  intros Hr.
  destruct (enumerate_readable _ Hr) as (ds & E & Hds).
  assert (Htop : exists top, get_process_info h None = Ok top /\
                             (length top <= 10)%nat).
  { destruct (keyed_memory ds) as (ks & Ek & Hsnd & Hkeys).
    { clear E. induction Hds as [|p d ps ds [_ (rss & _ & Hm)] _ IH]; constructor.
      - eauto.
      - apply IH. now apply Forall_cons in Hr as [_ Hr]. }
    destruct (sort_keyed_sorted ks) as (ks' & Es & _).
    { eapply Forall_impl; [exact Hkeys|]. intros kx Hx. eexists. exact Hx. }
    unfold get_process_info. cbn [pid_truthy]. rewrite E. cbn [bind].
    unfold sort_reverse. rewrite Ek. cbn [bind]. rewrite Es. cbn [bind].
    eexists. split; [reflexivity|]. rewrite length_take. lia. }
  destruct Htop as (top & Etop & Hlen).
  unfold negative_pid, tracked, collect_snapshot.
  cbn [get_memory_info get_cpu_info]. rewrite Etop. cbn [bind].
  destruct leak_process_pid as [p|].
  2: { cbn [pid_truthy]. eexists. split; [reflexivity|]. cbn.
       repeat (split; [first [reflexivity | exact Hlen]|]). reflexivity. }
  destruct (Z.eq_dec p 0) as [->|Hp].
  { cbn [pid_truthy Z.eqb Z.ltb Z.compare]. eexists. split; [reflexivity|]. cbn.
    repeat (split; [first [reflexivity | exact Hlen]|]). reflexivity. }
  rewrite (pid_truthy_nonzero p Hp).
  unfold get_process_info. rewrite (pid_truthy_nonzero p Hp). unfold Process_of.
  destruct (p <? 0); [reflexivity|].
  destruct (find _ _) as [proc|] eqn:Ef; cbn [bind try_except no_such_process].
  - assert (Hproc : readable proc).
    { rewrite Forall_forall in Hr. apply Hr.
      apply list_elem_of_In. eapply find_some. exact Ef. }
    destruct (readable_dict proc Hproc) as (d & Ed & Hd). rewrite Ed.
    cbn [bind app]. eexists. split; [reflexivity|]. cbn.
    repeat (split; [first [reflexivity | exact Hlen]|]). eauto.
  - eexists. split; [reflexivity|]. cbn.
    repeat (split; [first [reflexivity | exact Hlen]|]). reflexivity.
Qed.
End Collecting.

Section CollectingWitness.
Import Py ResourceMonitor PipelineSpec.

(** Two readable processes, pid 2 tracked. *)
Lemma snapshot_of_readable_host_witness :
  exists s, collect_snapshot Sample.clock small_host (Some 2) 0 = Ok (s, 3%nat) /\
            is_Some (leak_process s).
Proof.
  pose proof (snapshot_of_readable_host Sample.clock small_host (Some 2) 0) as H.
  cbn [negative_pid Z.ltb Z.compare] in H.
  destruct H as (s & E & _ & _ & _ & _ & _ & _ & _ & Ht).
  - repeat constructor.
  - exists s. split; [exact E|].
    unfold tracked in Ht. cbn in Ht. destruct Ht as (d & -> & _). eauto.
Defined.
End CollectingWitness.

Section Pipeline.
Import Py ResourceMonitor LeakSpec PipelineSpec ReportGenerator ReportText.
Variable clock : nat -> string.
Variable items : gmap string nat -> list (string * nat).

(** X15. Whatever [collect_snapshot] returned can be reported: for a
    non-empty history made of collected snapshots, any list of kernel
    analyses and any tracked pid, [generate_report] returns a report and
    [_format_report_text] renders it; neither raises. *)
Theorem collected_history_is_reportable (monitoring_data : list Snapshot)
        (kernel_events : list Analysis) (leak_process_pid : option Z) (t : nat) :
  monitoring_data <> [] ->
  Forall (collected clock) monitoring_data ->
  exists report text,
    generate_report clock monitoring_data kernel_events leak_process_pid t
      = Ok (report, S t) /\
    _format_report_text items report = Ok text.
Proof.
  intros Hne Hc. destruct monitoring_data as [|s rest]; [congruence|].
  pose proof (collected_history_numeric clock _ Hc) as Hnum.
  destruct (generate_report_details clock s rest kernel_events leak_process_pid t Hnum)
    as (report & d & E & Hd).
  destruct (format_with_details items report d Hd) as (text & Et).
  now exists report, text.
Qed.
End Pipeline.

Section PipelineWitness.
Import Py ResourceMonitor PipelineSpec ReportGenerator ReportText.

(** The snapshot collected from the small host, reported while
    tracking pid 2. *)
Lemma collected_history_is_reportable_witness :
  exists report text,
    generate_report Sample.clock [collected_once] [] (Some 2) 3 = Ok (report, 4%nat) /\
    _format_report_text (fun killed => map_to_list killed) report = Ok text.
Proof.
  apply (collected_history_is_reportable Sample.clock
           (fun killed => map_to_list killed) [collected_once] [] (Some 2) 3).
  - discriminate.
  - constructor; [|constructor].
    exists small_host, (Some 2), 0%nat, 3%nat. vm_compute. reflexivity.
Defined.
End PipelineWitness.

Section QuietSnapshot.
Import Py ResourceMonitor Spec.

Lemma tier_row_length (b1 b2 : bool) (x y : string) :
  length (tier_row b1 b2 x y) = if b1 || b2 then 1%nat else 0%nat.
Proof. now destruct b1, b2. Qed.

Lemma tier_row_Forall (P : string -> Prop) (b1 b2 : bool) (x y : string) :
  P x -> P y -> Forall P (tier_row b1 b2 x y).
Proof. intros Hx Hy. destruct b1, b2; repeat constructor; assumption. Qed.

Lemma rows_nil (b1 b2 b3 b4 b5 b6 b7 : bool) (x1 y1 x2 y2 x3 y3 x4 : string) :
  tier_row b1 b2 x1 y1 ++ tier_row b3 b4 x2 y2 ++
    tier_row b5 b6 x3 y3 ++ tier_row b7 false x4 x4 = [] <->
  b1 = false /\ b2 = false /\ b3 = false /\ b4 = false /\
  b5 = false /\ b6 = false /\ b7 = false.
Proof.
  destruct b1, b2, b3, b4, b5, b6, b7; simpl; intuition congruence.
Qed.

Lemma rows_length (b1 b2 b3 b4 b5 b6 b7 : bool) (x1 y1 x2 y2 x3 y3 x4 : string) :
  (length (tier_row b1 b2 x1 y1 ++ tier_row b3 b4 x2 y2 ++
           tier_row b5 b6 x3 y3 ++ tier_row b7 false x4 x4) <= 4)%nat.
Proof.
  rewrite !length_app, !tier_row_length.
  destruct b1, b2, b3, b4, b5, b6, b7; simpl; lia.
Qed.

(** X16. [check_critical_conditions] returns no message exactly when
    the snapshot is within every warning bound: memory at most 75%,
    swap at most 50%, cpu at most 80% and at least 100 MB available.
    It never returns more than four messages, and each message opens
    with one of the two severity words. *)
Theorem no_warning_iff_within_bounds (snapshot : Snapshot) :
  let ws := check_critical_conditions snapshot in
  (ws = [] <->
     (mem_percent (memory snapshot) <= 75)%Q /\
     (swap_percent (swap snapshot) <= 50)%Q /\
     (cpu_total_percent (cpu snapshot) <= 80)%Q /\
     (100 <= mem_available_mb (memory snapshot))%Q) /\
  (length ws <= 4)%nat /\
  Forall (fun w => String.prefix "КРИТИЧНО: " w = true \/
                   String.prefix "ПРЕДУПРЕЖДЕНИЕ: " w = true) ws.
Proof.
  intros ws. subst ws. unfold check_critical_conditions.
  set (m := mem_percent (memory snapshot)).
  set (s := swap_percent (swap snapshot)).
  set (c := cpu_total_percent (cpu snapshot)).
  set (a := mem_available_mb (memory snapshot)).
  rewrite !tier_append, single_append. rewrite <- !app_assoc. rewrite app_nil_l.
  refine (conj _ (conj _ _)).
  - generalize (fmt1 m) (fmt1 s) (fmt1 c) (fmt1 a). intros fm fs fc fa.
    rewrite rows_nil, !Qgtb_false, Qltb_false.
    split.
    + intros (_ & H1 & _ & H2 & _ & H3 & H4).
      repeat split; now apply Qnot_lt_le.
    + intros (H1 & H2 & H3 & H4).
      assert (N1 : ~ (90 < m)%Q) by (apply Qle_not_lt; lra).
      assert (N2 : ~ (80 < s)%Q) by (apply Qle_not_lt; lra).
      assert (N3 : ~ (90 < c)%Q) by (apply Qle_not_lt; lra).
      repeat split; try assumption; now apply Qle_not_lt.
  - apply rows_length.
  - rewrite !Forall_app.
    repeat split; apply tier_row_Forall;
      first [left; vm_compute; reflexivity | right; vm_compute; reflexivity].
Qed.
End QuietSnapshot.

Section Simulator.
Import MemoryLeakSimulator.
Variable maxsize : Z.
Variable memory_error : nat -> bool.
Variable interrupted : nat -> bool.

Lemma range_step_multiples (stop step : nat) :
  Forall (fun i => exists k, i = (k * step)%nat) (range_step stop step).
Proof.
  unfold range_step. apply Forall_fmap, Forall_forall. intros k _. now exists k.
Qed.

Lemma stamp_zero (n : nat) (idx : list nat) :
  Forall (fun i => exists k, i = (k * 4096)%nat) idx ->
  fold_left (fun chunk i => <[i := (Z.of_nat i) mod 256]> chunk) idx (replicate n 0)
    = replicate n 0.
Proof.
  induction 1 as [|i idx [k ->] _ IH]; [reflexivity|]. cbn [fold_left].
  replace (Z.of_nat (k * 4096) mod 256) with 0.
  - destruct (decide (k * 4096 < n)%nat) as [Hlt|Hge].
    + rewrite list_insert_id; [exact IH|]. now apply lookup_replicate_2.
    + rewrite list_insert_ge; [exact IH|]. rewrite length_replicate. lia.
  - rewrite Nat2Z.inj_mul. change (Z.of_nat 4096) with (16 * 256).
    rewrite Z.mul_assoc. now rewrite Z_mod_mult.
Qed.

Lemma allocate_memory_zero (size_mb : Z) :
  0 <= size_mb -> size_mb * 1024 * 1024 <= maxsize ->
  allocate_memory maxsize false size_mb =
    Done (Some (replicate (Z.to_nat (size_mb * 1024 * 1024)) 0)).
Proof.
  intros H0 Hmax. unfold allocate_memory, bytearray.
  replace (maxsize <? size_mb * 1024 * 1024) with false by (symmetry; lia).
  replace (size_mb * 1024 * 1024 <? - maxsize - 1) with false by (symmetry; lia).
  replace (size_mb * 1024 * 1024 <? 0) with false by (symmetry; lia).
  cbn [orb]. rewrite stamp_zero; [reflexivity|]. apply range_step_multiples.
Qed.

(** X17. [allocate_memory] returns a block of [size_mb] * 1048576 bytes
    that are all zero: the loop that touches every 4096th byte stores
    [i % 256], which is 0 at each of those positions. It returns [None]
    when the allocation meets [MemoryError]; a negative size raises
    [ValueError] and a size beyond [sys.maxsize] bytes raises
    [OverflowError], neither of which the function handles. *)
Theorem allocate_memory_block (fails : bool) (size_mb : Z) :
  let n := size_mb * 1024 * 1024 in
  ((maxsize < n \/ n < - maxsize - 1) ->
     allocate_memory maxsize fails size_mb = Raised OverflowError) /\
  (- maxsize - 1 <= n -> n <= maxsize -> size_mb < 0 ->
     allocate_memory maxsize fails size_mb = Raised ValueError) /\
  (0 <= size_mb -> n <= maxsize ->
     allocate_memory maxsize fails size_mb =
       if fails then Done None
       else Done (Some (replicate (Z.to_nat n) 0))).
Proof.
  intros n. subst n. refine (conj _ (conj _ _)).
  - intros H. unfold allocate_memory, bytearray.
    replace ((maxsize <? size_mb * 1024 * 1024)
             || (size_mb * 1024 * 1024 <? - maxsize - 1)) with true; [reflexivity|].
    symmetry. apply orb_true_iff. lia.
  - intros H1 H2 H3. unfold allocate_memory, bytearray.
    replace (maxsize <? size_mb * 1024 * 1024) with false by (symmetry; lia).
    replace (size_mb * 1024 * 1024 <? - maxsize - 1) with false by (symmetry; lia).
    replace (size_mb * 1024 * 1024 <? 0) with true by (symmetry; lia).
    reflexivity.
  - intros H0 Hmax. destruct fails; [|now apply allocate_memory_zero].
    unfold allocate_memory, bytearray.
    replace (maxsize <? size_mb * 1024 * 1024) with false by (symmetry; lia).
    replace (size_mb * 1024 * 1024 <? - maxsize - 1) with false by (symmetry; lia).
    replace (size_mb * 1024 * 1024 <? 0) with false by (symmetry; lia).
    reflexivity.
Qed.








End Simulator.

Section SimulatorWitness.
Import MemoryLeakSimulator.

End SimulatorWitness.

Section SavingFacts.
Import Py ReportGenerator ReportText Saving LeakSpec PipelineSpec.
Variable dump_snapshot : Snapshot -> string.
Variable dump_analysis : Analysis -> string.
Variable dump_report : Report -> string.
Variable items : gmap string nat -> list (string * nat).
Variable log_dir output_dir : string.
Variable clock : nat -> string.
Variable strftime : nat -> string.

Lemma replace_char_free (a b : ascii) (s : string) :
  a <> b -> free_of a (replace_char a b s) = true.
Proof.
  intros Hab. induction s as [|c s IH]; [reflexivity|]. cbn [replace_char free_of].
  rewrite IH, andb_true_r. destruct (Ascii.eqb_spec c a) as [->|Hc].
  - apply negb_true_iff. apply Ascii.eqb_neq. congruence.
  - apply negb_true_iff. now apply Ascii.eqb_neq.
Qed.

Lemma before_free (sep : ascii) (s : string) : free_of sep (before sep s) = true.
Proof.
  induction s as [|c s IH]; [reflexivity|]. cbn [before].
  destruct (Ascii.eqb c sep) eqn:E; [reflexivity|]. cbn [free_of]. now rewrite E, IH.
Qed.

Lemma before_keeps_free (c sep : ascii) (s : string) :
  free_of c s = true -> free_of c (before sep s) = true.
Proof.
  induction s as [|c' s IH]; [reflexivity|]. cbn [before free_of].
  intros [H1 H2]%andb_true_iff.
  destruct (Ascii.eqb c' sep); [reflexivity|]. cbn [free_of]. now rewrite H1, IH.
Qed.

Lemma replace_char_app (a b : ascii) (s1 s2 : string) :
  replace_char a b (s1 +:+ s2) = replace_char a b s1 +:+ replace_char a b s2.
Proof.
  induction s1 as [|c s1 IH]; [reflexivity|].
  change (String c s1 +:+ s2) with (String c (s1 +:+ s2)).
  cbn [replace_char]. rewrite IH. reflexivity.
Qed.

Lemma replace_char_keeps_free (c a b : ascii) (s : string) :
  b <> c -> free_of c s = true -> free_of c (replace_char a b s) = true.
Proof.
  intros Hb. induction s as [|c' s IH]; [reflexivity|]. cbn [replace_char free_of].
  intros [H1 H2]%andb_true_iff. rewrite (IH H2), andb_true_r.
  destruct (Ascii.eqb c' a); [|exact H1].
  apply negb_true_iff. now apply Ascii.eqb_neq.
Qed.

Lemma before_app (sep : ascii) (s1 s2 : string) :
  free_of sep s1 = true ->
  before sep (s1 +:+ String sep s2) = s1.
Proof.
  induction s1 as [|c s1 IH].
  - intros _. change (before sep (String sep s2) = "").
    cbn [before]. now rewrite Ascii.eqb_refl.
  - cbn [free_of]. intros [H1 H2]%andb_true_iff. apply negb_true_iff in H1.
    change (String c s1 +:+ String sep s2) with (String c (s1 +:+ String sep s2)).
    cbn [before]. rewrite H1. now rewrite IH.
Qed.

Lemma before_id (sep : ascii) (s : string) :
  free_of sep s = true -> before sep s = s.
Proof.
  induction s as [|c s IH]; [reflexivity|]. cbn.
  intros [H1 H2]%andb_true_iff. apply negb_true_iff in H1. rewrite H1.
  now rewrite IH.
Qed.

(** X21. The name of a snapshot file is built from the timestamp with
    every colon replaced and everything from the first dot on dropped;
    it holds neither a colon nor a dot, and the fraction of the second
    does not reach it. So two snapshots taken within one second go to
    the same file: after saving both, the list in memory holds both,
    but only one file was added, and it holds the later snapshot. The
    same holds of two analyses saved by [save_analysis]. *)
Theorem snapshot_files_by_second :
  (forall ts, free_of ":" (timestamp_str ts) = true /\
              free_of "." (timestamp_str ts) = true) /\
  (forall body fraction,
     free_of "." body = true ->
     timestamp_str (body +:+ "." +:+ fraction) = timestamp_str body) /\
  (forall st s1 s2,
     timestamp_str (timestamp s1) = timestamp_str (timestamp s2) ->
     let st' := save_snapshot dump_snapshot log_dir
                  (save_snapshot dump_snapshot log_dir st s1) s2 in
     get_all_data st' = get_all_data st ++ [s1; s2] /\
     files st' = <[snapshot_file log_dir s2 := dump_snapshot s2]> (files st)) /\
  (forall fs a1 a2,
     timestamp_str (analysis_timestamp a1) = timestamp_str (analysis_timestamp a2) ->
     save_analysis dump_analysis log_dir (save_analysis dump_analysis log_dir fs a1) a2
       = save_analysis dump_analysis log_dir fs a2).
Proof.
  refine (conj _ (conj _ (conj _ _))).
  - intros ts. unfold timestamp_str. split.
    + apply before_keeps_free. now apply replace_char_free.
    + apply before_free.
  - intros body fraction Hfree. unfold timestamp_str.
    rewrite replace_char_app.
    change (replace_char ":" "-" ("." +:+ fraction))
      with (String "." (replace_char ":" "-" fraction)).
    assert (Hf : free_of "." (replace_char ":" "-" body) = true)
      by now apply replace_char_keeps_free.
    now rewrite before_app, before_id.
  - intros st s1 s2 E st'. subst st'. unfold save_snapshot, get_all_data.
    cbn [monitoring_data files]. split.
    + now rewrite <- app_assoc.
    + unfold snapshot_file. rewrite E. apply insert_insert_eq.
  - intros fs a1 a2 E. unfold save_analysis, analysis_file. rewrite E.
    apply insert_insert_eq.
Qed.

Lemma save_report_both (fs : gmap string string) (report : Report) (t : nat) :
  let json_file :=
    path output_dir ("diagnostic_report_" +:+ strftime t +:+ ".json") in
  let txt_file :=
    path output_dir ("diagnostic_report_" +:+ strftime t +:+ ".txt") in
  save_report dump_report items output_dir strftime fs report "both" t =
    match _format_report_text items report with
    | Ok text =>
        (<[txt_file := text]> (<[json_file := dump_report report]> fs),
         Returned txt_file, S t)
    | Raise e =>
        (<[txt_file := ""]> (<[json_file := dump_report report]> fs),
         Failed (FromReport e), S t)
    end.
Proof.
  intros json_file txt_file. unfold save_report. cbn [String.eqb Ascii.eqb orb].
  change (String.eqb "both" "json") with false.
  change (String.eqb "both" "txt") with false.
  change (String.eqb "both" "both") with true. cbn [orb].
  fold json_file txt_file.
  destruct (_format_report_text items report); [|reflexivity].
  now rewrite insert_insert_eq.
Qed.

(** X19. [save_report] reads the clock once and names its files after
    that reading. With format 'json' it writes the JSON file only and
    returns its path, whatever the report holds. With 'txt' or 'both' it
    returns the path of the text file, which holds the rendering of the
    report; with 'both' the JSON file is written as well. When the
    report cannot be rendered, the exception of the formatter comes out
    after the text file was created, which is left empty (with 'both',
    beside the JSON file). Any other format writes nothing and raises
    [UnboundLocalError]. *)
Theorem save_report_outcomes (fs : gmap string string) (report : Report)
        (format : string) (t : nat) :
  let json_file :=
    path output_dir ("diagnostic_report_" +:+ strftime t +:+ ".json") in
  let txt_file :=
    path output_dir ("diagnostic_report_" +:+ strftime t +:+ ".txt") in
  let save := save_report dump_report items output_dir strftime fs report format t in
  snd save = S t /\
  (format = "json" ->
     save = (<[json_file := dump_report report]> fs, Returned json_file, S t)) /\
  (format = "txt" ->
     forall text, _format_report_text items report = Ok text ->
     save = (<[txt_file := text]> fs, Returned txt_file, S t)) /\
  (format = "both" ->
     forall text, _format_report_text items report = Ok text ->
     save = (<[txt_file := text]> (<[json_file := dump_report report]> fs),
             Returned txt_file, S t)) /\
  (format = "txt" ->
     forall e, _format_report_text items report = Raise e ->
     save = (<[txt_file := ""]> fs, Failed (FromReport e), S t)) /\
  (format = "both" ->
     forall e, _format_report_text items report = Raise e ->
     save = (<[txt_file := ""]> (<[json_file := dump_report report]> fs),
             Failed (FromReport e), S t)) /\
  (format <> "json" -> format <> "txt" -> format <> "both" ->
     save = (fs, Failed UnboundLocalError, S t)).
Proof.
  intros json_file txt_file save. subst save.
  refine (conj _ (conj _ (conj _ (conj _ (conj _ (conj _ _)))))).
  - unfold save_report.
    destruct (String.eqb format "txt" || String.eqb format "both");
      [destruct (_format_report_text items report); reflexivity|].
    destruct (String.eqb format "json"); reflexivity.
  - intros ->. reflexivity.
  - intros -> text E. unfold save_report.
    change (String.eqb "txt" "json") with false.
    change (String.eqb "txt" "both") with false.
    change (String.eqb "txt" "txt") with true. cbn [orb].
    rewrite E. fold txt_file. now rewrite insert_insert_eq.
  - intros -> text E. pose proof (save_report_both fs report t) as H.
    cbv zeta in H. rewrite E in H. exact H.
  - intros -> e E. unfold save_report.
    change (String.eqb "txt" "json") with false.
    change (String.eqb "txt" "both") with false.
    change (String.eqb "txt" "txt") with true. cbn [orb].
    rewrite E. reflexivity.
  - intros -> e E. pose proof (save_report_both fs report t) as H.
    cbv zeta in H. rewrite E in H. exact H.
  - intros H1 H2 H3. unfold save_report.
    apply String.eqb_neq in H1, H2, H3. rewrite H1, H2, H3. reflexivity.
Qed.

(** X20. The driver's [_generate_report] writes nothing when no
    snapshot was collected. When the list holds snapshots that
    [collect_snapshot] returned, it never raises: it reads the clock
    twice, returns the path of the text file, and leaves the JSON file
    and the text file of the report in the report directory, both named
    after the second reading; the text file holds the rendering of the
    report. *)
Theorem driver_report_files (st : MonitorState) (kernel_events : list Analysis)
        (leak_process_pid : option Z) (t : nat) :
  Forall (collected clock) (get_all_data st) ->
  let run := _generate_report dump_report items output_dir clock strftime
               st kernel_events leak_process_pid t in
  match get_all_data st with
  | [] => run = (files st, Returned None, t)
  | _ :: _ =>
      exists report text,
        generate_report clock (get_all_data st) kernel_events leak_process_pid t
          = Ok (report, S t) /\
        _format_report_text items report = Ok text /\
        let json_file :=
          path output_dir ("diagnostic_report_" +:+ strftime (S t) +:+ ".json") in
        let txt_file :=
          path output_dir ("diagnostic_report_" +:+ strftime (S t) +:+ ".txt") in
        run = (<[txt_file := text]> (<[json_file := dump_report report]> (files st)),
               Returned (Some txt_file), S (S t))
  end.
Proof.
  intros Hc run. subst run. unfold _generate_report.
  destruct (get_all_data st) as [|s rest] eqn:Edata; [reflexivity|].
  pose proof (collected_history_numeric clock _ Hc) as Hnum.
  destruct (generate_report_details clock s rest kernel_events leak_process_pid t Hnum)
    as (report & d & E & Hd).
  destruct (format_with_details items report d Hd) as (text & Et).
  exists report, text. split; [exact E|]. split; [exact Et|].
  cbv zeta. rewrite E.
  pose proof (save_report_both (files st) report (S t)) as H.
  cbv zeta in H. rewrite Et in H. rewrite H. reflexivity.
Qed.
End SavingFacts.

Section SavingWitness.
Import Py ReportGenerator ReportText Saving PipelineSpec.

(** One collected snapshot in the list: the driver returns a path. *)
Lemma driver_report_files_witness :
  exists fs report_path,
    _generate_report (fun _ => "{}") (fun killed => map_to_list killed) "reports"
      Sample.clock (fun _ => "20240501_120000")
      {| monitoring_data := [collected_once]; files := ∅ |} [] (Some 2) 3
    = (fs, Returned (Some report_path), 5%nat).
Proof.
  pose proof (driver_report_files (fun _ => "{}") (fun killed => map_to_list killed)
                "reports" Sample.clock (fun _ => "20240501_120000")
                {| monitoring_data := [collected_once]; files := ∅ |}
                [] (Some 2) 3) as H.
  cbn [get_all_data monitoring_data] in H.
  destruct H as (report & text & _ & _ & E).
  - constructor; [|constructor].
    exists small_host, (Some 2), 0%nat, 3%nat. vm_compute. reflexivity.
  - eexists _, _. exact E.
Defined.
End SavingWitness.

Section LogReadingFacts.
Import Py LogReading KernelEventAnalyzer.

Lemma split_lines_cons (s : string) : exists first others, split_lines s = first :: others.
Proof.
  induction s as [|c s (first & others & IH)]; cbn [split_lines]; [eauto|].
  destruct (Ascii.eqb c newline); [eauto|]. rewrite IH. eauto.
Qed.

Lemma split_lines_length (s : string) : length (split_lines s) = S (breaks s).
Proof.
  induction s as [|c s IH]; [reflexivity|]. cbn [split_lines breaks].
  destruct (Ascii.eqb c newline); cbn [length]; [now rewrite IH|].
  destruct (split_lines_cons s) as (first & others & E). rewrite E in IH |- *.
  exact IH.
Qed.

Lemma split_lines_free (s : string) :
  Forall (fun line => breaks line = 0%nat) (split_lines s).
Proof.
  induction s as [|c s IH]; cbn [split_lines]; [repeat constructor|].
  destruct (Ascii.eqb c newline) eqn:E; [constructor; [reflexivity | exact IH]|].
  destruct (split_lines s) as [|first others]; [repeat constructor; cbn; now rewrite E|].
  apply Forall_cons in IH as [H1 H2]. constructor; [|exact H2].
  cbn [breaks]. now rewrite E, H1.
Qed.

Lemma concat_two (sep x y : string) (l : list string) :
  String.concat sep (x :: y :: l) = x +:+ sep +:+ String.concat sep (y :: l).
Proof. reflexivity. Qed.

Lemma split_lines_join (s : string) :
  String.concat (String newline EmptyString) (split_lines s) = s.
Proof.
  induction s as [|c s IH]; [reflexivity|]. cbn [split_lines].
  destruct (split_lines_cons s) as (first & others & E). rewrite E in IH |- *.
  destruct (Ascii.eqb_spec c newline) as [->|Hc].
  - rewrite concat_two, IH. reflexivity.
  - rewrite <- IH. destruct others as [|second others]; [reflexivity|].
    rewrite !concat_two. reflexivity.
Qed.

Lemma extend_from_output (m : Machine) (command : list string) (logs : list string) :
  extend_from m command logs =
    logs ++ concat (split_lines <$> omap (output_of m) [command]).
Proof.
  unfold extend_from, output_of. cbn [omap list_omap].
  destruct (run m command) as [result|e]; [|now rewrite app_nil_r].
  destruct (returncode result =? 0); cbn; now rewrite ?app_nil_r.
Qed.

Lemma sources_fold (m : Machine) (lines : Z) (sources : list string)
      (logs : list string) :
  fold_left (fun logs log_source =>
               if path_exists m log_source
               then extend_from m ["tail"; "-n"; pretty lines; log_source] logs
               else logs)
            sources logs
  = logs ++ concat (split_lines <$>
                    omap (output_of m)
                      ((fun log_source => ["tail"; "-n"; pretty lines; log_source])
                         <$> filter (fun log_source => path_exists m log_source = true)
                                    sources)).
Proof.
  revert logs. induction sources as [|src sources IH]; intros logs.
  - cbn. now rewrite app_nil_r.
  - cbn [fold_left]. rewrite IH. rewrite filter_cons.
    destruct (path_exists m src) eqn:E.
    + rewrite decide_True by reflexivity.
      rewrite fmap_cons. cbn [omap list_omap]. unfold extend_from, output_of.
      destruct (run m _) as [result|e]; [|reflexivity].
      destruct (returncode result =? 0); [|reflexivity].
      rewrite fmap_cons. cbn [concat]. now rewrite app_assoc.
    + rewrite decide_False by discriminate. reflexivity.
Qed.

(** X22. [read_kernel_logs] returns, in order, the lines of the output
    of every command that ran and returned code 0: [tail] on each log
    file that exists, then [dmesg]; a command that raises or fails adds
    nothing. No line holds a line break, joining the lines of one output
    with line breaks gives the output back, and each output counts one
    line more than it has line breaks, so that an output that ends in a
    line break (or is empty) adds an empty last line to the count. *)
Theorem read_kernel_logs_lines (m : Machine) (lines : Z) :
  let outputs := omap (output_of m) (commands m lines) in
  read_kernel_logs m lines = concat (split_lines <$> outputs) /\
  Forall (fun line => breaks line = 0%nat) (read_kernel_logs m lines) /\
  length (read_kernel_logs m lines) = (length outputs + sum_list (breaks <$> outputs))%nat /\
  Forall (fun output =>
            String.concat (String newline EmptyString) (split_lines output) = output)
         outputs.
Proof.
  intros outputs.
  assert (E : read_kernel_logs m lines = concat (split_lines <$> outputs)).
  { unfold read_kernel_logs. rewrite extend_from_output, sources_fold.
    subst outputs. unfold commands. rewrite omap_app, fmap_app, concat_app.
    reflexivity. }
  split; [exact E|]. rewrite E. clear E. generalize outputs. clear outputs.
  intros outputs. refine (conj _ (conj _ _)).
  - apply Forall_concat, Forall_fmap, Forall_forall. intros o _.
    apply split_lines_free.
  - induction outputs as [|o outputs IH]; [reflexivity|].
    rewrite !fmap_cons. cbn [concat sum_list length].
    rewrite length_app, split_lines_length, IH. unfold sum_list.
    cbn [sum_list_with]. unfold id. lia.
  - apply Forall_forall. intros o _. apply split_lines_join.
Qed.

(** When [dmesg] alone works and prints nothing, one empty line is
    read. *)
Example empty_dmesg_is_one_line : read_kernel_logs (dmesg_only "") 1000 = [""].
Proof. reflexivity. Qed.
End LogReadingFacts.

Section MemoryFigures.
Import Py ResourceMonitor.
Variable clock : nat -> string.

Lemma round_half_even_close (q : Q) :
  (q - (1 # 2) <= inject_Z (round_half_even q) <= q + (1 # 2))%Q.
Proof.
  pose proof (Qfloor_le q) as Hlo. pose proof (Qlt_floor q) as Hhi.
  rewrite inject_Z_plus in Hhi. change (inject_Z 1) with 1%Q in Hhi.
  unfold round_half_even. cbv zeta.
  destruct (Qcompare (q - inject_Z (Qfloor q)) (1 # 2)) eqn:C;
    [apply Qeq_alt in C | apply Qlt_alt in C | apply Qgt_alt in C].
  - destruct (Z.even (Qfloor q)).
    + split; lra.
    + rewrite inject_Z_plus. change (inject_Z 1) with 1%Q. split; lra.
  - split; lra.
  - rewrite inject_Z_plus. change (inject_Z 1) with 1%Q. split; lra.
Qed.

Lemma round2_close (q : Q) : (q - (1 # 200) <= round2 q <= q + (1 # 200))%Q.
Proof.
  unfold round2. rewrite Qred_correct.
  pose proof (round_half_even_close (q * 100)) as [H1 H2].
  generalize dependent (inject_Z (round_half_even (q * 100))). intros r H1 H2.
  change (r / 100)%Q with (r * (1 # 100))%Q. split; lra.
Qed.

Lemma to_mb_mono (b1 b2 : Z) : b1 <= b2 -> (to_mb b1 <= to_mb b2)%Q.
Proof.
  intros H. unfold to_mb. apply round2_mono.
  apply Qmult_le_compat_r; [now rewrite <- Zle_Qle | discriminate].
Qed.

Lemma to_mb_whole (n : Z) : (to_mb (n * (1024 * 1024)) == inject_Z n)%Q.
Proof.
  unfold to_mb.
  assert (E : (inject_Z (n * (1024 * 1024)) / inject_Z (1024 * 1024) == inject_Z n)%Q).
  { rewrite inject_Z_mult. field. discriminate. }
  unfold round2. rewrite Qred_correct.
  assert (R : round_half_even
                (inject_Z (n * (1024 * 1024)) / inject_Z (1024 * 1024) * 100)
              = n * 100).
  { assert (E' : (inject_Z (n * (1024 * 1024)) / inject_Z (1024 * 1024) * 100
                  == inject_Z (n * 100))%Q).
    { rewrite E, inject_Z_mult. reflexivity. }
    unfold round_half_even. cbv zeta.
    assert (F : Qfloor (inject_Z (n * (1024 * 1024)) / inject_Z (1024 * 1024) * 100)
                = n * 100).
    { rewrite (Qfloor_comp _ _ E'). apply Qfloor_Z. }
    rewrite F.
    replace (Qcompare _ _) with Lt; [reflexivity|].
    symmetry. apply (proj1 (Qlt_alt _ _)). rewrite E'.
    generalize (inject_Z (n * 100)). intros x. lra. }
  rewrite R, inject_Z_mult. field.
Qed.

(** X23. The megabyte figures of [get_memory_info] are the byte counts
    divided by 1048576 and rounded to two decimals: each is within
    0.005 of the exact quotient, a whole number of MiB is reported
    exactly, and the rounding keeps the order of the byte counts. So on
    a host that reports at least 100 MiB available the snapshot shows at
    least 100 MB, and the low-memory message of
    [check_critical_conditions] is not raised for it. *)
Theorem memory_figures_rounded (h : Host) (t : nat) :
  let mem := snd (fst (fst (get_memory_info clock h t))) in
  let exact (bytes : Z) := (inject_Z bytes / inject_Z (1024 * 1024))%Q in
  (forall bytes,
     (exact bytes - (1 # 200) <= to_mb bytes <= exact bytes + (1 # 200))%Q) /\
  (forall n, (to_mb (n * (1024 * 1024)) == inject_Z n)%Q) /\
  (forall b1 b2, b1 <= b2 -> (to_mb b1 <= to_mb b2)%Q) /\
  (vm_available (virtual_memory h) <= vm_total (virtual_memory h) ->
     (mem_available_mb mem <= mem_total_mb mem)%Q) /\
  (100 * (1024 * 1024) <= vm_available (virtual_memory h) ->
     (100 <= mem_available_mb mem)%Q /\
     Qltb (mem_available_mb mem) 100 = false).
Proof.
  intros mem exact. subst mem exact. cbn [get_memory_info fst snd mem_available_mb
                                           mem_total_mb].
  refine (conj _ (conj _ (conj _ (conj _ _)))).
  - intros bytes. apply round2_close.
  - apply to_mb_whole.
  - apply to_mb_mono.
  - apply to_mb_mono.
  - intros H.
    assert (G : (100 <= to_mb (vm_available (virtual_memory h)))%Q).
    { rewrite <- (to_mb_whole 100). now apply to_mb_mono. }
    split; [exact G|]. apply Qltb_false. now apply Qle_not_lt.
Qed.
End MemoryFigures.

Section PidZero.
Import Py ResourceMonitor ReportGenerator ProcessSpec.
Variable clock : nat -> string.

(** Without a pid to track, every non-empty history is reported. *)
Lemma generate_report_untracked (s : Snapshot) (rest : list Snapshot)
      (kernel_events : list Analysis) (t : nat) :
  exists report,
    generate_report clock (s :: rest) kernel_events None t = Ok (report, S t) /\
    leak_process_tracking report = None.
Proof.
  destruct (maxima_of_history s rest)
    as (mm & ms & mc & Emm & Hmm & Ems & Hms & Emc & Hmc).
  destruct (summary_of_maxima s rest kernel_events mm ms mc Emm Ems Emc)
    as (d & Esum & _).
  destruct (analyze_memory_block s rest) as (mem & Emem & _).
  destruct (analyze_cpu_block s rest) as (cpu & Ecpu & _).
  destruct (analyze_swap_block s rest) as (swp & Eswp & _).
  pose proof (recommendations_of_maxima s rest kernel_events mm ms mc Emm Ems Emc)
    as Erec.
  cbv zeta in Esum, Emem, Ecpu, Eswp, Erec.
  unfold generate_report.
  rewrite Esum. cbn [bind]. rewrite Emem. cbn [bind]. rewrite Ecpu. cbn [bind].
  rewrite Eswp. cbn [bind]. rewrite Erec. cbn [bind pid_truthy].
  eexists. split; reflexivity.
Qed.

(** C10. A tracked pid of 0 behaves as no pid. [get_process_info(0)] is
    the outcome of the enumerate-all call: the records of the whole
    process table, sorted by memory and cut to ten; on a host whose
    processes all answer it returns min(10, number of processes)
    records, one per process of the table, and not the single record of
    the process with pid 0. [collect_snapshot(0)] is the outcome of
    [collect_snapshot()]; on such a host it returns a snapshot with that
    list and no [leak_process]. [generate_report] with pid 0 is the
    outcome of [generate_report] without a pid; for every non-empty
    history it returns a report, which carries no
    [leak_process_tracking]. *)
Theorem pid_zero_is_no_pid
        (h : Host) (monitoring_data : list Snapshot)
        (kernel_events : list Analysis) (t : nat) :
  get_process_info h (Some 0) = get_process_info h None /\
  get_process_info h (Some 0) =
    (let! processes := enumerate (process_iter h) [] in
     let! processes := sort_reverse (fun x => getitem x "memory_mb") processes in
     Ok (take 10 processes)) /\
  (Forall readable (process_iter h) ->
     exists ds sorted,
       Forall2 describes (process_iter h) ds /\
       sorted ≡ₚ ds /\
       StronglySorted memory_ge sorted /\
       get_process_info h (Some 0) = Ok (take 10 sorted) /\
       length (take 10 sorted) = Nat.min 10 (length (process_iter h)) /\
       exists snapshot,
         collect_snapshot clock h (Some 0) t = Ok (snapshot, (3 + t)%nat) /\
         top_processes snapshot = take 10 sorted /\
         leak_process snapshot = None) /\
  collect_snapshot clock h (Some 0) t = collect_snapshot clock h None t /\
  (forall snapshot t', collect_snapshot clock h (Some 0) t = Ok (snapshot, t') ->
     leak_process snapshot = None) /\
  generate_report clock monitoring_data kernel_events (Some 0) t
    = generate_report clock monitoring_data kernel_events None t /\
  (forall report t',
     generate_report clock monitoring_data kernel_events (Some 0) t = Ok (report, t') ->
     leak_process_tracking report = None) /\
  (monitoring_data <> [] ->
     exists report,
       generate_report clock monitoring_data kernel_events (Some 0) t
         = Ok (report, S t) /\
       leak_process_tracking report = None).
Proof.
  split; [reflexivity|]. split; [reflexivity|]. split.
  { intros Hr. destruct (readable_top_list h Hr) as (ds & sorted & H1 & H2 & H3 & E & Hl).
    exists ds, sorted. do 3 (split; [assumption|]).
    split; [exact E|]. split; [exact Hl|].
    unfold collect_snapshot. cbn [pid_truthy Z.eqb get_memory_info get_cpu_info].
    rewrite E. cbn [bind]. eexists. split; [reflexivity|]. split; reflexivity. }
  split; [reflexivity|]. split.
  { intros snapshot t'. unfold collect_snapshot. cbn [pid_truthy Z.eqb].
    cbn [get_memory_info get_cpu_info].
    destruct (get_process_info h None) as [top|e]; cbn [bind]; [|discriminate].
    now intros [= <- _]. }
  split; [reflexivity|]. split.
  { intros report t'. unfold generate_report. cbn [pid_truthy Z.eqb].
    destruct (_generate_executive_summary _ _); cbn [bind]; [|discriminate].
    destruct (_analyze_memory _); cbn [bind]; [|discriminate].
    destruct (_analyze_cpu _); cbn [bind]; [|discriminate].
    destruct (_analyze_swap _); cbn [bind]; [|discriminate].
    destruct (_generate_recommendations _ _); cbn [bind]; [|discriminate].
    now intros [= <- _]. }
  intros Hne. destruct monitoring_data as [|s rest]; [congruence|].
  apply generate_report_untracked.
Qed.
End PidZero.

Section PidZeroWitness.
Import Py ResourceMonitor ReportGenerator.

(** A host that runs the processes 0, 1 and 2: asked for pid 0, the
    collector returns all three records, the largest first, and attaches
    no tracked record. *)
Lemma pid_zero_is_no_pid_witness :
  let h := Sample.host_with [Sample.process_with 0 (Ok 1048576);
                             Sample.process_with 1 (Ok 20971520);
                             Sample.process_with 2 (Ok 3145728)] in
  exists top snapshot,
    get_process_info h (Some 0) = Ok top /\
    length top = 3%nat /\
    collect_snapshot Sample.clock h (Some 0) 0 = Ok (snapshot, 3%nat) /\
    top_processes snapshot = top /\
    leak_process snapshot = None.
Proof.
  intros h.
  destruct (pid_zero_is_no_pid Sample.clock h [] [] 0) as (_ & _ & H & _).
  destruct H as (ds & sorted & _ & _ & _ & E & Hl & snapshot & Es & Ht & Hn).
  - repeat constructor.
  - exists (take 10 sorted), snapshot. auto.
Defined.
End PidZeroWitness.
